(** * Fashion Studio ETL pipeline: extraction, transformation and loading

    A shallow embedding of [utils/extract.py], [utils/transform.py],
    [utils/load.py] and of the pipeline of [main.py].

    Modelling conventions.
    - A Python [str] is a Rocq [string]: the bytes of its UTF-8 encoding.  The
      classes [\d] and [\s] and [str.strip] are modelled on the ASCII
      characters; a character outside ASCII (the star of a rating line) is a
      run of bytes that is neither a digit nor white space.
    - A Python [float] is the rational number it denotes ([Qc], in lowest
      terms, so that equality of values is equality of terms); rounding to
      binary64 and the fixed-width storage of pandas columns are not modelled.
    - An exception is a value: its class and its message.  Printing to the
      console is not modelled.
    - The HTML parser, the clock and the network, the file system, the
      spreadsheet service and the database are parameters of the functions
      that call them: what is proved holds whatever they answer. *)

From Stdlib Require Import String Ascii List ZArith QArith Qcanon Bool Arith Lia.
From Stdlib Require Import DecimalString.
Import ListNotations.

Set Implicit Arguments.
Close Scope Qc_scope.
Close Scope Q_scope.
Open Scope string_scope.

(* ================================================================== *)
(** * Python values, exceptions and results *)

Inductive pyval : Type :=
| PNone
| PStr (s : string)
| PInt (z : Z)
| PFloat (q : Qc).

Inductive exn : Type :=
| ValueError (msg : string)
| KeyError (arg : string)          (* the [repr] of its argument *)
| RequestException (msg : string)
| Exception (msg : string).

(** [str(e)] *)
Definition str_exn (e : exn) : string :=
  match e with
  | ValueError m => m
  | KeyError r => r
  | RequestException m => m
  | Exception m => m
  end.

(** [repr(k)] for a plain word [k] *)
Definition repr_word (k : string) : string := "'" ++ k ++ "'".

Inductive result (A : Type) : Type :=
| Ok (a : A)
| Raise (e : exn).
Arguments Ok {A} a.
Arguments Raise {A} e.

Definition bind {A B} (r : result A) (k : A -> result B) : result B :=
  match r with
  | Ok a => k a
  | Raise e => Raise e
  end.

Notation "x <- r ;; k" := (bind r (fun x => k))
  (at level 61, r at next level, right associativity).

(** [try: body except Exception as e: raise wrap(e)] *)
Definition try_except {A} (body : result A) (handler : exn -> exn) : result A :=
  match body with
  | Ok a => Ok a
  | Raise e => Raise (handler e)
  end.

Fixpoint mapM {A B} (f : A -> result B) (l : list A) : result (list B) :=
  match l with
  | [] => Ok []
  | a :: l' => b <- f a ;; bs <- mapM f l' ;; Ok (b :: bs)
  end.

(** [str(n)] for an [int] *)
Definition str_int (z : Z) : string := NilZero.string_of_int (Z.to_int z).

(* ================================================================== *)
(** * Strings *)

Definition is_space (c : ascii) : bool :=
  let n := nat_of_ascii c in
  (((9 <=? n) && (n <=? 13)) || ((28 <=? n) && (n <=? 32)))%nat.

Definition is_digit (c : ascii) : bool :=
  let n := nat_of_ascii c in ((48 <=? n) && (n <=? 57))%nat.

Definition is_char (a c : ascii) : bool := Ascii.eqb a c.

Definition is_digit_or_comma (c : ascii) : bool := is_digit c || is_char "," c.

Fixpoint lstrip (s : string) : string :=
  match s with
  | "" => ""
  | String c s' => if is_space c then lstrip s' else s
  end.

Fixpoint rstrip (s : string) : string :=
  match s with
  | "" => ""
  | String c s' =>
      match rstrip s' with
      | "" => if is_space c then "" else String c ""
      | r => String c r
      end
  end.

(** [s.strip()] *)
Definition strip (s : string) : string := lstrip (rstrip s).

(** [sub in s] *)
Fixpoint contains (sub s : string) : bool :=
  prefix sub s ||
  match s with
  | "" => false
  | String _ s' => contains sub s'
  end.

(** [s.replace(old, '')] for a non-empty [old]: the occurrences of [old] are
    found from the left and do not overlap; [skip] counts the characters of
    the occurrence under deletion that are still to be passed. *)
Fixpoint remove_from (old : string) (skip : nat) (s : string) : string :=
  match s with
  | "" => ""
  | String c s' =>
      match skip with
      | S n => remove_from old n s'
      | O => if prefix old s
             then remove_from old (String.length old - 1) s'
             else String c (remove_from old 0 s')
      end
  end.

Definition remove_all (old s : string) : string := remove_from old 0 s.

Fixpoint filter_str (p : ascii -> bool) (s : string) : string :=
  match s with
  | "" => ""
  | String c s' => if p c then String c (filter_str p s') else filter_str p s'
  end.

Fixpoint forall_str (p : ascii -> bool) (s : string) : bool :=
  match s with
  | "" => true
  | String c s' => p c && forall_str p s'
  end.

Fixpoint exists_str (p : ascii -> bool) (s : string) : bool :=
  match s with
  | "" => false
  | String c s' => p c || exists_str p s'
  end.

(** the longest prefix of [s] in the class [p], and what follows it *)
Fixpoint take_while (p : ascii -> bool) (s : string) : string :=
  match s with
  | "" => ""
  | String c s' => if p c then String c (take_while p s') else ""
  end.

Fixpoint drop_while (p : ascii -> bool) (s : string) : string :=
  match s with
  | "" => ""
  | String c s' => if p c then drop_while p s' else s
  end.

(* ================================================================== *)
(** * Regular expressions: the fragment of [re] that the cleaners use

    Quantifiers apply to character classes only and are greedy; matching
    backtracks: a quantifier gives characters back when what follows it
    fails.  Every pattern of the program has exactly one capturing group,
    which takes part in every match: a pattern is what stands before the
    group, the group, and what stands after it. *)

Inductive regex : Type :=
| Eps                            (* the empty pattern *)
| Cls (p : ascii -> bool)        (* one character of the class *)
| Opt (p : ascii -> bool)        (* [c?] *)
| Star (p : ascii -> bool)       (* [c*] *)
| Plus (p : ascii -> bool)       (* [c+] *)
| Cat (r1 r2 : regex).

Record pattern : Type := mkPattern {
  before : regex;
  group : regex;
  after : regex
}.

Definition or_else {A} (x y : option A) : option A :=
  match x with
  | Some a => Some a
  | None => y
  end.

Section Matcher.
Variable A : Type.

(** the longest run first, then shorter ones *)
Fixpoint star (p : ascii -> bool) (s : string) (k : string -> option A) : option A :=
  match s with
  | "" => k ""
  | String c s' => if p c then or_else (star p s' k) (k s) else k s
  end.

(** [exec r s k]: match [r] at the head of [s]; [k] is what remains to be
    matched, applied to the rest of the text; [None] makes the caller try
    its next alternative. *)
Fixpoint exec (r : regex) (s : string) (k : string -> option A) : option A :=
  match r with
  | Eps => k s
  | Cls p =>
      match s with
      | "" => None
      | String c s' => if p c then k s' else None
      end
  | Opt p =>
      match s with
      | "" => k s
      | String c s' => if p c then or_else (k s') (k s) else k s
      end
  | Star p => star p s k
  | Plus p =>
      match s with
      | "" => None
      | String c s' => if p c then star p s' k else None
      end
  | Cat r1 r2 => exec r1 s (fun s' => exec r2 s' k)
  end.
End Matcher.

(** the text between two positions, each given by what is left to read *)
Definition consumed (s s' : string) : string :=
  substring 0 (String.length s - String.length s') s.

(** [re.match(pt, s).group(1)]: the match at the head of [s] *)
Definition re_match (pt : pattern) (s : string) : option string :=
  exec (before pt) s (fun s1 =>
  exec (group pt) s1 (fun s2 =>
  exec (after pt) s2 (fun _ => Some (consumed s1 s2)))).

(** [re.search(pt, s).group(1)]: the leftmost position where [pt] matches *)
Fixpoint re_search (pt : pattern) (s : string) : option string :=
  or_else (re_match pt s)
    match s with
    | "" => None
    | String _ s' => re_search pt s'
    end.

(* ================================================================== *)
(** * Numbers from text *)

Definition digit_value (c : ascii) : Z := Z.of_nat (nat_of_ascii c - 48).

Fixpoint digits_value (acc : Z) (s : string) : Z :=
  match s with
  | "" => acc
  | String c s' => digits_value (10 * acc + digit_value c) s'
  end.

(** the number written [ip.fp] *)
Definition decimal (ip fp : string) : Qc :=
  Q2Qc (Qmake (digits_value 0 (ip ++ fp)) (Z.to_pos (10 ^ Z.of_nat (String.length fp)))).

Definition nonempty (s : string) : bool :=
  match s with
  | "" => false
  | _ => true
  end.

(** [float(s)] on plain decimal numerals: digits, at most one point, at least
    one digit.  The patterns capture nothing else, up to a text without any
    digit, for which [float] raises as here.  (Signs, exponents and the other
    literals that [float] reads do not reach it.) *)
Definition py_float (s : string) : result Qc :=
  let ip := take_while is_digit s in
  let bad := ValueError ("could not convert string to float: '" ++ s ++ "'") in
  match drop_while is_digit s with
  | "" => if nonempty ip then Ok (decimal ip "") else Raise bad
  | String c fp =>
      if is_char "." c && forall_str is_digit fp && (nonempty ip || nonempty fp)
      then Ok (decimal ip fp)
      else Raise bad
  end.

(** CPython refuses to convert a numeral of more than 4300 digits to [int] *)
Definition int_max_str_digits : nat := 4300.

(** [int(s)] on a run of digits *)
Definition py_int (s : string) : result Z :=
  if forall_str is_digit s && nonempty s then
    if (int_max_str_digits <? String.length s)%nat then
      Raise (ValueError ("Exceeds the limit (4300 digits) for integer string conversion: value has "
                         ++ str_int (Z.of_nat (String.length s))
                         ++ " digits; use sys.set_int_max_str_digits() to increase the limit"))
    else Ok (digits_value 0 s)
  else Raise (ValueError ("invalid literal for int() with base 10: '" ++ s ++ "'")).

(* ================================================================== *)
(** * utils/transform.py: the field cleaners *)

(** Exchange rate: 1 USD = 16,000 IDR *)
Definition USD_TO_IDR_RATE : Z := 16000.

(** The patterns, as the source writes them; in these comments a blank
    parts a star from the parenthesis that follows it in the source. *)

(** a numeral: [\d+\.?\d*] *)
Definition number : regex := Cat (Plus is_digit) (Cat (Opt (is_char ".")) (Star is_digit)).

(** the pattern [\$?([\d,]+\.?\d* )] *)
Definition price_pattern : pattern :=
  mkPattern (Opt (is_char "$"))
            (Cat (Plus is_digit_or_comma) (Cat (Opt (is_char ".")) (Star is_digit)))
            Eps.

(** the pattern [(\d+\.?\d* )\s*/\s*5] *)
Definition rating_pattern : pattern :=
  mkPattern Eps number
            (Cat (Star is_space) (Cat (Cls (is_char "/")) (Cat (Star is_space) (Cls (is_char "5"))))).

(** the pattern [(\d+\.?\d* )] *)
Definition number_pattern : pattern := mkPattern Eps number Eps.

(** the pattern [(\d+)] *)
Definition digits_pattern : pattern := mkPattern Eps (Plus is_digit) Eps.

(** [not x or not isinstance(x, str)]: the text of a non-empty [str] *)
Definition text_of (v : pyval) : option string :=
  match v with
  | PStr s => if nonempty s then Some s else None
  | _ => None
  end.

Definition clean_price (price_str : pyval) : result (option Qc) :=
  match text_of price_str with
  | None => Ok None
  | Some s0 =>
      let price_str := strip s0 in
      try_except
        (if contains "Unavailable" price_str || contains "unavailable" price_str then Ok None
         else match re_search price_pattern price_str with
              | Some g =>
                  price_usd <- py_float (remove_all "," g) ;;
                  let price_idr := Qcmult price_usd (Q2Qc (inject_Z USD_TO_IDR_RATE)) in
                  Ok (Some price_idr)
              | None => Ok None
              end)
        (fun e => ValueError ("Error cleaning price '" ++ price_str ++ "': " ++ str_exn e))
  end.

Definition clean_rating (rating_str : pyval) : result (option Qc) :=
  match text_of rating_str with
  | None => Ok None
  | Some s0 =>
      let rating_str := strip s0 in
      try_except
        (if contains "Invalid" rating_str || contains "Not Rated" rating_str then Ok None
         else match re_search rating_pattern rating_str with
              | Some g => r <- py_float g ;; Ok (Some r)
              | None =>
                  match re_search number_pattern rating_str with
                  | Some g => r <- py_float g ;; Ok (Some r)
                  | None => Ok None
                  end
              end)
        (fun e => ValueError ("Error cleaning rating '" ++ rating_str ++ "': " ++ str_exn e))
  end.

Definition clean_colors (colors_str : pyval) : result (option Z) :=
  match text_of colors_str with
  | None => Ok None
  | Some s0 =>
      let colors_str := strip s0 in
      try_except
        (match re_search digits_pattern colors_str with
         | Some g => n <- py_int g ;; Ok (Some n)
         | None => Ok None
         end)
        (fun e => ValueError ("Error cleaning colors '" ++ colors_str ++ "': " ++ str_exn e))
  end.

Definition clean_size (size_str : pyval) : result (option string) :=
  match text_of size_str with
  | None => Ok None
  | Some s0 =>
      let size_str := strip s0 in
      try_except
        ((* Remove "Size: " prefix *)
         let size := strip (remove_all "Size:" size_str) in
         if nonempty size then Ok (Some size) else Ok None)
        (fun e => ValueError ("Error cleaning size '" ++ size_str ++ "': " ++ str_exn e))
  end.

Definition clean_gender (gender_str : pyval) : result (option string) :=
  match text_of gender_str with
  | None => Ok None
  | Some s0 =>
      let gender_str := strip s0 in
      try_except
        ((* Remove "Gender: " prefix *)
         let gender := strip (remove_all "Gender:" gender_str) in
         if nonempty gender then Ok (Some gender) else Ok None)
        (fun e => ValueError ("Error cleaning gender '" ++ gender_str ++ "': " ++ str_exn e))
  end.

(* ================================================================== *)
(** * Product dictionaries and data frames *)

(** A product dictionary as [parse_product] and [scrape_all_pages] build it
    and [transform_data] receives it: at most the seven keys, [None] for a
    key that the dictionary does not have.  The title and the timestamp are
    text; the five fields that have a cleaner hold any value. *)
Record product : Type := mkProduct {
  Title : option string;
  Price : option pyval;
  Rating : option pyval;
  Colors : option pyval;
  Size : option pyval;
  Gender : option pyval;
  timestamp : option string
}.

Definition all_keys : list string :=
  ["Title"; "Price"; "Rating"; "Colors"; "Size"; "Gender"; "timestamp"].

Definition is_some {A} (o : option A) : bool :=
  match o with
  | Some _ => true
  | None => false
  end.

(** [k in p] *)
Definition has_key (k : string) (p : product) : bool :=
  if k =? "Title" then is_some (Title p)
  else if k =? "Price" then is_some (Price p)
  else if k =? "Rating" then is_some (Rating p)
  else if k =? "Colors" then is_some (Colors p)
  else if k =? "Size" then is_some (Size p)
  else if k =? "Gender" then is_some (Gender p)
  else if k =? "timestamp" then is_some (timestamp p)
  else false.

(** A row of a frame; the types of the five cleaned cells change as the
    cleaners and the coercions are applied.  A cell of the title or the
    timestamp column is [None] when it is NaN. *)
Record row (P R C S G : Type) : Type := mkRow {
  c_Title : option string;
  c_Price : P;
  c_Rating : R;
  c_Colors : C;
  c_Size : S;
  c_Gender : G;
  c_timestamp : option string
}.

(** The labels of the columns and the rows.  The index is the position in
    the list, so that [reset_index(drop=True)] changes nothing. *)
Record DataFrame (P R C S G : Type) : Type := mkFrame {
  columns : list string;
  rows : list (row P R C S G)
}.

Definition raw_frame : Type := DataFrame pyval pyval pyval pyval pyval.
Definition clean_row : Type :=
  row (option Qc) (option Qc) (option Z) (option string) (option string).
Definition clean_frame : Type :=
  DataFrame (option Qc) (option Qc) (option Z) (option string) (option string).

(** a value that a dictionary lacks is NaN in the frame, and NaN is to every
    step of the program what [None] is *)
Definition or_nan (v : option pyval) : pyval :=
  match v with
  | Some x => x
  | None => PNone
  end.

(** [pd.DataFrame(data)]: a column for every key that some dictionary has.
    The columns are listed in the order of [all_keys]; their order matters
    to no step before the final selection. *)
Definition row_of_dict (p : product) : row pyval pyval pyval pyval pyval :=
  mkRow (Title p) (or_nan (Price p)) (or_nan (Rating p)) (or_nan (Colors p))
        (or_nan (Size p)) (or_nan (Gender p)) (timestamp p).

Definition pd_DataFrame (data : list product) : raw_frame :=
  mkFrame (filter (fun k => existsb (has_key k) data) all_keys) (map row_of_dict data).

Definition dquote : string := String (ascii_of_nat 34) "".

(** [repr] of a list of plain words *)
Definition repr_words (l : list string) : string :=
  "[" ++ String.concat ", " (map repr_word l) ++ "]".

Section Frames.
Context {P R C S G : Type}.
Let frame : Type := DataFrame P R C S G.

Definition has_column (df : frame) (k : string) : bool :=
  existsb (String.eqb k) (columns df).

(** [df[k]] *)
Definition getitem (df : frame) (k : string) : result unit :=
  if has_column df k then Ok tt else Raise (KeyError (repr_word k)).

(** [df[df['Title'] != word]] *)
Definition title_is_not (word : string) (df : frame) : result frame :=
  _ <- getitem df "Title" ;;
  Ok (mkFrame (columns df)
        (filter (fun r => match c_Title r with
                          | Some t => negb (t =? word)
                          | None => true
                          end) (rows df))).

(** [df[k] = df[k].apply(f)]: the column must exist; [f] is applied down
    the column, and [upd] is what that does to a row *)
Definition apply_column {P' R' C' S' G'} (k : string)
  (upd : row P R C S G -> result (row P' R' C' S' G')) (df : frame)
  : result (DataFrame P' R' C' S' G') :=
  _ <- getitem df k ;;
  rs <- mapM upd (rows df) ;;
  Ok (mkFrame (columns df) rs).

Definition upd_Title (f : option string -> result (option string)) (r : row P R C S G)
  : result (row P R C S G) :=
  v <- f (c_Title r) ;;
  Ok (mkRow v (c_Price r) (c_Rating r) (c_Colors r) (c_Size r) (c_Gender r) (c_timestamp r)).

Definition upd_Price {P'} (f : P -> result P') (r : row P R C S G)
  : result (row P' R C S G) :=
  v <- f (c_Price r) ;;
  Ok (mkRow (c_Title r) v (c_Rating r) (c_Colors r) (c_Size r) (c_Gender r) (c_timestamp r)).

Definition upd_Rating {R'} (f : R -> result R') (r : row P R C S G)
  : result (row P R' C S G) :=
  v <- f (c_Rating r) ;;
  Ok (mkRow (c_Title r) (c_Price r) v (c_Colors r) (c_Size r) (c_Gender r) (c_timestamp r)).

Definition upd_Colors {C'} (f : C -> result C') (r : row P R C S G)
  : result (row P R C' S G) :=
  v <- f (c_Colors r) ;;
  Ok (mkRow (c_Title r) (c_Price r) (c_Rating r) v (c_Size r) (c_Gender r) (c_timestamp r)).

Definition upd_Size {S'} (f : S -> result S') (r : row P R C S G)
  : result (row P R C S' G) :=
  v <- f (c_Size r) ;;
  Ok (mkRow (c_Title r) (c_Price r) (c_Rating r) (c_Colors r) v (c_Gender r) (c_timestamp r)).

Definition upd_Gender {G'} (f : G -> result G') (r : row P R C S G)
  : result (row P R C S G') :=
  v <- f (c_Gender r) ;;
  Ok (mkRow (c_Title r) (c_Price r) (c_Rating r) (c_Colors r) (c_Size r) v (c_timestamp r)).

Definition apply_Title (f : option string -> result (option string)) (df : frame)
  : result frame :=
  apply_column "Title" (upd_Title f) df.

Definition apply_Price {P'} (f : P -> result P') (df : frame)
  : result (DataFrame P' R C S G) :=
  apply_column "Price" (upd_Price f) df.

Definition apply_Rating {R'} (f : R -> result R') (df : frame)
  : result (DataFrame P R' C S G) :=
  apply_column "Rating" (upd_Rating f) df.

Definition apply_Colors {C'} (f : C -> result C') (df : frame)
  : result (DataFrame P R C' S G) :=
  apply_column "Colors" (upd_Colors f) df.

Definition apply_Size {S'} (f : S -> result S') (df : frame)
  : result (DataFrame P R C S' G) :=
  apply_column "Size" (upd_Size f) df.

Definition apply_Gender {G'} (f : G -> result G') (df : frame)
  : result (DataFrame P R C S G') :=
  apply_column "Gender" (upd_Gender f) df.

(** [df[labels]]: every label must be a column.  (When none of the labels
    is, pandas words the message differently; the title column is there
    when the program selects.) *)
Definition select (labels : list string) (df : frame) : result frame :=
  match filter (fun k => negb (has_column df k)) labels with
  | [] => Ok (mkFrame labels (rows df))
  | missing => Raise (KeyError (dquote ++ repr_words missing ++ " not in index" ++ dquote))
  end.
End Frames.

(** is the cell of row [r] under the label [k] null *)
Definition isnull_at (r : clean_row) (k : string) : bool :=
  if k =? "Title" then negb (is_some (c_Title r))
  else if k =? "Price" then negb (is_some (c_Price r))
  else if k =? "Rating" then negb (is_some (c_Rating r))
  else if k =? "Colors" then negb (is_some (c_Colors r))
  else if k =? "Size" then negb (is_some (c_Size r))
  else if k =? "Gender" then negb (is_some (c_Gender r))
  else if k =? "timestamp" then negb (is_some (c_timestamp r))
  else false.

(** [df.dropna()]: the rows without a null cell in any column *)
Definition dropna (df : clean_frame) : clean_frame :=
  mkFrame (columns df)
          (filter (fun r => forallb (fun k => negb (isnull_at r k)) (columns df)) (rows df)).

Definition option_eq_dec {A} (dec : forall x y : A, {x = y} + {x <> y})
  (x y : option A) : {x = y} + {x <> y}.
Proof. decide equality. Defined.

Definition row_eq_dec (r r' : clean_row) : {r = r'} + {r <> r'}.
Proof.
  decide equality;
    first [ apply (option_eq_dec string_dec)
          | apply (option_eq_dec Qc_eq_dec)
          | apply (option_eq_dec Z.eq_dec) ].
Defined.

Definition row_eqb (r r' : clean_row) : bool :=
  if row_eq_dec r r' then true else false.

(** the first of every group of equal rows, in the order of the frame *)
Fixpoint first_occurrences (l : list clean_row) : list clean_row :=
  match l with
  | [] => []
  | r :: l' => r :: filter (fun r' => negb (row_eqb r r')) (first_occurrences l')
  end.

(** [df.drop_duplicates()] *)
Definition drop_duplicates (df : clean_frame) : clean_frame :=
  mkFrame (columns df) (first_occurrences (rows df)).

(** [.astype(str)]: the text of NaN is [nan] *)
Definition astype_str (v : option string) : result (option string) :=
  match v with
  | Some s => Ok (Some s)
  | None => Ok (Some "nan")
  end.

(** [.astype(float)] of a column of floats *)
Definition astype_float (v : option Qc) : result (option Qc) := Ok v.

(** [.astype(int)]: NaN has no integer *)
Definition astype_int (v : option Z) : result (option Z) :=
  match v with
  | Some z => Ok (Some z)
  | None => Raise (ValueError "Cannot convert non-finite values (NA or inf) to integer")
  end.

(** [df.reset_index(drop=True)] *)
Definition reset_index (df : clean_frame) : clean_frame := df.

(* ================================================================== *)
(** * utils/transform.py: [transform_data] *)

Definition columns_order : list string :=
  ["Title"; "Price"; "Rating"; "Colors"; "Size"; "Gender"; "timestamp"].

(** the two handlers: [except ValueError] and [except Exception] *)
Definition transform_handler (e : exn) : exn :=
  match e with
  | ValueError m => ValueError ("Validation error during transformation: " ++ m)
  | _ => Exception ("Transformation failed: " ++ str_exn e)
  end.

Definition transform_data (data : list product) : result clean_frame :=
  try_except
    (match data with
     | [] => Raise (ValueError "Input data must be a non-empty list")
     | _ =>
         let df := pd_DataFrame data in
         (* Apply cleaning functions *)
         df <- apply_Price clean_price df ;;
         df <- apply_Rating clean_rating df ;;
         df <- apply_Colors clean_colors df ;;
         df <- apply_Size clean_size df ;;
         df <- apply_Gender clean_gender df ;;
         (* Remove invalid products (Unknown Product) *)
         df <- title_is_not "Unknown Product" df ;;
         (* Remove rows with null values *)
         let df := dropna df in
         (* Remove duplicates *)
         let df := drop_duplicates df in
         (* Ensure correct data types *)
         df <- apply_Title astype_str df ;;
         df <- apply_Price astype_float df ;;
         df <- apply_Rating astype_float df ;;
         df <- apply_Colors astype_int df ;;
         df <- apply_Size astype_str df ;;
         df <- apply_Gender astype_str df ;;
         (* Reorder columns *)
         df <- select columns_order df ;;
         (* Reset index *)
         Ok (reset_index df)
     end)
    transform_handler.

(** a cell as a Python value *)
Definition of_float (v : option Qc) : pyval :=
  match v with
  | Some q => PFloat q
  | None => PNone
  end.

Definition of_int (v : option Z) : pyval :=
  match v with
  | Some z => PInt z
  | None => PNone
  end.

Definition of_str (v : option string) : pyval :=
  match v with
  | Some s => PStr s
  | None => PNone
  end.

(** the records of a frame that has the seven columns: a dictionary for
    every row, each cell the typed value that the frame holds *)
Definition dict_of_row (r : clean_row) : product :=
  mkProduct (c_Title r) (Some (of_float (c_Price r))) (Some (of_float (c_Rating r)))
            (Some (of_int (c_Colors r))) (Some (of_str (c_Size r)))
            (Some (of_str (c_Gender r))) (c_timestamp r).

Definition to_records (df : clean_frame) : list product := map dict_of_row (rows df).

(* ================================================================== *)
(** * utils/transform.py: [validate_transformed_data] *)

(** [df.empty]: one of the two axes has no label *)
Definition empty (df : clean_frame) : bool :=
  match rows df, columns df with
  | _ :: _, _ :: _ => false
  | _, _ => true
  end.

Definition required_columns : list string :=
  ["Title"; "Price"; "Rating"; "Colors"; "Size"; "Gender"; "timestamp"].

(** [df.isnull().sum()]: for every column, the number of its null cells *)
Definition null_counts (df : clean_frame) : list (string * Z) :=
  map (fun k => (k, Z.of_nat (List.length (filter (fun r => isnull_at r k) (rows df)))))
      (columns df).

(** [counts.sum()] *)
Definition total (counts : list (string * Z)) : Z :=
  fold_right Z.add 0%Z (map snd counts).

(** [repr] of a dictionary from plain words to integers *)
Definition repr_counts (d : list (string * Z)) : string :=
  "{" ++ String.concat ", " (map (fun kv => repr_word (fst kv) ++ ": " ++ str_int (snd kv)) d)
      ++ "}".

(** [repr] of a set of plain words that is not empty, its members in the
    order [l] *)
Definition repr_set (l : list string) : string :=
  "{" ++ String.concat ", " (map repr_word l) ++ "}".

(** [df.duplicated()]: for every row, whether a row before it is equal to
    it; [seen] are the rows before *)
Fixpoint duplicated_after (seen rest : list clean_row) : list bool :=
  match rest with
  | [] => []
  | r :: rest' => existsb (row_eqb r) seen :: duplicated_after (r :: seen) rest'
  end.

Definition duplicated (df : clean_frame) : list bool := duplicated_after [] (rows df).

(** [word in df['Title'].values] *)
Definition title_among (word : string) (df : clean_frame) : result bool :=
  _ <- getitem df "Title" ;;
  Ok (existsb (fun r => match c_Title r with
                        | Some t => t =? word
                        | None => false
                        end) (rows df)).

Inductive dtype : Type := float64 | int64 | object.

Definition str_dtype (d : dtype) : string :=
  match d with
  | float64 => "float64"
  | int64 => "int64"
  | object => "object"
  end.

(** [df[k].dtype], where it is read: in a frame without a null cell.  The
    cells of the price and the rating column are floats there and those of
    the colours column integers, as the type of the rows has it; the other
    columns hold objects. *)
Definition dtype_of (df : clean_frame) (k : string) : result dtype :=
  _ <- getitem df k ;;
  Ok (if (k =? "Price") || (k =? "Rating") then float64
      else if k =? "Colors" then int64
      else object).

(** [dtype != float] and [dtype not in [int, 'int64', 'int32']] *)
Definition not_float (d : dtype) : bool :=
  match d with
  | float64 => false
  | _ => true
  end.

Definition not_int (d : dtype) : bool :=
  match d with
  | int64 => false
  | _ => true
  end.

Section Validate.
(** The order in which Python lists the members of a set of words; it
    changes from one run of the interpreter to the next. *)
Variable set_order : list string -> list string.

Definition validate_transformed_data (df : option clean_frame) : result bool :=
  try_except
    (match df with
     | None => Raise (ValueError "DataFrame is empty or None")
     | Some df =>
         if empty df then Raise (ValueError "DataFrame is empty or None") else
         (* Check for required columns *)
         match filter (fun k => negb (has_column df k)) required_columns with
         | _ :: _ as missing_columns =>
             Raise (ValueError ("Missing required columns: "
                                ++ repr_set (set_order missing_columns)))
         | [] =>
             (* Check for null values *)
             let counts := null_counts df in
             if (0 <? total counts)%Z then
               Raise (ValueError ("DataFrame contains null values: "
                                  ++ repr_counts (filter (fun kv => (0 <? snd kv)%Z) counts)))
             else
             (* Check for duplicates *)
             if existsb (fun b => b) (duplicated df) then
               Raise (ValueError "DataFrame contains duplicate rows")
             else
             (* Check for invalid products *)
             found <- title_among "Unknown Product" df ;;
             if found then Raise (ValueError "DataFrame contains 'Unknown Product' entries")
             else
             (* Check data types *)
             price <- dtype_of df "Price" ;;
             if not_float price then
               Raise (ValueError ("Price column should be float, got " ++ str_dtype price))
             else
             rating <- dtype_of df "Rating" ;;
             if not_float rating then
               Raise (ValueError ("Rating column should be float, got " ++ str_dtype rating))
             else
             colors <- dtype_of df "Colors" ;;
             if not_int colors then
               Raise (ValueError ("Colors column should be int, got " ++ str_dtype colors))
             else Ok true
         end
     end)
    (fun e => ValueError ("Data validation failed: " ++ str_exn e)).
End Validate.

(* ================================================================== *)
(** * Parsed markup

    What [BeautifulSoup(html, 'html.parser')] builds: a tree of elements and
    strings.  The parser itself belongs to the library and is a parameter of
    the extraction functions. *)

#[warnings="-register-all"]
Inductive node : Type :=
| Text (s : string)
| Elem (tag : string) (attrs : list (string * string)) (children : list node).

Fixpoint descendants (n : node) : list node :=
  match n with
  | Text _ => []
  | Elem _ _ kids => flat_map (fun k => k :: descendants k) kids
  end.

Fixpoint strings (n : node) : list string :=
  match n with
  | Text s => [s]
  | Elem _ _ kids => flat_map strings kids
  end.

(** [n.get_text(strip=True)] *)
Definition get_text (n : node) : string :=
  String.concat "" (filter nonempty (map strip (strings n))).

Fixpoint attr (k : string) (attrs : list (string * string)) : option string :=
  match attrs with
  | [] => None
  | (k', v) :: rest => if k =? k' then Some v else attr k rest
  end.

(** the words of a text, separated by white space *)
Fixpoint words_from (cur s : string) : list string :=
  match s with
  | "" => if nonempty cur then [cur] else []
  | String c s' =>
      if is_space c
      then (if nonempty cur then cur :: words_from "" s' else words_from "" s')
      else words_from (cur ++ String c "") s'
  end.

Definition has_class (c : string) (attrs : list (string * string)) : bool :=
  match attr "class" attrs with
  | Some v => existsb (String.eqb c) (words_from "" v)
  | None => false
  end.

(** an element [name] of class [c] *)
Definition is_tag (name c : string) (n : node) : bool :=
  match n with
  | Elem t attrs _ => (t =? name) && has_class c attrs
  | Text _ => false
  end.

(** [n.find_all(name, class_=c)] and [n.find(name, class_=c)] *)
Definition find_all (name c : string) (n : node) : list node :=
  filter (is_tag name c) (descendants n).

Definition find (name c : string) (n : node) : option node :=
  List.find (is_tag name c) (descendants n).

(** [n.find_all('p', style=lambda x: x and '777' in x)] *)
Definition is_detail (n : node) : bool :=
  match n with
  | Elem t attrs _ =>
      (t =? "p") && match attr "style" attrs with
                    | Some x => nonempty x && contains "777" x
                    | None => false
                    end
  | Text _ => false
  end.

Definition find_details (n : node) : list node := filter is_detail (descendants n).

(* ================================================================== *)
(** * The outside world

    The clock and the network answer as they please; what they answer may
    depend on everything that has happened so far.  The world is the list of
    the events so far, the oldest first. *)

Inductive event : Type :=
| EvNow (stamp : string)          (* the clock was read *)
| EvGet (url : string)            (* a request was sent *)
| EvSleep.                        (* the politeness delay *)

Definition world : Type := list event.

Inductive reply : Type :=
| Body (text : string)
| Failed (msg : string).          (* a [requests.RequestException] *)

Definition io (A : Type) : Type := world -> result A * world.

Definition io_ret {A} (a : A) : io A := fun w => (Ok a, w).
Definition io_raise {A} (e : exn) : io A := fun w => (Raise e, w).
Definition io_lift {A} (r : result A) : io A := fun w => (r, w).

Definition io_bind {A B} (m : io A) (k : A -> io B) : io B :=
  fun w => match m w with
           | (Ok a, w') => k a w'
           | (Raise e, w') => (Raise e, w')
           end.

Notation "x <~ m ;; k" := (io_bind m (fun x => k))
  (at level 61, m at next level, right associativity).

(** [try: body except ...: handler] *)
Definition io_try {A} (body : io A) (handler : exn -> io A) : io A :=
  fun w => match body w with
           | (Ok a, w') => (Ok a, w')
           | (Raise e, w') => handler e w'
           end.

Definition is_now (e : event) : bool :=
  match e with
  | EvNow _ => true
  | _ => false
  end.

(* ================================================================== *)
(** * utils/extract.py *)

Definition BASE_URL : string := "https://fashion-studio.dicoding.dev/".

Section Extract.
(** [BeautifulSoup(html, 'html.parser')] *)
Variable html_parser : string -> node.
(** [datetime.now().strftime("%Y-%m-%d %H:%M:%S")] *)
Variable clock : world -> string.
(** [session.get(url, timeout=30)], [raise_for_status()] and [.text] *)
Variable network : world -> string -> reply.

Definition now : io string :=
  fun w => let stamp := clock w in (Ok stamp, (w ++ [EvNow stamp])%list).

Definition session_get (url : string) : io string :=
  fun w => (match network w url with
            | Body text => Ok text
            | Failed msg => Raise (RequestException msg)
            end, (w ++ [EvGet url])%list).

Definition sleep : io unit := fun w => (Ok tt, (w ++ [EvSleep])%list).

Definition fetch_page (page_number : Z) : io string :=
  io_try
    (if (page_number <? 1)%Z || (50 <? page_number)%Z
     then io_raise (ValueError ("Invalid page number: " ++ str_int page_number
                                ++ ". Must be between 1 and 50."))
     else
       let url := if (page_number =? 1)%Z then BASE_URL
                  else BASE_URL ++ "page" ++ str_int page_number in
       session_get url)
    (fun e =>
       match e with
       | RequestException m =>
           io_raise (RequestException ("Failed to fetch page " ++ str_int page_number
                                       ++ ": " ++ m))
       | _ =>
           io_raise (Exception ("Unexpected error fetching page " ++ str_int page_number
                                ++ ": " ++ str_exn e))
       end).

(** the first pass over the detail lines *)
Definition classify (item : product) (text : string) : product :=
  if contains "Rating:" text then
    mkProduct (Title item) (Price item) (Some (PStr text)) (Colors item)
              (Size item) (Gender item) (timestamp item)
  else if contains "Colors" text then
    mkProduct (Title item) (Price item) (Rating item) (Some (PStr text))
              (Size item) (Gender item) (timestamp item)
  else if contains "Size:" text then
    mkProduct (Title item) (Price item) (Rating item) (Colors item)
              (Some (PStr text)) (Gender item) (timestamp item)
  else if contains "Gender:" text then
    mkProduct (Title item) (Price item) (Rating item) (Colors item)
              (Size item) (Some (PStr text)) (timestamp item)
  else item.

(** the second pass, for a rating line of another form *)
Definition rated (item : product) (text : string) : product :=
  if contains "Rated" text || contains "Rating" text then
    mkProduct (Title item) (Price item) (Some (PStr text)) (Colors item)
              (Size item) (Gender item) (timestamp item)
  else item.

Definition price_text (price_elem : option node) : pyval :=
  match price_elem with
  | Some e => PStr (get_text e)
  | None => PNone
  end.

Definition parse_product (card : node) : result product :=
  try_except
    (match find "h3" "product-title" card with
     | Some title_elem =>
         let title := get_text title_elem in
         let price :=
           match find "div" "price-container" card with
           | Some price_container => price_text (find "span" "price" price_container)
           | None => price_text (find "p" "price" card)
           end in
         let item := mkProduct (Some title) (Some price) None None None None None in
         let details := map get_text (find_details card) in
         let item := fold_left classify details item in
         let item :=
           if is_some (Rating item) then item
           else fold_left rated details item in
         Ok item
     | None => Raise (ValueError "Could not find product title")
     end)
    (fun e => ValueError ("Error parsing product card: " ++ str_exn e)).

(** the loop over the cards: a card whose parsing raises [ValueError] is
    skipped *)
Fixpoint parse_cards (product_cards : list node) : result (list product) :=
  match product_cards with
  | [] => Ok []
  | card :: rest =>
      match parse_product card with
      | Ok item => products <- parse_cards rest ;; Ok (item :: products)
      | Raise (ValueError _) => parse_cards rest
      | Raise e => Raise e
      end
  end.

Definition parse_page (html_content : pyval) : result (list product) :=
  try_except
    (match text_of html_content with
     | None => Raise (ValueError "Invalid HTML content provided")
     | Some html =>
         let soup := html_parser html in
         match find_all "div" "collection-card" soup with
         | [] => Raise (ValueError "No product cards found on the page")
         | product_cards => parse_cards product_cards
         end
     end)
    (fun e => ValueError ("Error parsing page: " ++ str_exn e)).

(** [product['timestamp'] = timestamp] *)
Definition stamp (stamp_text : string) (item : product) : product :=
  mkProduct (Title item) (Price item) (Rating item) (Colors item)
            (Size item) (Gender item) (Some stamp_text).

(** [range(start, stop)] *)
Definition range (start stop : Z) : list Z :=
  map (fun i => (start + Z.of_nat i)%Z) (seq 0 (Z.to_nat (stop - start))).

(** the body of the loop over the pages: a page whose fetching or parsing
    raises is skipped, and so is the delay after it *)
Definition scrape_page (page_num end_page : Z) (stamp_text : string)
           (all_products : list product) : io (list product) :=
  io_try
    (html_content <~ fetch_page page_num ;;
     products <~ io_lift (parse_page (PStr html_content)) ;;
     (* Add timestamp to each product *)
     let products := map (stamp stamp_text) products in
     let all_products := (all_products ++ products)%list in
     (* Be polite to the server *)
     _ <~ (if (page_num <? end_page)%Z then sleep else io_ret tt) ;;
     io_ret all_products)
    (fun _ => io_ret all_products).

Fixpoint scrape_pages (pages : list Z) (end_page : Z) (stamp_text : string)
         (all_products : list product) : io (list product) :=
  match pages with
  | [] => io_ret all_products
  | page_num :: rest =>
      all_products <~ scrape_page page_num end_page stamp_text all_products ;;
      scrape_pages rest end_page stamp_text all_products
  end.

Definition scrape_all_pages (start_page end_page : Z) : io (list product) :=
  io_try
    (if (start_page <? 1)%Z || (50 <? end_page)%Z || (end_page <? start_page)%Z
     then io_raise (ValueError ("Invalid page range: " ++ str_int start_page ++ " to "
                                ++ str_int end_page))
     else
       stamp_text <~ now ;;
       scrape_pages (range start_page (end_page + 1)) end_page stamp_text [])
    (fun e => io_raise (Exception ("Error during scraping: " ++ str_exn e))).

(** [self.session.close()]: closing the session is no event of this world,
    and the call of the library is taken not to fail *)
Definition close : io unit :=
  io_try (io_ret tt)
         (fun e => io_raise (Exception ("Error closing session: " ++ str_exn e))).

Definition extract_data (start_page end_page : Z) : io (list product) :=
  io_try
    (products <~ scrape_all_pages start_page end_page ;;
     _ <~ close ;;
     io_ret products)
    (fun e => io_raise (Exception ("Extraction failed: " ++ str_exn e))).
End Extract.

(* ================================================================== *)
(** * utils/load.py

    The file system, the spreadsheet service and the database are
    parameters: each answers a call as it pleases.  The module tells four
    kinds of exceptions apart. *)

Inductive load_exn : Type :=
| LValueError (msg : string)
| LFileNotFoundError (msg : string)
| LIOError (msg : string)            (* an [IOError] of another kind *)
| LException (msg : string).         (* any other exception *)

(** [str(e)] *)
Definition str_load_exn (e : load_exn) : string :=
  match e with
  | LValueError m => m
  | LFileNotFoundError m => m
  | LIOError m => m
  | LException m => m
  end.

Inductive outcome (A : Type) : Type :=
| Returns (a : A)
| Raises (e : load_exn).
Arguments Returns {A} a.
Arguments Raises {A} e.

(** [try: body except ...: raise handler(e)] *)
Definition load_try {A} (body : outcome A) (handler : load_exn -> load_exn) : outcome A :=
  match body with
  | Returns a => Returns a
  | Raises e => Raises (handler e)
  end.

(** [s.endswith(suffix)] *)
Definition endswith (suffix s : string) : bool :=
  let n := String.length suffix in
  (n <=? String.length s)%nat && (substring (String.length s - n) n s =? suffix).

(** the cell of a row under a label, as a Python value *)
Definition cell (r : clean_row) (k : string) : pyval :=
  if k =? "Title" then of_str (c_Title r)
  else if k =? "Price" then of_float (c_Price r)
  else if k =? "Rating" then of_float (c_Rating r)
  else if k =? "Colors" then of_int (c_Colors r)
  else if k =? "Size" then of_str (c_Size r)
  else if k =? "Gender" then of_str (c_Gender r)
  else if k =? "timestamp" then of_str (c_timestamp r)
  else PNone.

(** [[df.columns.tolist()] + df.values.tolist()]: the header, then the rows *)
Definition values (df : clean_frame) : list (list pyval) :=
  map PStr (columns df) :: map (fun r => map (cell r) (columns df)) (rows df).

(** an optional text that is given: neither [None] nor empty *)
Definition given (v : option string) : bool :=
  match v with
  | Some s => nonempty s
  | None => false
  end.

(** the three handlers of [load_to_csv] *)
Definition csv_handler (e : load_exn) : load_exn :=
  match e with
  | LValueError m => LValueError ("Validation error: " ++ m)
  | LFileNotFoundError m => LIOError ("Error writing to file: " ++ m)
  | LIOError m => LIOError ("Error writing to file: " ++ m)
  | LException m => LException ("Failed to save to CSV: " ++ m)
  end.

(** the three handlers of [load_to_google_sheets] *)
Definition sheets_handler (e : load_exn) : load_exn :=
  match e with
  | LValueError m => LValueError ("Validation error: " ++ m)
  | LFileNotFoundError m => LFileNotFoundError m
  | _ => LException ("Failed to save to Google Sheets: " ++ str_load_exn e)
  end.

(** the two handlers of [load_to_postgresql] *)
Definition postgresql_handler (e : load_exn) : load_exn :=
  match e with
  | LValueError m => LValueError ("Validation error: " ++ m)
  | _ => LException ("Failed to save to PostgreSQL: " ++ str_load_exn e)
  end.

(** the two handlers of [load_data] *)
Definition load_handler (e : load_exn) : load_exn :=
  match e with
  | LValueError m => LValueError ("Load failed: " ++ m)
  | _ => LException ("Load failed: " ++ str_load_exn e)
  end.

(** The entry of a destination in the dictionary that [load_data] returns:
    [{'success': True, key: a}] or [{'success': False, 'error': msg}]. *)
Inductive report (A : Type) : Type :=
| Success (a : A)
| Failure (error : string).
Arguments Success {A} a.
Arguments Failure {A} error.

(** The dictionary that [load_data] returns: the file is always there, the
    two others when they were asked for.  The successful entries hold the
    path of the file, the identifier of the spreadsheet, the name of the
    table. *)
Record destinations : Type := mkDestinations {
  csv : report string;
  google_sheets : option (report string);
  postgresql : option (report string)
}.

Section Load.
(** [os.path.join(current_dir, name)], where [current_dir] is the directory
    above the one of the module *)
Variable path_of : string -> string.
(** [df.to_csv(filepath, index=False)] *)
Variable to_csv : clean_frame -> string -> outcome unit.
(** [os.path.exists(path)] *)
Variable path_exists : string -> bool.
(** the calls to the spreadsheet service, in a row: the credentials are read
    from the file, the service is built, the sheet is cleared and the values
    are written from its first cell *)
Variable sheets_api : string -> string -> string -> list (list pyval) -> outcome unit.
(** the calls to the database, in a row: a connection to the address is
    tried, the frame replaces the table, the rows of the table are counted *)
Variable to_sql : string -> string -> clean_frame -> outcome unit.

Definition load_to_csv (df : option clean_frame) (filename : string) : outcome string :=
  load_try
    (match df with
     | None => Raises (LValueError "DataFrame is empty or None")
     | Some df =>
         if empty df then Raises (LValueError "DataFrame is empty or None")
         else if negb (endswith ".csv" filename) then
           Raises (LValueError "Filename must be a string ending with '.csv'")
         else
           let filepath := path_of filename in
           match to_csv df filepath with
           | Returns _ => Returns filepath
           | Raises e => Raises e
           end
     end)
    csv_handler.

Definition load_to_google_sheets (df : option clean_frame) (spreadsheet_id : option string)
           (sheet_name credentials_file : string) : outcome bool :=
  load_try
    (match df with
     | None => Raises (LValueError "DataFrame is empty or None")
     | Some df =>
         if empty df then Raises (LValueError "DataFrame is empty or None")
         else
           match spreadsheet_id with
           | None => Raises (LValueError "Invalid spreadsheet_id")
           | Some id =>
               if negb (nonempty id) then Raises (LValueError "Invalid spreadsheet_id")
               else
                 (* Get credentials file path *)
                 let creds_path := path_of credentials_file in
                 if negb (path_exists creds_path) then
                   Raises (LFileNotFoundError ("Credentials file not found: " ++ creds_path))
                 else
                   match sheets_api creds_path id sheet_name (values df) with
                   | Returns _ => Returns true
                   | Raises e => Raises e
                   end
           end
     end)
    sheets_handler.

Definition load_to_postgresql (df : option clean_frame) (table_name : string)
           (db_url : option string) (host : string) (port : Z)
           (database username password : string) : outcome bool :=
  load_try
    (match df with
     | None => Raises (LValueError "DataFrame is empty or None")
     | Some df =>
         if empty df then Raises (LValueError "DataFrame is empty or None")
         else if negb (nonempty table_name) then Raises (LValueError "Invalid table_name")
         else
           (* Create database connection URL *)
           let connection_url :=
             match db_url with
             | Some url =>
                 if nonempty url then url
                 else "postgresql://" ++ username ++ ":" ++ password ++ "@" ++ host ++ ":"
                        ++ str_int port ++ "/" ++ database
             | None => "postgresql://" ++ username ++ ":" ++ password ++ "@" ++ host ++ ":"
                         ++ str_int port ++ "/" ++ database
             end in
           match to_sql connection_url table_name df with
           | Returns _ => Returns true
           | Raises e => Raises e
           end
     end)
    postgresql_handler.

(** [try: ... results[key] = {'success': True, ...}
     except Exception as e: results[key] = {'success': False, 'error': str(e)}] *)
Definition reported {A B} (call : outcome A) (entry : B) : report B :=
  match call with
  | Returns _ => Success entry
  | Raises e => Failure (str_load_exn e)
  end.

Definition load_data (df : option clean_frame) (csv_filename : string)
           (google_sheets_id : option string) (google_sheets_name google_credentials : string)
           (postgresql_url : option string) (postgresql_table : string)
  : outcome destinations :=
  load_try
    (match df with
     | None => Raises (LValueError "DataFrame is empty or None")
     | Some frame =>
         if empty frame then Raises (LValueError "DataFrame is empty or None")
         else
           (* Always save to CSV *)
           let to_file :=
             match load_to_csv df csv_filename with
             | Returns csv_path => Success csv_path
             | Raises e => Failure (str_load_exn e)
             end in
           (* Save to Google Sheets if ID provided *)
           let to_sheet :=
             match google_sheets_id with
             | Some id =>
                 if nonempty id then
                   Some (reported (load_to_google_sheets df google_sheets_id google_sheets_name
                                                         google_credentials) id)
                 else None
             | None => None
             end in
           (* Save to PostgreSQL if URL provided *)
           let to_table :=
             if given postgresql_url then
               Some (reported (load_to_postgresql df postgresql_table postgresql_url
                                 "localhost" 5432 "fashion_studio" "postgres" "password")
                              postgresql_table)
             else None in
           Returns (mkDestinations to_file to_sheet to_table)
     end)
    load_handler.
End Load.

(* ================================================================== *)
(** * main.py *)

(** The dictionary that [run_etl_pipeline] returns.  A stage that has not
    succeeded is [None], for [{'success': False}]; a stage that has holds
    what the dictionary records of it: the number of records extracted; the
    number of rows after cleaning and the labels of the columns (the names of
    the dtypes are left out); the entries of the destinations.  The last
    field is the key [error], which is there when a stage has raised. *)
Record results : Type := mkResults {
  r_extract : option nat;
  r_transform : option (nat * list string);
  r_load : option destinations;
  r_error : option string
}.

(** [results['error'] = str(e)] *)
Definition with_error (r : results) (msg : string) : results :=
  mkResults (r_extract r) (r_transform r) (r_load r) (Some msg).

Section Main.
Variable html_parser : string -> node.
Variable clock : world -> string.
Variable network : world -> string -> reply.
Variable set_order : list string -> list string.
Variable path_of : string -> string.
Variable to_csv : clean_frame -> string -> outcome unit.
Variable path_exists : string -> bool.
Variable sheets_api : string -> string -> string -> list (list pyval) -> outcome unit.
Variable to_sql : string -> string -> clean_frame -> outcome unit.

Definition run_etl_pipeline (start_page end_page : Z) (csv_filename : string)
           (google_sheets_id : option string) (google_sheets_name google_credentials : string)
           (postgresql_url : option string) (postgresql_table : string)
  : world -> results * world :=
  fun w =>
    let results := mkResults None None None None in
    (* EXTRACT *)
    match extract_data html_parser clock network start_page end_page w with
    | (Raise e, w') => (with_error results (str_exn e), w')
    | (Ok raw_data, w') =>
        let results :=
          mkResults (Some (List.length raw_data)) (r_transform results) (r_load results)
                    (r_error results) in
        (* TRANSFORM *)
        match (clean_df <- transform_data raw_data ;;
               _ <- validate_transformed_data set_order (Some clean_df) ;;
               Ok clean_df) with
        | Raise e => (with_error results (str_exn e), w')
        | Ok clean_df =>
            let results :=
              mkResults (r_extract results)
                        (Some (List.length (rows clean_df), columns clean_df))
                        (r_load results) (r_error results) in
            (* LOAD *)
            match load_data path_of to_csv path_exists sheets_api to_sql
                            (Some clean_df) csv_filename google_sheets_id google_sheets_name
                            google_credentials postgresql_url postgresql_table with
            | Raises e => (with_error results (str_load_exn e), w')
            | Returns load_results =>
                (mkResults (r_extract results) (r_transform results) (Some load_results)
                           (r_error results), w')
            end
        end
    end.
End Main.

(** [main], once the arguments are read and the pipeline has run: the exit
    status, from [results.get('load', {}).get('success')] *)
Definition exit_status (r : results) : Z :=
  if is_some (r_load r) then 0%Z else 1%Z.

(* ================================================================== *)
(** * Definitions for the statements *)

(** ** The reference of [clean_price], in the words of the specification

    The first numeric token: an optional leading currency symbol, digit
    groups possibly separated by commas, an optional decimal part; the
    grouping commas are stripped, the token is read as a decimal and
    multiplied by the rate; no token, missing. *)

(** the words that a pattern matches *)
Inductive matches : regex -> string -> Prop :=
| m_eps : matches Eps ""
| m_cls p c : p c = true -> matches (Cls p) (String c "")
| m_opt_none p : matches (Opt p) ""
| m_opt_some p c : p c = true -> matches (Opt p) (String c "")
| m_star p w : forall_str p w = true -> matches (Star p) w
| m_plus p w : forall_str p w = true -> nonempty w = true -> matches (Plus p) w
| m_cat r1 r2 w1 w2 : matches r1 w1 -> matches r2 w2 -> matches (Cat r1 r2) (w1 ++ w2).

(** the numeric token at the head of [s]: digit groups possibly separated by
    commas, and an optional decimal part *)
Definition price_token (s : string) : string :=
  let groups := take_while is_digit_or_comma s in
  match drop_while is_digit_or_comma s with
  | String c s' => if is_char "." c then groups ++ "." ++ take_while is_digit s' else groups
  | "" => groups
  end.

(** what follows the numeric token at the head of [s] *)
Definition price_rest (s : string) : string :=
  match drop_while is_digit_or_comma s with
  | String c s' => if is_char "." c then drop_while is_digit s' else String c s'
  | "" => ""
  end.

Definition not_digit_or_comma (c : ascii) : bool := negb (is_digit_or_comma c).
Definition not_digit (c : ascii) : bool := negb (is_digit c).
Definition not_space (c : ascii) : bool := negb (is_space c).

(** the first numeric token of [s]; a currency symbol before it is not part
    of it *)
Definition first_price_token (s : string) : option string :=
  match drop_while not_digit_or_comma s with
  | "" => None
  | r => Some (price_token r)
  end.

(** the first run of digits of [s] *)
Definition first_digits (s : string) : option string :=
  match drop_while not_digit s with
  | "" => None
  | r => Some (take_while is_digit r)
  end.

(** the decimal that a token denotes once its grouping commas are gone *)
Definition token_value (tok : string) : Qc :=
  decimal (filter_str is_digit (take_while is_digit_or_comma tok))
          (filter_str is_digit (drop_while is_digit_or_comma tok)).

(** the price in the local currency of a token in dollars *)
Definition token_price (tok : string) : Qc :=
  Qcmult (token_value tok) (Q2Qc (inject_Z 16000)).

(** the reference: the price of the first numeric token of the trimmed
    text, missing when there is none *)
Definition clean_price_reference (s : string) : option Qc :=
  match first_price_token (strip s) with
  | Some tok => Some (token_price tok)
  | None => None
  end.

(** ** Where a cleaner raises *)

(** the inputs on which [clean_price] finds a token that has no digit *)
Definition digitless_price (v : pyval) : bool :=
  match text_of v with
  | Some s =>
      negb (contains "Unavailable" (strip s) || contains "unavailable" (strip s)) &&
      match first_price_token (strip s) with
      | Some tok => negb (exists_str is_digit tok)
      | None => false
      end
  | None => false
  end.

(** the inputs on which [clean_colors] finds a run of more than [n] digits *)
Definition long_count (n : nat) (v : pyval) : bool :=
  match text_of v with
  | Some s =>
      match first_digits (strip s) with
      | Some g => (n <? String.length g)%nat
      | None => false
      end
  | None => false
  end.

(** the inputs on which [clean_colors] finds a run of digits that is too
    long for [int] *)
Definition overlong_count (v : pyval) : bool := long_count int_max_str_digits v.

(** ** What [transform_data] makes of a row *)

(** the cleaned cells of a row of the raw frame, when no cleaner raises *)
Definition clean_cells (r : row pyval pyval pyval pyval pyval) : result clean_row :=
  p <- clean_price (c_Price r) ;;
  ra <- clean_rating (c_Rating r) ;;
  c <- clean_colors (c_Colors r) ;;
  s <- clean_size (c_Size r) ;;
  g <- clean_gender (c_Gender r) ;;
  Ok (mkRow (c_Title r) p ra c s g (c_timestamp r)).

(** the title is not the sentinel *)
Definition known_title (r : clean_row) : bool :=
  match c_Title r with
  | Some t => negb (t =? "Unknown Product")
  | None => true
  end.

(** no cell of the row is null *)
Definition complete (r : clean_row) : bool :=
  forallb (fun k => negb (isnull_at r k)) all_keys.

(** every key is a key of some dictionary *)
Definition has_all_keys (data : list product) : bool :=
  forallb (fun k => existsb (has_key k) data) all_keys.

(** what [transform_data] keeps of the cleaned rows *)
Definition kept (cleaned : list clean_row) : list clean_row :=
  first_occurrences (filter complete (filter known_title cleaned)).

(** no cleaner raises on the dictionary, and its count of colours has at
    most 18 digits, so that it is less than 2^63 and fits a column of 64-bit
    integers *)
Definition readable (p : product) : bool :=
  negb (digitless_price (or_nan (Price p))) && negb (long_count 18 (or_nan (Colors p))).

(** what cleaning again makes of a row that is clean already *)
Definition cleaned_again (r : clean_row) : clean_row :=
  mkRow (c_Title r) None None None
        (match clean_size (of_str (c_Size r)) with Ok v => v | Raise _ => None end)
        (match clean_gender (of_str (c_Gender r)) with Ok v => v | Raise _ => None end)
        (c_timestamp r).

(** ** Sample data, from the tests of the repository *)

Definition tshirt : product :=
  mkProduct (Some "T-shirt 2") (Some (PStr "$102.15")) (Some (PStr "Rating: ⭐ 3.9 / 5"))
            (Some (PStr "3 Colors")) (Some (PStr "Size: M")) (Some (PStr "Gender: Women"))
            (Some "2025-01-02 10:00:00").

Definition unknown_product : product :=
  mkProduct (Some "Unknown Product") (Some (PStr "$100.00"))
            (Some (PStr "Rating: ⭐ Invalid Rating / 5")) (Some (PStr "5 Colors"))
            (Some (PStr "Size: M")) (Some (PStr "Gender: Men"))
            (Some "2025-01-02 10:00:00").

(** a dictionary without the key of the rating *)
Definition pants_unrated : product :=
  mkProduct (Some "Pants 16") (Some (PStr "$51.20")) None (Some (PStr "8 Colors"))
            (Some (PStr "Size: S")) (Some (PStr "Gender: Men"))
            (Some "2025-01-02 10:00:00").

(** a page with two cards, the second without a title *)
Definition detail (text : string) : node :=
  Elem "p" [("style", "font-size: 14px; color: #777;")] [Text text].

Definition card_tshirt : node :=
  Elem "div" [("class", "collection-card")]
    [Elem "div" [("class", "product-details")]
       [Elem "h3" [("class", "product-title")] [Text "T-shirt 2"];
        Elem "div" [("class", "price-container")]
          [Elem "span" [("class", "price")] [Text "$102.15"]];
        detail "Rating: ⭐ 3.9 / 5"; detail "3 Colors"; detail "Size: M";
        detail "Gender: Women"]].

Definition card_hoodie : node :=
  Elem "div" [("class", "collection-card")]
    [Elem "div" [("class", "product-details")]
       [Elem "h3" [("class", "product-title")] [Text "Hoodie 3"];
        Elem "div" [("class", "price-container")]
          [Elem "span" [("class", "price")] [Text "$496.88"]];
        detail "Rating: ⭐ 4.8 / 5"; detail "3 Colors"; detail "Size: L";
        detail "Gender: Unisex"]].

Definition card_untitled : node :=
  Elem "div" [("class", "collection-card")]
    [Elem "div" [("class", "product-details")]
       [Elem "p" [("class", "price")] [Text "Price Unavailable"];
        detail "Rating: Not Rated"]].

Definition page_of (cards : list node) : node :=
  Elem "[document]" []
    [Elem "html" [] [Elem "body" [] [Elem "div" [("class", "collection-grid")] cards]]].

(** a clock that shows how many events there have been, and a network that
    answers every request but the third event *)
Definition ticking_clock (w : world) : string := str_int (Z.of_nat (List.length w)).

Definition flaky_network (w : world) (url : string) : reply :=
  if (List.length w =? 3)%nat then Failed "Connection failed" else Body url.

(** ** A comparison that ignores the case *)

(** a text in lower case *)
Definition lower_char (c : ascii) : ascii :=
  let n := nat_of_ascii c in
  if ((65 <=? n) && (n <=? 90))%nat then ascii_of_nat (n + 32) else c.

Fixpoint lower (s : string) : string :=
  match s with
  | "" => ""
  | String c s' => String (lower_char c) (lower s')
  end.

(** ** A rating out of five *)

(** a numeral, then a slash and a five, with white space around the slash
    or not *)
Definition out_of_five (pre num sp1 sp2 rest : string) : string :=
  pre ++ num ++ sp1 ++ "/" ++ sp2 ++ "5" ++ rest.

(** ** The detail lines of a card *)

(** the texts of the detail lines of a card, in the order of the document *)
Definition details_of (card : node) : list string := map get_text (find_details card).

(** the last text of the list that satisfies [p] *)
Fixpoint last_where (p : string -> bool) (l : list string) : option string :=
  match l with
  | [] => None
  | t :: l' =>
      match last_where p l' with
      | Some u => Some u
      | None => if p t then Some t else None
      end
  end.

(** the label by which a detail line is told: the first of the four, in the
    order of the source, that the line contains *)
Definition rating_line (t : string) : bool := contains "Rating:" t.
Definition colors_line (t : string) : bool :=
  negb (contains "Rating:" t) && contains "Colors" t.
Definition size_line (t : string) : bool :=
  negb (contains "Rating:" t) && negb (contains "Colors" t) && contains "Size:" t.
Definition gender_line (t : string) : bool :=
  negb (contains "Rating:" t) && negb (contains "Colors" t) && negb (contains "Size:" t)
  && contains "Gender:" t.

(** a line that speaks of a rating in another form *)
Definition rated_line (t : string) : bool := contains "Rated" t || contains "Rating" t.

Definition as_text (t : option string) : option pyval :=
  match t with
  | Some u => Some (PStr u)
  | None => None
  end.

(** the price of a card: the text of the price element, [None] when
    there is no such element *)
Definition price_of (card : node) : pyval :=
  match find "div" "price-container" card with
  | Some price_container => price_text (find "span" "price" price_container)
  | None => price_text (find "p" "price" card)
  end.

(** the products of the cards that have a title, in the order of the cards *)
Definition titled_products (cards : list node) : list product :=
  flat_map (fun card => match parse_product card with
                        | Ok item => [item]
                        | Raise _ => []
                        end) cards.

(** ** Pages and requests *)

(** the address of a page *)
Definition page_url (n : Z) : string :=
  if (n =? 1)%Z then BASE_URL else BASE_URL ++ "page" ++ str_int n.

(** the addresses that were requested, the oldest first *)
Definition requests (events : list event) : list string :=
  flat_map (fun e => match e with
                     | EvGet url => [url]
                     | _ => []
                     end) events.

Definition is_sleep (e : event) : bool :=
  match e with
  | EvSleep => true
  | _ => false
  end.

(** the events of a run over the pages: for every page a request, and
    after it at most one delay, which is not there after page [end_page] *)
Inductive page_events (end_page : Z) : list Z -> list event -> Prop :=
| pe_done : page_events end_page [] []
| pe_request n pages events :
    page_events end_page pages events ->
    page_events end_page (n :: pages) (EvGet (page_url n) :: events)
| pe_delay n pages events :
    (n < end_page)%Z ->
    page_events end_page pages events ->
    page_events end_page (n :: pages) (EvGet (page_url n) :: EvSleep :: events).

(** the products of a page of a site that answers a request in the same way
    whenever it is sent: the stamped products of the page, none when the
    request or the parsing fails *)
Definition page_products (html_parser : string -> node) (site : string -> reply)
           (stamp_text : string) (n : Z) : list product :=
  match site (page_url n) with
  | Body text =>
      match parse_page html_parser (PStr text) with
      | Ok products => map (stamp stamp_text) products
      | Raise _ => []
      end
  | Failed _ => []
  end.

(** what every product of a run has: a title, the key of the price and the
    timestamp of the run *)
Definition extracted (ts : string) (p : product) : Prop :=
  is_some (Title p) = true /\ is_some (Price p) = true /\ timestamp p = Some ts.

(** the page is read: its request is answered and its content is parsed *)
Definition page_read (html_parser : string -> node) (site : string -> reply) (n : Z) : bool :=
  match site (page_url n) with
  | Body text =>
      match parse_page html_parser (PStr text) with
      | Ok _ => true
      | Raise _ => false
      end
  | Failed _ => false
  end.

(** the events of a page: its request, and a delay when the page is read and
    is not the last one *)
Definition page_trace (html_parser : string -> node) (site : string -> reply)
           (end_page n : Z) : list event :=
  EvGet (page_url n)
  :: (if page_read html_parser site n && (n <? end_page)%Z then [EvSleep] else []).

(** ** Lists *)

(** the first list is the second with some of its members left out *)
Inductive subseq {A : Type} : list A -> list A -> Prop :=
| subseq_nil : subseq [] []
| subseq_skip x l1 l2 : subseq l1 l2 -> subseq l1 (x :: l2)
| subseq_keep x l1 l2 : subseq l1 l2 -> subseq (x :: l1) (x :: l2).

(** ** Sample destinations *)

(** a file system that takes every file, a spreadsheet service that is out
    of reach and a database that takes every table *)
Definition sample_path_of (name : string) : string := "/srv/etl/" ++ name.
Definition disk_ok (df : clean_frame) (path : string) : outcome unit := Returns tt.
Definition no_file (path : string) : bool := false.
Definition sheets_down (creds id sheet : string) (cells : list (list pyval)) : outcome unit :=
  Raises (LException "service unavailable").
Definition db_ok (url table : string) (df : clean_frame) : outcome unit := Returns tt.

Definition disk_full (df : clean_frame) (path : string) : outcome unit :=
  Raises (LIOError "No space left on device").

(** a frame with one row *)
Definition sample_frame : clean_frame :=
  mkFrame columns_order
          [mkRow (Some "T-shirt 2") (Some (Q2Qc (inject_Z 1634400))) (Some (Q2Qc (39 # 10)))
                 (Some 3%Z) (Some "M") (Some "Women") (Some "2025-01-02 10:00:00")].

(** a site with the same page of two cards at every address *)
Definition sample_site (url : string) : reply := Body url.
Definition sample_parser (html : string) : node := page_of [card_tshirt; card_hoodie].

(* ================================================================== *)
(** * Facts about strings *)

Lemma append_nil_r (s : string) : s ++ "" = s.
Proof. induction s as [|c s IH]; simpl; [reflexivity | now rewrite IH]. Qed.

Lemma append_assoc (a b c : string) : (a ++ b) ++ c = a ++ (b ++ c).
Proof. induction a as [|x a IH]; simpl; [reflexivity | now rewrite IH]. Qed.

Lemma length_append (a b : string) :
  String.length (a ++ b) = (String.length a + String.length b)%nat.
Proof. induction a as [|x a IH]; simpl; [reflexivity | now rewrite IH]. Qed.

Lemma nonempty_append (a b : string) : nonempty a = true -> nonempty (a ++ b) = true.
Proof. destruct a; simpl; [discriminate | reflexivity]. Qed.

Lemma nonempty_false (s : string) : nonempty s = false -> s = "".
Proof. destruct s; simpl; [reflexivity | discriminate]. Qed.

Lemma substring_0_0 (s : string) : substring 0 0 s = "".
Proof. destruct s; reflexivity. Qed.

Lemma consumed_append (w s : string) : consumed (w ++ s) s = w.
Proof.
  unfold consumed. rewrite length_append.
  replace (String.length w + String.length s - String.length s)%nat
    with (String.length w) by lia.
  induction w as [|c w IH]; simpl.
  - apply substring_0_0.
  - now rewrite IH.
Qed.

Lemma take_drop_while (p : ascii -> bool) (s : string) :
  take_while p s ++ drop_while p s = s.
Proof.
  induction s as [|c s IH]; simpl; [reflexivity|].
  destruct (p c); simpl; [now rewrite IH | reflexivity].
Qed.

Lemma consumed_drop_while (p : ascii -> bool) (s : string) :
  consumed s (drop_while p s) = take_while p s.
Proof.
  rewrite <- (take_drop_while p s) at 1. apply consumed_append.
Qed.

Lemma forall_take_while (p : ascii -> bool) (s : string) :
  forall_str p (take_while p s) = true.
Proof.
  induction s as [|c s IH]; simpl; [reflexivity|].
  destruct (p c) eqn:E; simpl; [now rewrite E | reflexivity].
Qed.

Lemma forall_str_append (p : ascii -> bool) (a b : string) :
  forall_str p (a ++ b) = forall_str p a && forall_str p b.
Proof.
  induction a as [|c a IH]; simpl; [reflexivity|].
  now rewrite IH, andb_assoc.
Qed.

Lemma take_while_append (p : ascii -> bool) (w s : string) :
  forall_str p w = true -> take_while p (w ++ s) = w ++ take_while p s.
Proof.
  induction w as [|c w IH]; simpl; [reflexivity|].
  intros H. apply andb_prop in H. destruct H as [Hc Hw].
  now rewrite Hc, IH.
Qed.

Lemma drop_while_append (p : ascii -> bool) (w s : string) :
  forall_str p w = true -> drop_while p (w ++ s) = drop_while p s.
Proof.
  induction w as [|c w IH]; simpl; [reflexivity|].
  intros H. apply andb_prop in H. destruct H as [Hc Hw].
  now rewrite Hc, IH.
Qed.

Lemma take_while_all (p : ascii -> bool) (w : string) :
  forall_str p w = true -> take_while p w = w.
Proof.
  intros H. rewrite <- (append_nil_r w) at 1.
  rewrite take_while_append by assumption. simpl. apply append_nil_r.
Qed.

Lemma drop_while_all (p : ascii -> bool) (w : string) :
  forall_str p w = true -> drop_while p w = "".
Proof.
  intros H. rewrite <- (append_nil_r w).
  now rewrite drop_while_append.
Qed.

(** what [drop_while] leaves does not begin in the class *)
Lemma drop_while_head (p : ascii -> bool) (s : string) (c : ascii) (r : string) :
  drop_while p s = String c r -> p c = false.
Proof.
  induction s as [|x s IH]; simpl; [discriminate|].
  destruct (p x) eqn:E; [assumption|].
  intros H. injection H as -> _. assumption.
Qed.

Lemma forall_str_impl (p q : ascii -> bool) (s : string) :
  (forall c, p c = true -> q c = true) -> forall_str p s = true -> forall_str q s = true.
Proof.
  intros Hpq. induction s as [|c s IH]; simpl; [reflexivity|].
  intros H. apply andb_prop in H. destruct H as [Hc Hs].
  now rewrite (Hpq _ Hc), IH.
Qed.

Lemma prefix_nil (s : string) : prefix "" s = true.
Proof. destruct s; reflexivity. Qed.

Lemma prefix_cons (a c : ascii) (w s : string) :
  prefix (String a w) (String c s) = Ascii.eqb a c && prefix w s.
Proof.
  simpl. destruct (ascii_dec a c) as [->|N].
  - now rewrite Ascii.eqb_refl.
  - apply Ascii.eqb_neq in N. now rewrite N.
Qed.

Lemma contains_nil_r (w : string) : nonempty w = true -> contains w "" = false.
Proof. destruct w; simpl; [discriminate | reflexivity]. Qed.

Lemma contains_step (w : string) (c : ascii) (s : string) :
  contains w (String c s) = prefix w (String c s) || contains w s.
Proof. reflexivity. Qed.

Lemma contains_cons (w : string) (c : ascii) (s : string) :
  contains w s = true -> contains w (String c s) = true.
Proof. intros H. rewrite contains_step, H. apply orb_true_r. Qed.

Lemma contains_prefix (w s : string) : prefix w s = true -> contains w s = true.
Proof. intros H. destruct s; cbn [contains]; rewrite H; reflexivity. Qed.

Lemma contains_nonempty (w s : string) :
  nonempty w = true -> contains w s = true -> nonempty s = true.
Proof.
  intros Hw H. destruct s; [|reflexivity].
  rewrite contains_nil_r in H by assumption. discriminate.
Qed.

(** ** A word without white space survives [strip] *)

Lemma prefix_rstrip (w s : string) :
  nonempty w = true -> forall_str not_space w = true ->
  prefix w s = true -> prefix w (rstrip s) = true.
Proof.
  revert s. induction w as [|a w IH]; intros s Hne Hw Hp; [discriminate|].
  destruct s as [|c s]; [discriminate|].
  rewrite prefix_cons in Hp. apply andb_prop in Hp. destruct Hp as [Hac Hp].
  simpl in Hw. apply andb_prop in Hw. destruct Hw as [Ha Hw].
  apply Ascii.eqb_eq in Hac. subst c.
  destruct w as [|b w].
  - simpl rstrip. destruct (rstrip s) as [|x r].
    + unfold not_space in Ha. apply negb_true_iff in Ha. rewrite Ha.
      rewrite prefix_cons, Ascii.eqb_refl. reflexivity.
    + rewrite prefix_cons, Ascii.eqb_refl. apply prefix_nil.
  - specialize (IH s eq_refl Hw Hp).
    simpl rstrip. destruct (rstrip s) as [|x r]; [discriminate|].
    rewrite prefix_cons, Ascii.eqb_refl. exact IH.
Qed.

Lemma contains_rstrip (w s : string) :
  nonempty w = true -> forall_str not_space w = true ->
  contains w s = true -> contains w (rstrip s) = true.
Proof.
  intros Hne Hw. induction s as [|c s IH]; intros H.
  - rewrite contains_nil_r in H by assumption. discriminate.
  - rewrite contains_step in H. apply orb_prop in H. destruct H as [H|H].
    + apply contains_prefix. apply prefix_rstrip; assumption.
    + specialize (IH H).
      pose proof (contains_nonempty _ _ Hne IH) as Hr.
      simpl rstrip. destruct (rstrip s) as [|x r]; [discriminate|].
      apply contains_cons. exact IH.
Qed.

Lemma contains_lstrip (w s : string) :
  nonempty w = true -> forall_str not_space w = true ->
  contains w s = true -> contains w (lstrip s) = true.
Proof.
  intros Hne Hw. induction s as [|c s IH]; intros H; [exact H|].
  simpl lstrip. destruct (is_space c) eqn:Hc; [|exact H].
  apply IH. rewrite contains_step in H. apply orb_prop in H. destruct H as [H|H]; [|exact H].
  destruct w as [|a w]; [discriminate|].
  rewrite prefix_cons in H. apply andb_prop in H. destruct H as [Hac _].
  apply Ascii.eqb_eq in Hac. subst c.
  simpl in Hw. apply andb_prop in Hw. destruct Hw as [Ha _].
  unfold not_space in Ha. rewrite Hc in Ha. discriminate.
Qed.

Lemma contains_strip (w s : string) :
  nonempty w = true -> forall_str not_space w = true ->
  contains w s = true -> contains w (strip s) = true.
Proof.
  intros Hne Hw H. unfold strip.
  apply contains_lstrip; try assumption.
  apply contains_rstrip; assumption.
Qed.

(** ** Deleting a single character *)

Lemma prefix_char (a : ascii) (s : string) :
  prefix (String a "") s = match s with
                           | String c _ => Ascii.eqb a c
                           | "" => false
                           end.
Proof.
  destruct s as [|c s]; [reflexivity|].
  rewrite prefix_cons, prefix_nil. apply andb_true_r.
Qed.

Lemma remove_all_char (a : ascii) (s : string) :
  remove_all (String a "") s = filter_str (fun c => negb (is_char a c)) s.
Proof.
  unfold remove_all. induction s as [|c s IH]; [reflexivity|].
  cbn [remove_from]. rewrite prefix_char. cbn [String.length Nat.sub filter_str].
  unfold is_char at 1. destruct (Ascii.eqb a c); simpl; now rewrite IH.
Qed.

Lemma filter_str_append (p : ascii -> bool) (a b : string) :
  filter_str p (a ++ b) = filter_str p a ++ filter_str p b.
Proof.
  induction a as [|c a IH]; simpl; [reflexivity|].
  destruct (p c); simpl; now rewrite IH.
Qed.

Lemma filter_str_all (p : ascii -> bool) (s : string) :
  forall_str p s = true -> filter_str p s = s.
Proof.
  induction s as [|c s IH]; simpl; [reflexivity|].
  intros H. apply andb_prop in H. destruct H as [Hc Hs]. now rewrite Hc, IH.
Qed.

Lemma forall_filter_str (p : ascii -> bool) (s : string) :
  forall_str p (filter_str p s) = true.
Proof.
  induction s as [|c s IH]; simpl; [reflexivity|].
  destruct (p c) eqn:E; simpl; [now rewrite E|assumption].
Qed.

Lemma is_digit_not_comma (c : ascii) : is_digit c = true -> is_char "," c = false.
Proof.
  unfold is_char. intros H. destruct (Ascii.eqb "," c) eqn:E; [|reflexivity].
  apply Ascii.eqb_eq in E. subst c. discriminate.
Qed.

Lemma is_digit_not_point (c : ascii) : is_digit c = true -> is_char "." c = false.
Proof.
  unfold is_char. intros H. destruct (Ascii.eqb "." c) eqn:E; [|reflexivity].
  apply Ascii.eqb_eq in E. subst c. discriminate.
Qed.

(** among digits and commas, what is not a comma is a digit *)
Lemma filter_commas (s : string) :
  forall_str is_digit_or_comma s = true ->
  filter_str (fun c => negb (is_char "," c)) s = filter_str is_digit s.
Proof.
  induction s as [|c s IH]; cbn [filter_str forall_str]; [reflexivity|].
  intros H. apply andb_prop in H. destruct H as [Hc Hs].
  rewrite (IH Hs). unfold is_digit_or_comma in Hc.
  destruct (is_digit c) eqn:Hd.
  - now rewrite (is_digit_not_comma _ Hd).
  - cbn [orb] in Hc. now rewrite Hc.
Qed.

Lemma exists_filter_str (p : ascii -> bool) (s : string) :
  nonempty (filter_str p s) = exists_str p s.
Proof.
  induction s as [|c s IH]; simpl; [reflexivity|].
  destruct (p c); simpl; [reflexivity | assumption].
Qed.

Lemma exists_str_append (p : ascii -> bool) (a b : string) :
  exists_str p (a ++ b) = exists_str p a || exists_str p b.
Proof.
  induction a as [|c a IH]; simpl; [reflexivity|].
  now rewrite IH, orb_assoc.
Qed.

Lemma exists_str_all (p : ascii -> bool) (s : string) :
  forall_str p s = true -> exists_str p s = nonempty s.
Proof.
  destruct s as [|c s]; simpl; [reflexivity|].
  intros H. apply andb_prop in H. destruct H as [Hc _]. now rewrite Hc.
Qed.

(* ================================================================== *)
(** * Facts about the matcher *)

(** when what follows accepts the rest after the longest run, the longest
    run is taken *)
Lemma star_greedy (A : Type) (p : ascii -> bool) (s : string)
      (k : string -> option A) (x : A) :
  k (drop_while p s) = Some x -> star p s k = Some x.
Proof.
  induction s as [|c s IH]; simpl; [trivial|].
  destruct (p c); [|trivial].
  intros H. now rewrite (IH H).
Qed.

Lemma star_sound (A : Type) (p : ascii -> bool) (s : string)
      (k : string -> option A) (x : A) :
  star p s k = Some x ->
  exists w s', s = w ++ s' /\ forall_str p w = true /\ k s' = Some x.
Proof.
  induction s as [|c s IH]; simpl.
  - intros H. exists "", "". auto.
  - destruct (p c) eqn:Hc.
    + destruct (star p s k) as [y|] eqn:Hs; simpl.
      * intros [= ->]. destruct (IH eq_refl) as (w & s' & -> & Hw & Hk).
        exists (String c w), s'. simpl. rewrite Hc, Hw. auto.
      * intros H. exists "", (String c s). auto.
    + intros H. exists "", (String c s). auto.
Qed.

(** whatever the matcher accepts is a word of the pattern, followed by a
    rest that the continuation accepts *)
Lemma exec_sound (A : Type) (r : regex) :
  forall (s : string) (k : string -> option A) (x : A),
    exec r s k = Some x ->
    exists w s', s = w ++ s' /\ matches r w /\ k s' = Some x.
Proof.
  induction r as [|p|p|p|p|r1 IH1 r2 IH2]; intros s k x H; simpl in H.
  - exists "", s. split; [reflexivity|]. split; [constructor | assumption].
  - destruct s as [|c s]; [discriminate|].
    destruct (p c) eqn:Hc; [|discriminate].
    exists (String c ""), s. split; [reflexivity|]. split; [now constructor | assumption].
  - destruct s as [|c s].
    + exists "", "". split; [reflexivity|]. split; [constructor | assumption].
    + destruct (p c) eqn:Hc.
      * destruct (k s) as [y|] eqn:Hk; simpl in H.
        -- injection H as ->. exists (String c ""), s.
           split; [reflexivity|]. split; [now constructor | assumption].
        -- exists "", (String c s). split; [reflexivity|]. split; [constructor | assumption].
      * exists "", (String c s). split; [reflexivity|]. split; [constructor | assumption].
  - destruct (star_sound _ _ _ H) as (w & s' & -> & Hw & Hk).
    exists w, s'. split; [reflexivity|]. split; [now constructor | assumption].
  - destruct s as [|c s]; [discriminate|].
    destruct (p c) eqn:Hc; [|discriminate].
    destruct (star_sound _ _ _ H) as (w & s' & -> & Hw & Hk).
    exists (String c w), s'. split; [reflexivity|].
    split; [|assumption]. constructor; simpl; [now rewrite Hc, Hw | reflexivity].
  - destruct (IH1 _ _ _ H) as (w1 & s1 & -> & M1 & H1).
    destruct (IH2 _ _ _ H1) as (w2 & s2 & -> & M2 & H2).
    exists (w1 ++ w2), s2. split; [now rewrite append_assoc|].
    split; [now constructor | assumption].
Qed.

Lemma re_match_sound (pt : pattern) (s g : string) :
  re_match pt s = Some g -> matches (group pt) g.
Proof.
  unfold re_match. intros H.
  destruct (exec_sound _ _ _ H) as (w0 & s1 & _ & _ & H1).
  destruct (exec_sound _ _ _ H1) as (w1 & s2 & -> & M1 & H2).
  destruct (exec_sound _ _ _ H2) as (w2 & s3 & _ & _ & H3).
  injection H3 as <-. now rewrite consumed_append.
Qed.

Lemma re_search_sound (pt : pattern) (s g : string) :
  re_search pt s = Some g -> matches (group pt) g.
Proof.
  induction s as [|c s IH]; simpl.
  - destruct (re_match pt "") eqn:E; simpl; [|discriminate].
    intros [= ->]. exact (re_match_sound _ _ E).
  - destruct (re_match pt (String c s)) eqn:E; simpl; [|exact IH].
    intros [= ->]. exact (re_match_sound _ _ E).
Qed.

(** ** The words of the numeral pattern *)

Lemma matches_number (g : string) :
  matches number g ->
  exists ip fp, forall_str is_digit ip = true /\ nonempty ip = true /\
                forall_str is_digit fp = true /\
                (g = ip ++ fp \/ g = ip ++ String "." fp).
Proof.
  unfold number. intros M.
  inversion M as [| | | | | |r1 r2 w1 w23 M1 M23]; subst.
  inversion M23 as [| | | | | |r1 r2 w2 w3 M2 M3]; subst.
  inversion M1; subst. inversion M3; subst.
  exists w1, w3. repeat split; try assumption.
  inversion M2 as [| |q|q c Hc| | |]; subst.
  - left. reflexivity.
  - right. unfold is_char in Hc. apply Ascii.eqb_eq in Hc. subst c. reflexivity.
Qed.

(** ** Numbers *)

Lemma digits_value_nonneg (s : string) (acc : Z) :
  (0 <= acc)%Z -> (0 <= digits_value acc s)%Z.
Proof.
  revert acc. induction s as [|c s IH]; intros acc H; cbn [digits_value]; [assumption|].
  apply IH. unfold digit_value. lia.
Qed.

Lemma Q2Qc_nonneg (n : Z) (d : positive) : (0 <= n)%Z -> (0 <= Q2Qc (n # d))%Qc.
Proof.
  intros H. unfold Qcle. cbn [this Q2Qc].
  rewrite !Qred_correct. unfold Qle. cbn [Qnum Qden]. lia.
Qed.

Lemma decimal_nonneg (ip fp : string) : (0 <= decimal ip fp)%Qc.
Proof.
  unfold decimal. apply Q2Qc_nonneg. apply digits_value_nonneg. lia.
Qed.

Lemma py_float_digits (ip : string) :
  forall_str is_digit ip = true -> nonempty ip = true ->
  py_float ip = Ok (decimal ip "").
Proof.
  intros Hd Hn. unfold py_float.
  rewrite (drop_while_all _ _ Hd), (take_while_all _ _ Hd), Hn. reflexivity.
Qed.

Lemma py_float_point (ip fp : string) :
  forall_str is_digit ip = true -> forall_str is_digit fp = true ->
  nonempty ip || nonempty fp = true ->
  py_float (ip ++ String "." fp) = Ok (decimal ip fp).
Proof.
  intros Hi Hf Hn. unfold py_float.
  rewrite (drop_while_append _ _ _ Hi), (take_while_append _ _ _ Hi).
  cbn [drop_while take_while]. change (is_digit ".") with false. cbv iota.
  rewrite append_nil_r, Hf, Hn. reflexivity.
Qed.

Lemma py_float_nodigit (fp : string) :
  fp = "" \/ fp = "." ->
  py_float fp = Raise (ValueError ("could not convert string to float: '" ++ fp ++ "'")).
Proof. intros [->| ->]; reflexivity. Qed.

(** a numeral converts, and to a number that is not negative *)
Lemma py_float_number (g : string) :
  matches number g -> exists q, py_float g = Ok q /\ (0 <= q)%Qc.
Proof.
  intros M. destruct (matches_number M) as (ip & fp & Hi & Hn & Hf & [-> | ->]).
  - exists (decimal (ip ++ fp) ""). split; [|apply decimal_nonneg].
    apply py_float_digits.
    + now rewrite forall_str_append, Hi, Hf.
    + now apply nonempty_append.
  - exists (decimal ip fp). split; [|apply decimal_nonneg].
    apply py_float_point; try assumption. now rewrite Hn.
Qed.

(** ** The pattern of [clean_colors] finds the first run of digits *)

Lemma re_match_digits (s : string) :
  re_match digits_pattern s =
  match s with
  | String c _ => if is_digit c then Some (take_while is_digit s) else None
  | "" => None
  end.
Proof.
  unfold re_match, digits_pattern. cbn [before group after exec].
  destruct s as [|c s]; [reflexivity|].
  destruct (is_digit c) eqn:Hc; [|reflexivity].
  apply star_greedy.
  rewrite <- (consumed_drop_while is_digit (String c s)).
  cbn [drop_while]. now rewrite Hc.
Qed.

Lemma re_search_digits (s : string) : re_search digits_pattern s = first_digits s.
Proof.
  unfold first_digits. induction s as [|c s IH]; [reflexivity|].
  cbn [re_search]. rewrite re_match_digits, IH.
  cbn [drop_while]. unfold not_digit at 2.
  destruct (is_digit c); reflexivity.
Qed.

(** ** The pattern of [clean_price] finds the first numeric token *)

Lemma price_token_consumed (s : string) : consumed s (price_rest s) = price_token s.
Proof.
  unfold price_rest, price_token.
  pose proof (take_drop_while is_digit_or_comma s) as E.
  destruct (drop_while is_digit_or_comma s) as [|c r].
  - rewrite <- E at 1. apply consumed_append.
  - destruct (is_char "." c) eqn:Hc.
    + unfold is_char in Hc. apply Ascii.eqb_eq in Hc. subst c.
      rewrite <- E at 1. rewrite <- (take_drop_while is_digit r) at 1.
      change (String "." (take_while is_digit r ++ drop_while is_digit r))
        with (("." ++ take_while is_digit r) ++ drop_while is_digit r).
      rewrite <- append_assoc. apply consumed_append.
    + rewrite <- E at 1. apply consumed_append.
Qed.

Lemma exec_price_group (A : Type) (k : string -> option A) (s : string) :
  (forall s', k s' <> None) ->
  exec (group price_pattern) s k =
  match s with
  | String c _ => if is_digit_or_comma c then k (price_rest s) else None
  | "" => None
  end.
Proof.
  intros Hk. cbn [price_pattern group exec].
  destruct s as [|c s]; [reflexivity|].
  destruct (is_digit_or_comma c) eqn:Hc; [|reflexivity].
  destruct (k (price_rest (String c s))) as [x|] eqn:Hx; [|now apply Hk in Hx].
  apply star_greedy.
  unfold price_rest in Hx. cbn [drop_while] in Hx. rewrite Hc in Hx.
  destruct (drop_while is_digit_or_comma s) as [|d r] eqn:Hr.
  - exact Hx.
  - destruct (is_char "." d) eqn:Hd.
    + rewrite (star_greedy _ _ _ Hx). reflexivity.
    + apply drop_while_head in Hr. unfold is_digit_or_comma in Hr.
      apply orb_false_elim in Hr. destruct Hr as [Hr _].
      cbn [star]. rewrite Hr. exact Hx.
Qed.

Lemma re_match_price (s : string) :
  re_match price_pattern s =
  match s with
  | "" => None
  | String c s' =>
      if is_digit_or_comma c then Some (price_token s)
      else if is_char "$" c then
             match s' with
             | String c' _ => if is_digit_or_comma c' then Some (price_token s') else None
             | "" => None
             end
           else None
  end.
Proof.
  unfold re_match.
  assert (G : forall s1,
             exec (group price_pattern) s1
               (fun s2 => exec (after price_pattern) s2 (fun _ => Some (consumed s1 s2))) =
             match s1 with
             | String c _ => if is_digit_or_comma c then Some (price_token s1) else None
             | "" => None
             end).
  { intros s1. rewrite exec_price_group by (intros s'; discriminate).
    cbn [price_pattern after exec]. now rewrite price_token_consumed. }
  change (before price_pattern) with (Opt (is_char "$")). cbn [exec].
  destruct s as [|c s]; [apply G|].
  destruct (is_char "$" c) eqn:Hc.
  - rewrite !G. unfold is_char in Hc. apply Ascii.eqb_eq in Hc. subst c.
    change (is_digit_or_comma "$") with false. cbv iota.
    destruct s as [|c' s]; [reflexivity|].
    destruct (is_digit_or_comma c'); reflexivity.
  - rewrite G. destruct (is_digit_or_comma c); reflexivity.
Qed.

Lemma re_search_price (s : string) : re_search price_pattern s = first_price_token s.
Proof.
  unfold first_price_token. induction s as [|c s IH]; [reflexivity|].
  cbn [re_search]. rewrite re_match_price, IH.
  cbn [drop_while]. unfold not_digit_or_comma at 2.
  destruct (is_digit_or_comma c) eqn:Hc; [reflexivity|].
  cbn [negb]. destruct (is_char "$" c); [|reflexivity].
  destruct s as [|c' s]; [reflexivity|].
  cbn [drop_while]. unfold not_digit_or_comma.
  destruct (is_digit_or_comma c'); reflexivity.
Qed.

(** ** The value of a numeric token *)

Lemma not_comma_digit (c : ascii) : is_digit c = true -> negb (is_char "," c) = true.
Proof. intros H. now rewrite (is_digit_not_comma _ H). Qed.

Lemma groups_float (a : string) :
  forall_str is_digit_or_comma a = true ->
  py_float (remove_all "," a) =
  if exists_str is_digit a then Ok (token_value a)
  else Raise (ValueError ("could not convert string to float: '" ++ remove_all "," a ++ "'")).
Proof.
  intros Ha. rewrite remove_all_char, (filter_commas _ Ha).
  unfold token_value. rewrite (take_while_all _ _ Ha), (drop_while_all _ _ Ha).
  rewrite <- exists_filter_str. cbn [filter_str].
  destruct (nonempty (filter_str is_digit a)) eqn:Hn.
  - apply py_float_digits; [apply forall_filter_str | assumption].
  - apply nonempty_false in Hn. rewrite Hn. reflexivity.
Qed.

Lemma point_float (a d : string) :
  forall_str is_digit_or_comma a = true -> forall_str is_digit d = true ->
  py_float (remove_all "," (a ++ String "." d)) =
  if exists_str is_digit (a ++ String "." d) then Ok (token_value (a ++ String "." d))
  else Raise (ValueError ("could not convert string to float: '"
                          ++ remove_all "," (a ++ String "." d) ++ "'")).
Proof.
  intros Ha Hd. rewrite remove_all_char, filter_str_append, (filter_commas _ Ha).
  cbn [filter_str]. change (negb (is_char "," ".")) with true. cbv iota.
  rewrite (filter_str_all _ _ (forall_str_impl _ _ _ not_comma_digit Hd)).
  unfold token_value.
  rewrite (take_while_append _ _ _ Ha), (drop_while_append _ _ _ Ha).
  cbn [take_while drop_while]. change (is_digit_or_comma ".") with false. cbv iota.
  rewrite append_nil_r. cbn [filter_str]. change (is_digit ".") with false. cbv iota.
  rewrite (filter_str_all _ _ Hd).
  rewrite exists_str_append. cbn [exists_str]. change (is_digit ".") with false.
  cbn [orb]. rewrite <- exists_filter_str, (exists_str_all _ _ Hd).
  destruct (nonempty (filter_str is_digit a) || nonempty d) eqn:Hn.
  - apply py_float_point; [apply forall_filter_str | assumption | assumption].
  - apply orb_false_elim in Hn. destruct Hn as [H1 H2].
    apply nonempty_false in H1, H2. rewrite H1, H2. reflexivity.
Qed.

Lemma price_token_float (r : string) :
  py_float (remove_all "," (price_token r)) =
  if exists_str is_digit (price_token r) then Ok (token_value (price_token r))
  else Raise (ValueError ("could not convert string to float: '"
                          ++ remove_all "," (price_token r) ++ "'")).
Proof.
  unfold price_token.
  pose proof (forall_take_while is_digit_or_comma r) as Ha.
  destruct (drop_while is_digit_or_comma r) as [|c r'].
  - now apply groups_float.
  - destruct (is_char "." c) eqn:Hc.
    + apply point_float; [assumption | apply forall_take_while].
    + now apply groups_float.
Qed.

Lemma first_price_token_shape (t tok : string) :
  first_price_token t = Some tok -> exists r, tok = price_token r.
Proof.
  unfold first_price_token.
  destruct (drop_while not_digit_or_comma t) as [|c r]; [discriminate|].
  intros [= <-]. now exists (String c r).
Qed.

(** ** [clean_price] on a text *)

Lemma clean_price_text (s : string) :
  nonempty s = true ->
  clean_price (PStr s) =
  if contains "Unavailable" (strip s) || contains "unavailable" (strip s) then Ok None
  else match first_price_token (strip s) with
       | None => Ok None
       | Some tok =>
           if exists_str is_digit tok then Ok (Some (token_price tok))
           else Raise (ValueError ("Error cleaning price '" ++ strip s
                                   ++ "': could not convert string to float: '"
                                   ++ remove_all "," tok ++ "'"))
       end.
Proof.
  intros Hs. unfold clean_price. cbn [text_of]. rewrite Hs.
  destruct (contains "Unavailable" (strip s) || contains "unavailable" (strip s));
    [reflexivity|].
  rewrite re_search_price.
  destruct (first_price_token (strip s)) as [tok|] eqn:Ht; [|reflexivity].
  destruct (first_price_token_shape _ Ht) as [r ->].
  rewrite price_token_float.
  destruct (exists_str is_digit (price_token r)); reflexivity.
Qed.

Lemma clean_price_not_text (v : pyval) : text_of v = None -> clean_price v = Ok None.
Proof. intros H. unfold clean_price. now rewrite H. Qed.

(** ** The other cleaners *)

Lemma clean_rating_ok (v : pyval) :
  exists r, clean_rating v = Ok r /\ forall q, r = Some q -> (0 <= q)%Qc.
Proof.
  unfold clean_rating. destruct (text_of v) as [s|]; [|exists None; split; [reflexivity | discriminate]].
  destruct (contains "Invalid" (strip s) || contains "Not Rated" (strip s));
    [exists None; split; [reflexivity | discriminate]|].
  destruct (re_search rating_pattern (strip s)) as [g|] eqn:E1.
  - apply re_search_sound in E1. destruct (py_float_number E1) as (q & -> & Hq).
    exists (Some q). split; [reflexivity|]. now intros q' [= <-].
  - destruct (re_search number_pattern (strip s)) as [g|] eqn:E2.
    + apply re_search_sound in E2. destruct (py_float_number E2) as (q & -> & Hq).
      exists (Some q). split; [reflexivity|]. now intros q' [= <-].
    + exists None. split; [reflexivity | discriminate].
Qed.

Lemma clean_size_ok (v : pyval) : exists r, clean_size v = Ok r.
Proof.
  unfold clean_size. destruct (text_of v) as [s|]; [|now exists None].
  cbv zeta. destruct (nonempty (strip (remove_all "Size:" (strip s)))); simpl; eauto.
Qed.

Lemma clean_gender_ok (v : pyval) : exists r, clean_gender v = Ok r.
Proof.
  unfold clean_gender. destruct (text_of v) as [s|]; [|now exists None].
  cbv zeta. destruct (nonempty (strip (remove_all "Gender:" (strip s)))); simpl; eauto.
Qed.

Lemma first_digits_shape (t g : string) :
  first_digits t = Some g -> forall_str is_digit g && nonempty g = true.
Proof.
  unfold first_digits. destruct (drop_while not_digit t) as [|c r] eqn:E; [discriminate|].
  intros H. injection H as H. subst g. apply drop_while_head in E. unfold not_digit in E.
  apply negb_false_iff in E.
  rewrite E. cbn [forall_str nonempty]. now rewrite E, forall_take_while.
Qed.

Lemma clean_colors_text (s : string) :
  nonempty s = true ->
  clean_colors (PStr s) =
  match first_digits (strip s) with
  | None => Ok None
  | Some g =>
      if (int_max_str_digits <? String.length g)%nat
      then Raise (ValueError
                    ("Error cleaning colors '" ++ strip s
                     ++ "': Exceeds the limit (4300 digits) for integer string conversion: value has "
                     ++ str_int (Z.of_nat (String.length g))
                     ++ " digits; use sys.set_int_max_str_digits() to increase the limit"))
      else Ok (Some (digits_value 0 g))
  end.
Proof.
  intros Hs. unfold clean_colors. cbn [text_of]. rewrite Hs, re_search_digits.
  destruct (first_digits (strip s)) as [g|] eqn:E; [|reflexivity].
  unfold py_int. rewrite (first_digits_shape _ E).
  destruct (int_max_str_digits <? String.length g)%nat; reflexivity.
Qed.

Lemma text_of_some (v : pyval) (s : string) :
  text_of v = Some s -> v = PStr s /\ nonempty s = true.
Proof.
  destruct v as [|s'| |]; try discriminate. cbn [text_of].
  destruct (nonempty s') eqn:E; [|discriminate]. now intros [= ->].
Qed.

Lemma clean_colors_cases (v : pyval) :
  if overlong_count v then exists m, clean_colors v = Raise (ValueError m)
  else exists r, clean_colors v = Ok r.
Proof.
  unfold overlong_count, long_count. destruct (text_of v) as [s|] eqn:Hv.
  - destruct (text_of_some _ Hv) as [-> Hs]. rewrite (clean_colors_text _ Hs).
    destruct (first_digits (strip s)) as [g|]; [|eauto].
    destruct (int_max_str_digits <? String.length g)%nat; eauto.
  - unfold clean_colors. rewrite Hv. eauto.
Qed.

Lemma clean_price_cases (v : pyval) :
  if digitless_price v then exists m, clean_price v = Raise (ValueError m)
  else exists r, clean_price v = Ok r.
Proof.
  unfold digitless_price. destruct (text_of v) as [s|] eqn:Hv.
  - destruct (text_of_some _ Hv) as [-> Hs]. rewrite (clean_price_text _ Hs).
    destruct (contains "Unavailable" (strip s) || contains "unavailable" (strip s));
      cbn [negb andb]; [eauto|].
    destruct (first_price_token (strip s)) as [tok|]; [|eauto].
    destruct (exists_str is_digit tok); cbn [negb]; eauto.
  - rewrite (clean_price_not_text _ Hv). eauto.
Qed.

(** two results that hold the same rational in lowest terms are equal *)
Ltac ok_some_qc :=
  vm_compute; first [ reflexivity | do 2 f_equal; apply Qc_is_canon; reflexivity ].

(* ================================================================== *)
(** * The cleaners: the claims *)



(** C3, counterexample: the word in capitals is not recognised, and the
    price that stands before it is converted. *)
Lemma clean_price_capitals_not_recognised :
  contains "unavailable" (lower "$5 UNAVAILABLE") = true /\
  clean_price (PStr "$5 UNAVAILABLE") = Ok (Some (Q2Qc (inject_Z 80000))).
Proof.
  split; [reflexivity | ok_some_qc].
Qed.

(** C3, amended: for every text that contains the word in one of the two
    spellings that the code looks for, [Unavailable] and [unavailable],
    [clean_price] returns missing. *)
Theorem clean_price_unavailable (s : string) :
  contains "Unavailable" s = true \/ contains "unavailable" s = true ->
  clean_price (PStr s) = Ok None.
Proof.
  intros H.
  assert (Hs : nonempty s = true).
  { destruct H as [H|H].
    - exact (contains_nonempty "Unavailable" s eq_refl H).
    - exact (contains_nonempty "unavailable" s eq_refl H). }
  rewrite (clean_price_text _ Hs).
  destruct H as [H|H].
  - now rewrite (contains_strip "Unavailable" s eq_refl eq_refl H).
  - rewrite (contains_strip "unavailable" s eq_refl eq_refl H). now rewrite orb_true_r.
Qed.

Lemma clean_price_unavailable_witness : clean_price (PStr "Price Unavailable") = Ok None.
Proof. apply clean_price_unavailable. left. reflexivity. Defined.



(* ================================================================== *)
(** * Facts about results and frames *)

Lemma bind_ok_inv (A B : Type) (r : result A) (k : A -> result B) (y : B) :
  bind r k = Ok y -> exists x, r = Ok x /\ k x = Ok y.
Proof. destruct r as [x|e]; simpl; [eauto | discriminate]. Qed.

Lemma bind_ok_iff (A B : Type) (r : result A) (k1 k2 : A -> result B) :
  (forall x out, k1 x = Ok out <-> k2 x = Ok out) ->
  forall out, bind r k1 = Ok out <-> bind r k2 = Ok out.
Proof. intros H out. destruct r as [x|e]; simpl; [apply H | reflexivity]. Qed.

Lemma mapM_ext (A B : Type) (f g : A -> result B) (l : list A) :
  (forall a, f a = g a) -> mapM f l = mapM g l.
Proof. intros H. induction l as [|a l IH]; simpl; [reflexivity | now rewrite H, IH]. Qed.

Lemma mapM_id (A : Type) (f : A -> result A) (l : list A) :
  (forall a, In a l -> f a = Ok a) -> mapM f l = Ok l.
Proof.
  induction l as [|a l IH]; intros H; simpl; [reflexivity|].
  rewrite (H a (or_introl eq_refl)). simpl.
  rewrite IH by (intros b Hb; apply H; now right). reflexivity.
Qed.

Lemma mapM_In (A B : Type) (f : A -> result B) (l : list A) (out : list B) :
  mapM f l = Ok out -> forall b, In b out -> exists a, In a l /\ f a = Ok b.
Proof.
  revert out. induction l as [|a l IH]; intros out H b Hb; simpl in H.
  - injection H as <-. destruct Hb.
  - apply bind_ok_inv in H. destruct H as (b0 & Ha & H).
    apply bind_ok_inv in H. destruct H as (bs & Hl & H).
    injection H as <-. destruct Hb as [<-|Hb].
    + exists a. split; [now left | assumption].
    + destruct (IH _ Hl _ Hb) as (a' & Ha' & Hf). exists a'. split; [now right | assumption].
Qed.

(** down two columns one after the other, or along each row: the same
    frame, when there is one *)
Lemma mapM_bind (A B C : Type) (f : A -> result B) (g : B -> result C) (l : list A) :
  forall out,
    (bs <- mapM f l ;; mapM g bs) = Ok out <->
    mapM (fun a => b <- f a ;; g b) l = Ok out.
Proof.
  induction l as [|a l IH]; intros out; simpl; [reflexivity|].
  destruct (f a) as [b|e]; simpl; [|reflexivity].
  destruct (mapM f l) as [bs|e] eqn:E; simpl in IH |- *.
  - destruct (g b) as [c|e]; simpl; [|reflexivity].
    destruct (mapM g bs) as [cs|e];
      destruct (mapM (fun a0 => b0 <- f a0 ;; g b0) l) as [cs'|e'] eqn:E'; simpl.
    + pose proof (proj1 (IH cs) eq_refl) as H. injection H as ->. reflexivity.
    + pose proof (proj1 (IH cs) eq_refl) as H. discriminate.
    + pose proof (proj2 (IH cs') eq_refl) as H. discriminate.
    + split; discriminate.
  - split; [discriminate|].
    destruct (g b) as [c|e']; simpl; [|discriminate].
    destruct (mapM (fun a0 => b0 <- f a0 ;; g b0) l) as [cs'|e''] eqn:E'; simpl;
      [|discriminate].
    pose proof (proj2 (IH cs') eq_refl) as H. discriminate.
Qed.

Lemma filter_all (A : Type) (p : A -> bool) (l : list A) :
  forallb p l = true -> filter p l = l.
Proof.
  induction l as [|a l IH]; simpl; [reflexivity|].
  intros H. apply andb_prop in H. destruct H as [Ha Hl]. now rewrite Ha, IH.
Qed.

Section FrameFacts.
Context {P R C S G P' R' C' S' G' : Type}.

Lemma apply_column_inv (k : string)
      (upd : row P R C S G -> result (row P' R' C' S' G'))
      (df : DataFrame P R C S G) (df' : DataFrame P' R' C' S' G') :
  apply_column k upd df = Ok df' ->
  has_column df k = true /\
  exists rs, mapM upd (rows df) = Ok rs /\ df' = mkFrame (columns df) rs.
Proof.
  unfold apply_column, getitem. destruct (has_column df k); simpl; [|discriminate].
  destruct (mapM upd (rows df)) as [rs|e]; simpl; [|discriminate].
  intros [= <-]. eauto.
Qed.

Lemma apply_column_ok (k : string)
      (upd : row P R C S G -> result (row P' R' C' S' G'))
      (df : DataFrame P R C S G) (rs : list (row P' R' C' S' G')) :
  has_column df k = true -> mapM upd (rows df) = Ok rs ->
  apply_column k upd df = Ok (mkFrame (columns df) rs).
Proof. intros Hk Hm. unfold apply_column, getitem. now rewrite Hk; simpl; rewrite Hm. Qed.
End FrameFacts.

Lemma has_column_pd (data : list product) (k : string) :
  has_column (pd_DataFrame data) k = true -> existsb (has_key k) data = true.
Proof.
  unfold has_column, pd_DataFrame. cbn [columns]. intros H.
  apply existsb_exists in H. destruct H as (x & Hx & E).
  apply String.eqb_eq in E. subst x. apply filter_In in Hx. tauto.
Qed.

Lemma columns_pd_all (data : list product) :
  has_all_keys data = true -> columns (pd_DataFrame data) = all_keys.
Proof. intros H. unfold pd_DataFrame. cbn [columns]. now apply filter_all. Qed.

(** the five cleaners, a column at a time or a row at a time *)
Lemma clean_columns (l : list (row pyval pyval pyval pyval pyval)) :
  forall out,
    (l1 <- mapM (upd_Price clean_price) l ;;
     l2 <- mapM (upd_Rating clean_rating) l1 ;;
     l3 <- mapM (upd_Colors clean_colors) l2 ;;
     l4 <- mapM (upd_Size clean_size) l3 ;;
     mapM (upd_Gender clean_gender) l4) = Ok out <->
    mapM clean_cells l = Ok out.
Proof.
  intros out.
  etransitivity.
  { apply bind_ok_iff. intros l1 o1.
    etransitivity.
    { apply bind_ok_iff. intros l2 o2.
      etransitivity.
      { apply bind_ok_iff. intros l3 o3. apply mapM_bind. }
      apply mapM_bind. }
    apply mapM_bind. }
  etransitivity; [apply mapM_bind|].
  rewrite (mapM_ext _ clean_cells); [reflexivity|].
  intros r. unfold clean_cells, upd_Price, upd_Rating, upd_Colors, upd_Size, upd_Gender.
  destruct (clean_price (c_Price r)); simpl; [|reflexivity].
  destruct (clean_rating (c_Rating r)); simpl; [|reflexivity].
  destruct (clean_colors (c_Colors r)); simpl; [|reflexivity].
  destruct (clean_size (c_Size r)); simpl; [|reflexivity].
  destruct (clean_gender (c_Gender r)); reflexivity.
Qed.

(** ** Duplicates *)

Lemma row_eqb_eq (r r' : clean_row) : row_eqb r r' = true <-> r = r'.
Proof.
  unfold row_eqb. destruct (row_eq_dec r r'); split; intros H;
    try reflexivity; try assumption; try discriminate; contradiction.
Qed.

Lemma first_occurrences_In (l : list clean_row) (r : clean_row) :
  In r (first_occurrences l) -> In r l.
Proof.
  induction l as [|x l IH]; simpl; [trivial|].
  intros [H|H]; [now left|]. right. apply IH. apply filter_In in H. tauto.
Qed.

Lemma first_occurrences_NoDup (l : list clean_row) : NoDup (first_occurrences l).
Proof.
  induction l as [|x l IH]; simpl; constructor.
  - intros H. apply filter_In in H. destruct H as [_ H].
    apply negb_true_iff in H.
    assert (E : row_eqb x x = true) by now apply row_eqb_eq.
    rewrite E in H. discriminate.
  - now apply NoDup_filter.
Qed.

(** ** Complete rows *)

Lemma complete_cells (r : clean_row) :
  complete r = true ->
  exists t p ra c s g ts,
    r = mkRow (Some t) (Some p) (Some ra) (Some c) (Some s) (Some g) (Some ts).
Proof.
  destruct r as [[t|] [p|] [ra|] [c|] [s|] [g|] [ts|]]; try discriminate.
  intros _. now exists t, p, ra, c, s, g, ts.
Qed.

Lemma kept_complete (cleaned : list clean_row) (r : clean_row) :
  In r (kept cleaned) -> complete r = true /\ known_title r = true /\ In r cleaned.
Proof.
  unfold kept. intros H. apply first_occurrences_In in H.
  apply filter_In in H. destruct H as [H Hc].
  apply filter_In in H. tauto.
Qed.

(** the coercions leave a complete row as it is *)
Lemma astype_complete (r : clean_row) :
  complete r = true ->
  upd_Title astype_str r = Ok r /\ upd_Price astype_float r = Ok r /\
  upd_Rating astype_float r = Ok r /\ upd_Colors astype_int r = Ok r /\
  upd_Size astype_str r = Ok r /\ upd_Gender astype_str r = Ok r.
Proof.
  intros H. destruct (complete_cells _ H) as (t & p & ra & c & s & g & ts & ->).
  repeat split.
Qed.

Lemma select_all_keys (rs : list clean_row) :
  select columns_order (mkFrame all_keys rs) = Ok (mkFrame columns_order rs).
Proof. reflexivity. Qed.

Lemma title_is_not_all_keys (rs : list clean_row) :
  title_is_not "Unknown Product" (mkFrame all_keys rs)
  = Ok (mkFrame all_keys (filter known_title rs)).
Proof. reflexivity. Qed.

(** ** What [transform_data] computes *)

Lemma transform_data_computes (data : list product) (cleaned : list clean_row) :
  data <> [] -> has_all_keys data = true ->
  mapM clean_cells (rows (pd_DataFrame data)) = Ok cleaned ->
  transform_data data = Ok (mkFrame columns_order (kept cleaned)).
Proof.
  intros Hne Hkeys Hclean.
  unfold transform_data. destruct data as [|p0 data0]; [contradiction|].
  remember (p0 :: data0) as data eqn:Hdata. clear Hdata Hne.
  apply clean_columns in Hclean.
  apply bind_ok_inv in Hclean. destruct Hclean as (l1 & E1 & Hclean).
  apply bind_ok_inv in Hclean. destruct Hclean as (l2 & E2 & Hclean).
  apply bind_ok_inv in Hclean. destruct Hclean as (l3 & E3 & Hclean).
  apply bind_ok_inv in Hclean. destruct Hclean as (l4 & E4 & E5).
  unfold pd_DataFrame in *. cbn [rows] in E1.
  fold (has_all_keys data) in Hkeys.
  rewrite (filter_all _ _ Hkeys).
  unfold apply_Price, apply_Rating, apply_Colors, apply_Size, apply_Gender, apply_Title.
  rewrite (apply_column_ok "Price" _ (mkFrame all_keys _) eq_refl E1). cbn [bind columns].
  rewrite (apply_column_ok "Rating" _ (mkFrame all_keys l1) eq_refl E2). cbn [bind columns].
  rewrite (apply_column_ok "Colors" _ (mkFrame all_keys l2) eq_refl E3). cbn [bind columns].
  rewrite (apply_column_ok "Size" _ (mkFrame all_keys l3) eq_refl E4). cbn [bind columns].
  rewrite (apply_column_ok "Gender" _ (mkFrame all_keys l4) eq_refl E5). cbn [bind columns].
  rewrite title_is_not_all_keys. cbn [bind]. cbv zeta.
  unfold dropna, drop_duplicates. cbn [columns rows].
  change (filter (fun r => forallb (fun k => negb (isnull_at r k)) all_keys)
                 (filter known_title cleaned))
    with (filter complete (filter known_title cleaned)).
  fold (kept cleaned).
  assert (K : forall r, In r (kept cleaned) -> complete r = true)
    by (intros r Hr; now apply kept_complete in Hr).
  rewrite (apply_column_ok "Title" (upd_Title astype_str) (mkFrame all_keys (kept cleaned))
             eq_refl (mapM_id _ _ (fun r Hr => proj1 (astype_complete r (K r Hr))))).
  cbn [bind columns].
  rewrite (apply_column_ok "Price" (upd_Price astype_float) (mkFrame all_keys (kept cleaned))
             eq_refl
             (mapM_id _ _ (fun r Hr => proj1 (proj2 (astype_complete r (K r Hr)))))).
  cbn [bind columns].
  rewrite (apply_column_ok "Rating" (upd_Rating astype_float)
             (mkFrame all_keys (kept cleaned)) eq_refl
             (mapM_id _ _ (fun r Hr => proj1 (proj2 (proj2 (astype_complete r (K r Hr))))))).
  cbn [bind columns].
  rewrite (apply_column_ok "Colors" (upd_Colors astype_int)
             (mkFrame all_keys (kept cleaned)) eq_refl
             (mapM_id _ _ (fun r Hr =>
                proj1 (proj2 (proj2 (proj2 (astype_complete r (K r Hr)))))))).
  cbn [bind columns].
  rewrite (apply_column_ok "Size" (upd_Size astype_str)
             (mkFrame all_keys (kept cleaned)) eq_refl
             (mapM_id _ _ (fun r Hr =>
                proj1 (proj2 (proj2 (proj2 (proj2 (astype_complete r (K r Hr))))))))).
  cbn [bind columns].
  rewrite (apply_column_ok "Gender" (upd_Gender astype_str)
             (mkFrame all_keys (kept cleaned)) eq_refl
             (mapM_id _ _ (fun r Hr =>
                proj2 (proj2 (proj2 (proj2 (proj2 (astype_complete r (K r Hr))))))))).
  cbn [bind columns].
  rewrite select_all_keys. reflexivity.
Qed.

Lemma filter_nil_false (A : Type) (p : A -> bool) (l : list A) (x : A) :
  filter p l = [] -> In x l -> p x = false.
Proof.
  induction l as [|a l IH]; simpl; [contradiction|].
  destruct (p a) eqn:E; [discriminate|].
  intros H [<-|Hx]; [assumption | now apply IH].
Qed.

Lemma transform_data_inv (data : list product) (df : clean_frame) :
  transform_data data = Ok df ->
  data <> [] /\ has_all_keys data = true /\
  exists cleaned,
    mapM clean_cells (rows (pd_DataFrame data)) = Ok cleaned /\
    df = mkFrame columns_order (kept cleaned).
Proof.
  intros H.
  assert (Hne : data <> []) by (intros ->; discriminate).
  assert (G : has_all_keys data = true /\
              exists cleaned, mapM clean_cells (rows (pd_DataFrame data)) = Ok cleaned).
  { unfold transform_data, try_except in H.
    destruct data as [|p0 data0]; [contradiction|].
    remember (p0 :: data0) as data' eqn:Hdata. clear Hdata Hne.
    match type of H with
    | match ?body with _ => _ end = _ => destruct body as [df'|e] eqn:B; [|discriminate]
    end.
    clear H.
    unfold apply_Price, apply_Rating, apply_Colors, apply_Size, apply_Gender, apply_Title in B.
    apply bind_ok_inv in B. destruct B as (df1 & E1 & B).
    apply apply_column_inv in E1. destruct E1 as (C1 & l1 & E1 & ->).
    apply bind_ok_inv in B. destruct B as (df2 & E2 & B).
    apply apply_column_inv in E2. destruct E2 as (C2 & l2 & E2 & ->).
    apply bind_ok_inv in B. destruct B as (df3 & E3 & B).
    apply apply_column_inv in E3. destruct E3 as (C3 & l3 & E3 & ->).
    apply bind_ok_inv in B. destruct B as (df4 & E4 & B).
    apply apply_column_inv in E4. destruct E4 as (C4 & l4 & E4 & ->).
    apply bind_ok_inv in B. destruct B as (df5 & E5 & B).
    apply apply_column_inv in E5. destruct E5 as (C5 & l5 & E5 & ->).
    apply bind_ok_inv in B. destruct B as (df6 & E6 & B).
    unfold title_is_not, getitem in E6.
    match type of E6 with
    | context [has_column ?d "Title"] => destruct (has_column d "Title") eqn:C6
    end; [|discriminate].
    cbn [bind] in E6. injection E6 as <-.
    cbv zeta in B.
    apply bind_ok_inv in B. destruct B as (df7 & E7 & B).
    apply apply_column_inv in E7. destruct E7 as (_ & l7 & _ & ->).
    apply bind_ok_inv in B. destruct B as (df8 & E8 & B).
    apply apply_column_inv in E8. destruct E8 as (_ & l8 & _ & ->).
    apply bind_ok_inv in B. destruct B as (df9 & E9 & B).
    apply apply_column_inv in E9. destruct E9 as (_ & l9 & _ & ->).
    apply bind_ok_inv in B. destruct B as (df10 & E10 & B).
    apply apply_column_inv in E10. destruct E10 as (_ & l10 & _ & ->).
    apply bind_ok_inv in B. destruct B as (df11 & E11 & B).
    apply apply_column_inv in E11. destruct E11 as (_ & l11 & _ & ->).
    apply bind_ok_inv in B. destruct B as (df12 & E12 & B).
    apply apply_column_inv in E12. destruct E12 as (_ & l12 & _ & ->).
    apply bind_ok_inv in B. destruct B as (df13 & E13 & _).
    unfold select in E13.
    match type of E13 with
    | match ?m with _ => _ end = _ => destruct m eqn:F; [|discriminate]
    end.
    assert (C7 : has_column (pd_DataFrame data') "timestamp" = true).
    { apply (filter_nil_false _ _ "timestamp") in F.
      - apply negb_false_iff in F. exact F.
      - unfold columns_order. simpl. tauto. }
    cbn [rows columns] in *. unfold has_column in C2, C3, C4, C5, C6.
    cbn [columns dropna drop_duplicates] in *.
    fold (has_column (pd_DataFrame data') "Rating") in C2.
    fold (has_column (pd_DataFrame data') "Colors") in C3.
    fold (has_column (pd_DataFrame data') "Size") in C4.
    fold (has_column (pd_DataFrame data') "Gender") in C5.
    fold (has_column (pd_DataFrame data') "Title") in C6.
    apply has_column_pd in C1, C2, C3, C4, C5, C6, C7.
    split.
    - unfold has_all_keys, all_keys. cbn [forallb].
      now rewrite C1, C2, C3, C4, C5, C6, C7.
    - exists l5. apply clean_columns. rewrite E1. cbn [bind]. rewrite E2. cbn [bind].
      rewrite E3. cbn [bind]. rewrite E4. cbn [bind]. exact E5. }
  destruct G as (Hkeys & cleaned & Hclean).
  split; [assumption|]. split; [assumption|].
  exists cleaned. split; [assumption|].
  rewrite (transform_data_computes Hne Hkeys Hclean) in H. now injection H as <-.
Qed.

(** [transform_data] returns a frame exactly when the list is not empty,
    every one of the seven keys is in some dictionary and no cleaner raises;
    the frame is what is kept of the cleaned rows *)
Lemma transform_data_ok (data : list product) (df : clean_frame) :
  transform_data data = Ok df <->
  data <> [] /\ has_all_keys data = true /\
  exists cleaned,
    mapM clean_cells (rows (pd_DataFrame data)) = Ok cleaned /\
    df = mkFrame columns_order (kept cleaned).
Proof.
  split; [apply transform_data_inv|].
  intros (Hne & Hkeys & cleaned & Hclean & ->).
  now apply transform_data_computes.
Qed.

Lemma mapM_map (A B : Type) (f : A -> result B) (g : A -> B) (l : list A) :
  (forall a, In a l -> f a = Ok (g a)) -> mapM f l = Ok (map g l).
Proof.
  induction l as [|a l IH]; intros H; simpl; [reflexivity|].
  rewrite (H a (or_introl eq_refl)). simpl.
  rewrite IH by (intros b Hb; apply H; now right). reflexivity.
Qed.

Lemma filter_none (A : Type) (p : A -> bool) (l : list A) :
  (forall a, In a l -> p a = false) -> filter p l = [].
Proof.
  induction l as [|a l IH]; intros H; simpl; [reflexivity|].
  rewrite (H a (or_introl eq_refl)). apply IH. intros b Hb. apply H. now right.
Qed.

(** a kept row is the cleaning of the row of some dictionary *)
Lemma kept_origin (data : list product) (cleaned : list clean_row) (r : clean_row) :
  mapM clean_cells (rows (pd_DataFrame data)) = Ok cleaned ->
  In r (kept cleaned) ->
  complete r = true /\ known_title r = true /\
  exists p, In p data /\ clean_cells (row_of_dict p) = Ok r.
Proof.
  intros Hc Hr. apply kept_complete in Hr. destruct Hr as (H1 & H2 & Hr).
  split; [assumption|]. split; [assumption|].
  destruct (mapM_In _ _ Hc _ Hr) as (raw & Hraw & E).
  unfold pd_DataFrame in Hraw. cbn [rows] in Hraw.
  apply in_map_iff in Hraw. destruct Hraw as (p & <- & Hp). eauto.
Qed.

Lemma clean_cells_inv (raw : row pyval pyval pyval pyval pyval) (r : clean_row) :
  clean_cells raw = Ok r ->
  c_Title r = c_Title raw /\ c_timestamp r = c_timestamp raw /\
  clean_price (c_Price raw) = Ok (c_Price r) /\
  clean_rating (c_Rating raw) = Ok (c_Rating r) /\
  clean_colors (c_Colors raw) = Ok (c_Colors r) /\
  clean_size (c_Size raw) = Ok (c_Size r) /\
  clean_gender (c_Gender raw) = Ok (c_Gender r).
Proof.
  unfold clean_cells. intros H.
  apply bind_ok_inv in H. destruct H as (p & -> & H).
  apply bind_ok_inv in H. destruct H as (ra & -> & H).
  apply bind_ok_inv in H. destruct H as (c & -> & H).
  apply bind_ok_inv in H. destruct H as (s & -> & H).
  apply bind_ok_inv in H. destruct H as (g & -> & H).
  injection H as <-. repeat split.
Qed.

(* ================================================================== *)
(** * [transform_data]: the claims *)



(** C4, counterexample: a rating line with a number above five. *)
Lemma clean_rating_above_five :
  exists q, clean_rating (PStr "Rating: ⭐ 9.7 / 5") = Ok (Some q) /\
            (Q2Qc (inject_Z 5) < q)%Qc.
Proof.
  eexists. split; [vm_compute; reflexivity | vm_compute; reflexivity].
Qed.

(** C4, amended: a value that [clean_rating] returns is not negative, and so
    is the rating of every row of the transformed frame; nothing bounds it
    by five. *)
Theorem rating_not_negative :
  (forall v q, clean_rating v = Ok (Some q) -> (0 <= q)%Qc) /\
  (forall data df r,
      transform_data data = Ok df -> In r (rows df) ->
      exists q, c_Rating r = Some q /\ (0 <= q)%Qc).
Proof.
  assert (G : forall v q, clean_rating v = Ok (Some q) -> (0 <= q)%Qc).
  { intros v q H. destruct (clean_rating_ok v) as (r & E & Hr).
    rewrite E in H. injection H as ->. now apply Hr. }
  split; [exact G|].
  intros data df r H Hr. apply transform_data_inv in H.
  destruct H as (_ & _ & cleaned & Hc & ->). cbn [rows] in Hr.
  destruct (kept_origin _ _ Hc Hr) as (Hcomp & _ & p & _ & E).
  apply clean_cells_inv in E. destruct E as (_ & _ & _ & E & _).
  destruct (complete_cells _ Hcomp) as (t & pr & ra & c & s & g & ts & ->).
  cbn [c_Rating] in *. exists ra. split; [reflexivity | exact (G _ _ E)].
Qed.

Lemma rating_not_negative_witness :
  exists q, clean_rating (PStr "Rating: ⭐ 3.9 / 5") = Ok (Some q) /\ (0 <= q)%Qc.
Proof.
  destruct (clean_rating (PStr "Rating: ⭐ 3.9 / 5")) as [[q|]|e] eqn:E.
  - exists q. split; [reflexivity | exact (proj1 rating_not_negative _ _ E)].
  - vm_compute in E. discriminate.
  - vm_compute in E. discriminate.
Defined.

(** ** Which dictionaries make a row *)

Lemma mapM_total (A B : Type) (f : A -> result B) (l : list A) :
  (forall a, In a l -> exists b, f a = Ok b) -> exists out, mapM f l = Ok out.
Proof.
  induction l as [|a l IH]; intros H; simpl; [eauto|].
  destruct (H a (or_introl eq_refl)) as (b & ->).
  destruct IH as (bs & ->); [intros x Hx; apply H; now right|].
  simpl. eauto.
Qed.

Lemma short_count_converts (v : pyval) :
  long_count 18 v = false -> overlong_count v = false.
Proof.
  unfold overlong_count, long_count. destruct (text_of v) as [s|]; [|reflexivity].
  destruct (first_digits (strip s)) as [g|]; [|reflexivity].
  intros H. apply Nat.ltb_ge in H. apply Nat.ltb_ge.
  apply (Nat.le_trans _ 18); [assumption|].
  unfold int_max_str_digits. apply Nat.leb_le. vm_compute. reflexivity.
Qed.

Lemma clean_cells_readable (p : product) :
  readable p = true -> exists r, clean_cells (row_of_dict p) = Ok r.
Proof.
  unfold readable. intros H. apply andb_prop in H. destruct H as [H1 H2].
  apply negb_true_iff in H1, H2.
  unfold clean_cells, row_of_dict. cbn [c_Price c_Rating c_Colors c_Size c_Gender].
  pose proof (clean_price_cases (or_nan (Price p))) as Hp. rewrite H1 in Hp.
  destruct Hp as (x1 & ->).
  destruct (clean_rating_ok (or_nan (Rating p))) as (x2 & -> & _).
  pose proof (clean_colors_cases (or_nan (Colors p))) as Hc.
  rewrite (short_count_converts _ H2) in Hc.
  destruct Hc as (x3 & ->).
  destruct (clean_size_ok (or_nan (Size p))) as (x4 & ->).
  destruct (clean_gender_ok (or_nan (Gender p))) as (x5 & ->).
  simpl. eauto.
Qed.

Lemma or_nan_some (A : Type) (f : pyval -> result (option A)) (v : option pyval) (x : A) :
  f PNone = Ok None -> f (or_nan v) = Ok (Some x) -> is_some v = true.
Proof. destruct v; [reflexivity|]. simpl. intros -> H. discriminate. Qed.

(** a complete cleaned row comes from a dictionary that has the seven keys *)
Lemma complete_has_keys (p : product) (r : clean_row) :
  clean_cells (row_of_dict p) = Ok r -> complete r = true ->
  forallb (fun k => has_key k p) all_keys = true.
Proof.
  intros E Hc. apply clean_cells_inv in E.
  destruct E as (E1 & E2 & E3 & E4 & E5 & E6 & E7).
  destruct (complete_cells _ Hc) as (t & pr & ra & c & s & g & ts & ->).
  cbn [row_of_dict c_Title c_Price c_Rating c_Colors c_Size c_Gender c_timestamp] in *.
  apply (or_nan_some clean_price _ eq_refl) in E3.
  apply (or_nan_some clean_rating _ eq_refl) in E4.
  apply (or_nan_some clean_colors _ eq_refl) in E5.
  apply (or_nan_some clean_size _ eq_refl) in E6.
  apply (or_nan_some clean_gender _ eq_refl) in E7.
  unfold all_keys. cbn [forallb]. unfold has_key. cbn [String.eqb Ascii.eqb Bool.eqb].
  rewrite <- E1, <- E2, E3, E4, E5, E6, E7. reflexivity.
Qed.



(** ** Cleaning what is clean already *)

Lemma mapM_of_map (A B C : Type) (h : A -> B) (f : B -> result C) (l : list A) :
  mapM f (map h l) = mapM (fun a => f (h a)) l.
Proof. induction l as [|a l IH]; simpl; [reflexivity | now rewrite IH]. Qed.

Lemma clean_price_typed (v : option Qc) : clean_price (of_float v) = Ok None.
Proof. destruct v; reflexivity. Qed.

Lemma clean_rating_typed (v : option Qc) : clean_rating (of_float v) = Ok None.
Proof. destruct v; reflexivity. Qed.

Lemma clean_colors_typed (v : option Z) : clean_colors (of_int v) = Ok None.
Proof. destruct v; reflexivity. Qed.

Lemma clean_cells_again (r : clean_row) :
  clean_cells (row_of_dict (dict_of_row r)) = Ok (cleaned_again r).
Proof.
  unfold clean_cells, row_of_dict, dict_of_row, cleaned_again.
  cbn [Title Price Rating Colors Size Gender timestamp or_nan
       c_Title c_Price c_Rating c_Colors c_Size c_Gender c_timestamp].
  rewrite clean_price_typed, clean_rating_typed, clean_colors_typed. cbn [bind].
  destruct (clean_size_ok (of_str (c_Size r))) as (s & ->).
  destruct (clean_gender_ok (of_str (c_Gender r))) as (g & ->).
  reflexivity.
Qed.

Lemma cleaned_again_incomplete (r : clean_row) : complete (cleaned_again r) = false.
Proof. unfold cleaned_again. destruct (c_Title r); reflexivity. Qed.

Lemma has_all_keys_head (p : product) (data : list product) :
  forallb (fun k => has_key k p) all_keys = true -> has_all_keys (p :: data) = true.
Proof.
  unfold has_all_keys. rewrite !forallb_forall. intros H k Hk.
  cbn [existsb]. now rewrite (H k Hk).
Qed.

Lemma dict_of_row_keys (r : clean_row) :
  complete r = true -> forallb (fun k => has_key k (dict_of_row r)) all_keys = true.
Proof.
  intros H. destruct (complete_cells _ H) as (t & p & ra & c & s & g & ts & ->).
  reflexivity.
Qed.

(** C1, counterexample: the frame of one valid product has one row; its
    records, transformed again, give a frame without rows. *)
Lemma transform_data_twice_drops_rows :
  exists df df',
    transform_data [tshirt] = Ok df /\ List.length (rows df) = 1%nat /\
    transform_data (to_records df) = Ok df' /\ rows df' = [].
Proof.
  destruct (transform_data [tshirt]) as [df|e] eqn:E;
    [|vm_compute in E; discriminate].
  destruct (transform_data (to_records df)) as [df'|e] eqn:E';
    [|vm_compute in E; injection E as <-; vm_compute in E'; discriminate].
  exists df, df'. split; [reflexivity|].
  vm_compute in E. injection E as <-. split; [reflexivity|]. split; [exact E'|].
  vm_compute in E'. injection E' as <-. reflexivity.
Qed.

(** C1, amended: [clean_price], [clean_rating] and [clean_colors] return
    missing for a value that is typed already (a float, an integer: anything
    that is not text).  So [transform_data], run on the records of a frame
    with rows that it has produced, drops every row: it returns the frame
    without rows, with the same columns; on the records of a frame without
    rows it fails, as on every empty list. *)
Theorem transform_data_again_drops_every_row :
  (forall q, clean_price (PFloat q) = Ok None) /\
  (forall q, clean_rating (PFloat q) = Ok None) /\
  (forall z, clean_colors (PInt z) = Ok None) /\
  (forall data df,
      transform_data data = Ok df -> rows df <> [] ->
      transform_data (to_records df) = Ok (mkFrame columns_order [])) /\
  (forall data df,
      transform_data data = Ok df -> rows df = [] ->
      transform_data (to_records df)
      = Raise (ValueError
                 "Validation error during transformation: Input data must be a non-empty list")).
Proof.
  split; [reflexivity|]. split; [reflexivity|]. split; [reflexivity|].
  split.
  - intros data df H Hrows. apply transform_data_inv in H.
    destruct H as (_ & _ & cleaned & _ & ->). cbn [rows] in Hrows.
    unfold to_records. cbn [rows].
    assert (K : forall r, In r (kept cleaned) -> complete r = true)
      by (intros r Hr; now apply kept_complete in Hr).
    destruct (kept cleaned) as [|r0 l] eqn:El; [contradiction|].
    assert (E0 : kept (map cleaned_again (r0 :: l)) = []).
    { unfold kept. rewrite (filter_none complete); [reflexivity|].
      intros a Ha. apply filter_In in Ha. destruct Ha as [Ha _].
      apply in_map_iff in Ha. destruct Ha as (r & <- & _).
      apply cleaned_again_incomplete. }
    rewrite (transform_data_computes (data := map dict_of_row (r0 :: l))
               (cleaned := map cleaned_again (r0 :: l))).
    + now rewrite E0.
    + discriminate.
    + cbn [map]. apply has_all_keys_head. apply dict_of_row_keys. apply K. now left.
    + unfold pd_DataFrame. cbn [rows]. rewrite !mapM_of_map.
      apply mapM_map. intros r _. apply clean_cells_again.
  - intros data df _ Hrows. unfold to_records. rewrite Hrows. reflexivity.
Qed.

Lemma transform_data_again_drops_every_row_witness :
  exists df,
    transform_data [tshirt] = Ok df /\
    transform_data (to_records df) = Ok (mkFrame columns_order []).
Proof.
  destruct (transform_data [tshirt]) as [df|e] eqn:E;
    [|vm_compute in E; discriminate].
  exists df. split; [reflexivity|].
  apply (proj1 (proj2 (proj2 (proj2 transform_data_again_drops_every_row))) _ _ E).
  vm_compute in E. injection E as <-. discriminate.
Defined.

(** ** Further properties of the cleaners and of [transform_data] *)

Lemma first_occurrences_complete (l : list clean_row) (r : clean_row) :
  In r l -> In r (first_occurrences l).
Proof.
  induction l as [|x l IH]; simpl; [trivial|].
  intros [->|H]; [now left|].
  destruct (row_eq_dec x r) as [->|N]; [now left|].
  right. apply filter_In. split; [now apply IH|].
  unfold row_eqb. destruct (row_eq_dec x r); [contradiction | reflexivity].
Qed.

(** The examples of the tests for the four other cleaners. *)
Example cleaner_examples :
  clean_rating (PStr "Rating: ⭐ 3.9 / 5") = Ok (Some (Q2Qc (39 # 10))) /\
  clean_rating (PStr "Rating: ⭐ Invalid Rating / 5") = Ok None /\
  clean_rating (PStr "Rating: Not Rated") = Ok None /\
  clean_colors (PStr "3 Colors") = Ok (Some 3%Z) /\
  clean_size (PStr "Size: M") = Ok (Some "M") /\
  clean_gender (PStr "Gender: Women") = Ok (Some "Women").
Proof.
  split; [ok_some_qc|]. repeat split.
Qed.



(* ================================================================== *)
(** * utils/extract.py: facts and claims *)

Section ExtractFacts.
Variable html_parser : string -> node.
Variable clock : world -> string.
Variable network : world -> string -> reply.

(** [parse_product] returns a product or raises [ValueError], nothing else *)
Lemma parse_product_cases (card : node) :
  (exists item, parse_product card = Ok item /\
                find "h3" "product-title" card <> None) \/
  (parse_product card
   = Raise (ValueError "Error parsing product card: Could not find product title") /\
   find "h3" "product-title" card = None).
Proof.
  unfold parse_product. destruct (find "h3" "product-title" card) as [title_elem|].
  - left. eexists. split; [reflexivity | discriminate].
  - right. split; reflexivity.
Qed.

Lemma parse_cards_ok (cards : list node) : exists items, parse_cards cards = Ok items.
Proof.
  induction cards as [|card cards (items & IH)]; simpl; [eauto|].
  destruct (parse_product_cases card) as [(item & -> & _) | (-> & _)].
  - rewrite IH. simpl. eauto.
  - eauto.
Qed.

Lemma parse_cards_untitled (cards : list node) :
  (forall card, In card cards -> find "h3" "product-title" card = None) ->
  parse_cards cards = Ok [].
Proof.
  induction cards as [|card cards IH]; intros H; simpl; [reflexivity|].
  destruct (parse_product_cases card) as [(item & _ & N) | (-> & _)].
  - exfalso. apply N. apply H. now left.
  - apply IH. intros c Hc. apply H. now right.
Qed.

(** what [fetch_page] adds to the world: at most a request *)
Lemma fetch_page_events (page_number : Z) (w : world) :
  exists r events,
    fetch_page network page_number w = (r, (w ++ events)%list) /\
    existsb is_now events = false.
Proof.
  unfold fetch_page, io_try.
  destruct ((page_number <? 1)%Z || (50 <? page_number)%Z).
  - unfold io_raise. eexists. exists []. rewrite app_nil_r. split; reflexivity.
  - unfold session_get.
    destruct (network w
                (if (page_number =? 1)%Z then BASE_URL
                 else BASE_URL ++ "page" ++ str_int page_number)) as [text|msg];
      unfold io_raise; eexists; eexists; split; reflexivity.
Qed.

Lemma scrape_page_events (page_num end_page : Z) (ts : string)
      (acc : list product) (w : world) :
  exists acc' events,
    scrape_page html_parser network page_num end_page ts acc w
    = (Ok acc', (w ++ events)%list) /\
    existsb is_now events = false /\
    forall p, In p acc' -> In p acc \/ timestamp p = Some ts.
Proof.
  unfold scrape_page, io_try, io_bind.
  destruct (fetch_page_events page_num w) as (r & ev1 & -> & H1).
  destruct r as [html|e].
  - unfold io_lift. destruct (parse_page html_parser (PStr html)) as [products|e].
    + destruct (page_num <? end_page)%Z.
      * unfold sleep, io_ret. eexists. exists (ev1 ++ [EvSleep])%list.
        rewrite app_assoc. split; [reflexivity|]. split.
        -- rewrite existsb_app, H1. reflexivity.
        -- intros p Hp. apply in_app_or in Hp. destruct Hp as [Hp|Hp]; [now left|].
           right. apply in_map_iff in Hp. destruct Hp as (p0 & <- & _). reflexivity.
      * unfold io_ret. eexists. exists ev1. split; [reflexivity|]. split; [assumption|].
        intros p Hp. apply in_app_or in Hp. destruct Hp as [Hp|Hp]; [now left|].
        right. apply in_map_iff in Hp. destruct Hp as (p0 & <- & _). reflexivity.
    + unfold io_ret. exists acc, ev1. split; [reflexivity|]. split; [assumption|]. auto.
  - unfold io_ret. exists acc, ev1. split; [reflexivity|]. split; [assumption|]. auto.
Qed.

Lemma scrape_pages_events (pages : list Z) (end_page : Z) (ts : string) :
  forall (acc : list product) (w : world),
  exists products events,
    scrape_pages html_parser network pages end_page ts acc w
    = (Ok products, (w ++ events)%list) /\
    existsb is_now events = false /\
    forall p, In p products -> In p acc \/ timestamp p = Some ts.
Proof.
  induction pages as [|page pages IH]; intros acc w; cbn [scrape_pages].
  - exists acc, []. rewrite app_nil_r. split; [reflexivity|]. split; [reflexivity|]. auto.
  - unfold io_bind.
    destruct (scrape_page_events page end_page ts acc w) as (acc1 & ev1 & -> & H1 & A1).
    destruct (IH acc1 (w ++ ev1)%list) as (products & ev2 & -> & H2 & A2).
    exists products, (ev1 ++ ev2)%list. rewrite app_assoc.
    split; [reflexivity|]. split.
    + now rewrite existsb_app, H1, H2.
    + intros p Hp. destruct (A2 p Hp) as [Hp'|Hp']; [apply A1, Hp' | now right].
Qed.

(** C7: a run of [scrape_all_pages] with a valid range reads the clock once,
    before anything else happens, and every product that it returns carries
    what the clock showed then, whatever the clock shows later and whichever
    page the product is from; with another range the run fails before
    anything happens. *)
Theorem scrape_all_pages_one_timestamp (start_page end_page : Z) (w : world) :
  match scrape_all_pages html_parser clock network start_page end_page w with
  | (Ok products, w') =>
      (1 <= start_page <= end_page)%Z /\ (end_page <= 50)%Z /\
      exists events,
        w' = (w ++ EvNow (clock w) :: events)%list /\
        existsb is_now events = false /\
        forall p, In p products -> timestamp p = Some (clock w)
  | (Raise e, w') =>
      w' = w /\ ((start_page < 1)%Z \/ (50 < end_page)%Z \/ (end_page < start_page)%Z)
  end.
Proof.
  unfold scrape_all_pages, io_try.
  destruct (start_page <? 1)%Z eqn:E1; cbn [orb].
  { unfold io_raise. split; [reflexivity|]. left. now apply Z.ltb_lt. }
  destruct (50 <? end_page)%Z eqn:E2; cbn [orb].
  { unfold io_raise. split; [reflexivity|]. right. left. now apply Z.ltb_lt. }
  destruct (end_page <? start_page)%Z eqn:E3.
  { unfold io_raise. split; [reflexivity|]. right. right. now apply Z.ltb_lt. }
  apply Z.ltb_ge in E1, E2, E3.
  unfold io_bind, now.
  destruct (scrape_pages_events (range start_page (end_page + 1)) end_page (clock w) []
              (w ++ [EvNow (clock w)])%list) as (products & events & -> & H & A).
  split; [lia|]. split; [lia|].
  exists events. rewrite <- app_assoc. split; [reflexivity|]. split; [assumption|].
  intros p Hp. destruct (A p Hp) as [[]|Hts]. exact Hts.
Qed.

(** C8: for a page number outside 1..50 [fetch_page] fails before any
    request is sent: the world is as it was.  The [ValueError] of the
    check is caught by the handler of unexpected errors, so that what the
    caller receives is a plain [Exception] that quotes it. *)
Theorem fetch_page_out_of_range (page_number : Z) (w : world) :
  (page_number < 1)%Z \/ (50 < page_number)%Z ->
  fetch_page network page_number w
  = (Raise (Exception ("Unexpected error fetching page " ++ str_int page_number
                       ++ ": Invalid page number: " ++ str_int page_number
                       ++ ". Must be between 1 and 50.")), w).
Proof.
  intros H. unfold fetch_page, io_try.
  assert (E : (page_number <? 1)%Z || (50 <? page_number)%Z = true).
  { destruct H as [H|H]; apply Z.ltb_lt in H; rewrite H;
      [reflexivity | apply orb_true_r]. }
  rewrite E. reflexivity.
Qed.

(** C9: when cards are located in the markup and none of them has a title,
    [parse_page] returns the empty list; it fails for want of records only
    when no card is located. *)
Theorem parse_page_without_titles :
  (forall html,
      nonempty html = true ->
      find_all "div" "collection-card" (html_parser html) <> [] ->
      (forall card, In card (find_all "div" "collection-card" (html_parser html)) ->
                    find "h3" "product-title" card = None) ->
      parse_page html_parser (PStr html) = Ok []) /\
  (forall html_content,
      parse_page html_parser html_content
      = Raise (ValueError "Error parsing page: No product cards found on the page") <->
      exists html, text_of html_content = Some html /\
                   find_all "div" "collection-card" (html_parser html) = []).
Proof.
  split.
  - intros html Hne Hcards Huntitled. unfold parse_page. cbn [text_of]. rewrite Hne.
    destruct (find_all "div" "collection-card" (html_parser html)) as [|c cs] eqn:E;
      [contradiction|].
    now rewrite (parse_cards_untitled _ Huntitled).
  - intros v. unfold parse_page. destruct (text_of v) as [html|].
    + destruct (find_all "div" "collection-card" (html_parser html)) as [|c cs] eqn:E.
      * split; [eauto | reflexivity].
      * destruct (parse_cards_ok (c :: cs)) as (items & ->). split; [discriminate|].
        intros (html' & [= <-] & E'). rewrite E in E'. discriminate.
    + split; [discriminate|]. intros (html & N & _). discriminate.
Qed.
(** X2: for a page number from 1 to 50 [fetch_page] sends one request, to
    the root address for page 1 and to the address of the page otherwise; it
    returns the text of the answer, or fails with a [RequestException] that
    names the page. *)
Theorem fetch_page_in_range (page_number : Z) (w : world) :
  (1 <= page_number <= 50)%Z ->
  fetch_page network page_number w
  = (match network w (if (page_number =? 1)%Z then BASE_URL
                      else BASE_URL ++ "page" ++ str_int page_number) with
     | Body text => Ok text
     | Failed msg =>
         Raise (RequestException ("Failed to fetch page " ++ str_int page_number
                                  ++ ": " ++ msg))
     end,
     (w ++ [EvGet (if (page_number =? 1)%Z then BASE_URL
                   else BASE_URL ++ "page" ++ str_int page_number)])%list).
Proof.
  intros [H1 H2]. unfold fetch_page, io_try, session_get.
  apply Z.ltb_ge in H1. apply Z.ltb_ge in H2. rewrite H1, H2. cbn [orb].
  destruct (network w _); reflexivity.
Qed.
End ExtractFacts.

Lemma fetch_page_in_range_witness :
  fetch_page flaky_network 2 []
  = (Ok "https://fashion-studio.dicoding.dev/page2",
     [EvGet "https://fashion-studio.dicoding.dev/page2"]).
Proof. apply (@fetch_page_in_range flaky_network 2 []). split; discriminate. Defined.

(** The two cards of the test page give two products, with their titles
    and the text of their prices as it stands, currency symbol included. *)
Example parse_page_two_cards :
  parse_page (fun _ => page_of [card_tshirt; card_hoodie]) (PStr "<html>")
  = Ok [mkProduct (Some "T-shirt 2") (Some (PStr "$102.15"))
                  (Some (PStr "Rating: ⭐ 3.9 / 5")) (Some (PStr "3 Colors"))
                  (Some (PStr "Size: M")) (Some (PStr "Gender: Women")) None;
        mkProduct (Some "Hoodie 3") (Some (PStr "$496.88"))
                  (Some (PStr "Rating: ⭐ 4.8 / 5")) (Some (PStr "3 Colors"))
                  (Some (PStr "Size: L")) (Some (PStr "Gender: Unisex")) None].
Proof. reflexivity. Qed.

Lemma scrape_all_pages_one_timestamp_witness :
  exists products w',
    scrape_all_pages (fun _ => page_of [card_tshirt; card_untitled])
                     ticking_clock flaky_network 1 3 []
    = (Ok products, w') /\
    List.length products = 2%nat /\ List.length w' = 5%nat /\
    forall p, In p products -> timestamp p = Some "0".
Proof.
  pose proof (scrape_all_pages_one_timestamp
                (fun _ => page_of [card_tshirt; card_untitled])
                ticking_clock flaky_network 1 3 []) as H.
  destruct (scrape_all_pages (fun _ => page_of [card_tshirt; card_untitled])
                             ticking_clock flaky_network 1 3 [])
    as [[products|e] w'] eqn:E.
  - exists products, w'. split; [reflexivity|].
    destruct H as (_ & _ & events & _ & _ & Hts).
    vm_compute in E. injection E as <- <-.
    split; [reflexivity|]. split; [reflexivity|]. exact Hts.
  - vm_compute in E. discriminate.
Defined.

Lemma fetch_page_out_of_range_witness :
  fetch_page flaky_network 0 []
  = (Raise (Exception
              "Unexpected error fetching page 0: Invalid page number: 0. Must be between 1 and 50."),
     []).
Proof. apply (@fetch_page_out_of_range flaky_network 0 []). left. reflexivity. Defined.

Lemma parse_page_without_titles_witness :
  parse_page (fun _ => page_of [card_untitled; card_untitled]) (PStr "<html>") = Ok [].
Proof.
  apply (proj1 (parse_page_without_titles (fun _ => page_of [card_untitled; card_untitled]))).
  - reflexivity.
  - discriminate.
  - intros card [<-|[<-|[]]]; reflexivity.
Defined.

(* ================================================================== *)
(** * Texts without white space around them *)

Lemma rstrip_idempotent (s : string) : rstrip (rstrip s) = rstrip s.
Proof.
  induction s as [|c s IH]; [reflexivity|]. cbn [rstrip].
  destruct (rstrip s) as [|d r] eqn:E.
  - destruct (is_space c) eqn:Ec; [reflexivity|]. cbn [rstrip]. now rewrite Ec.
  - cbn [rstrip]. cbn [rstrip] in IH. rewrite IH. reflexivity.
Qed.

Lemma lstrip_idempotent (s : string) : lstrip (lstrip s) = lstrip s.
Proof.
  induction s as [|c s IH]; [reflexivity|]. cbn [lstrip].
  destruct (is_space c) eqn:Ec; [assumption|]. cbn [lstrip]. now rewrite Ec.
Qed.

Lemma rstrip_lstrip (s : string) : rstrip (lstrip s) = lstrip (rstrip s).
Proof.
  induction s as [|c s IH]; [reflexivity|]. cbn [lstrip rstrip].
  destruct (is_space c) eqn:Ec.
  - rewrite IH. destruct (rstrip s) as [|d r]; [reflexivity|]. cbn [lstrip]. now rewrite Ec.
  - cbn [rstrip]. destruct (rstrip s) as [|d r]; rewrite ?Ec; cbn [lstrip]; now rewrite ?Ec.
Qed.

Lemma strip_idempotent (s : string) : strip (strip s) = strip s.
Proof.
  unfold strip. now rewrite rstrip_lstrip, rstrip_idempotent, lstrip_idempotent.
Qed.

Lemma length_lstrip (s : string) : (String.length (lstrip s) <= String.length s)%nat.
Proof.
  induction s as [|c s IH]; [apply Nat.le_refl|]. cbn [lstrip].
  destruct (is_space c); cbn [String.length]; lia.
Qed.

Lemma length_rstrip (s : string) : (String.length (rstrip s) <= String.length s)%nat.
Proof.
  induction s as [|c s IH]; [apply Nat.le_refl|]. cbn [rstrip].
  destruct (rstrip s) as [|d r]; [destruct (is_space c)|]; cbn [String.length] in *; lia.
Qed.

Lemma lstrip_same_length (s : string) :
  String.length (lstrip s) = String.length s -> lstrip s = s.
Proof.
  destruct s as [|c s]; [reflexivity|]. cbn [lstrip].
  destruct (is_space c); [|reflexivity].
  intros H. pose proof (length_lstrip s). cbn [String.length] in H. lia.
Qed.

Lemma rstrip_same_length (s : string) :
  String.length (rstrip s) = String.length s -> rstrip s = s.
Proof.
  induction s as [|c s IH]; [reflexivity|]. cbn [rstrip].
  pose proof (length_rstrip s) as L.
  destruct (rstrip s) as [|d r] eqn:E.
  - destruct (is_space c); cbn [String.length] in *; intros H.
    + lia.
    + assert (String.length s = 0%nat) by lia. destruct s; [reflexivity | discriminate].
  - cbn [String.length] in *. intros H. rewrite IH by lia. reflexivity.
Qed.

(** a text that [strip] leaves as it is has no white space at either end *)
Lemma strip_fixed (s : string) : strip s = s -> rstrip s = s /\ lstrip s = s.
Proof.
  unfold strip. intros H.
  pose proof (length_lstrip (rstrip s)) as L1. pose proof (length_rstrip s) as L2.
  assert (R : rstrip s = s).
  { apply rstrip_same_length. rewrite H in L1. lia. }
  split; [assumption|]. now rewrite R in H.
Qed.

Lemma rstrip_append (a w : string) :
  nonempty (rstrip w) = true -> rstrip (a ++ w) = a ++ rstrip w.
Proof.
  intros H. induction a as [|c a IH]; [reflexivity|].
  cbn [append rstrip]. rewrite IH.
  destruct (a ++ rstrip w) as [|d r] eqn:E; [|reflexivity].
  destruct a; cbn [append] in E; [|discriminate]. rewrite E in H. discriminate.
Qed.

(** ** A label and what follows it *)

Lemma remove_absent (old s : string) :
  contains old s = false -> remove_from old 0 s = s.
Proof.
  induction s as [|c s IH]; [reflexivity|].
  rewrite contains_step. intros H. apply orb_false_iff in H. destruct H as [H1 H2].
  cbn [remove_from]. rewrite H1, IH by assumption. reflexivity.
Qed.

Lemma strip_labelled (label w : string) :
  nonempty w = true -> strip w = w -> lstrip (label ++ " " ++ w) = label ++ " " ++ w ->
  strip (label ++ " " ++ w) = label ++ " " ++ w /\ strip (" " ++ w) = w.
Proof.
  intros Hw Hs Hl. destruct (@strip_fixed w Hs) as [R L].
  assert (N : nonempty (rstrip w) = true) by now rewrite R.
  unfold strip. split.
  - rewrite <- append_assoc, rstrip_append, R by assumption. rewrite append_assoc. exact Hl.
  - rewrite rstrip_append, R by assumption. cbn. exact L.
Qed.

Lemma clean_size_labelled (w : string) :
  nonempty w = true -> strip w = w -> contains "Size:" w = false ->
  clean_size (PStr ("Size: " ++ w)) = Ok (Some w).
Proof.
  intros Hw Hs Hc.
  destruct (@strip_labelled "Size:" w Hw Hs eq_refl) as [E1 E2].
  unfold clean_size. cbn [text_of append nonempty]. cbv zeta.
  change (String "S" (String "i" (String "z" (String "e" (String ":" (String " " w))))))
    with ("Size:" ++ " " ++ w).
  rewrite E1.
  assert (E : remove_all "Size:" ("Size:" ++ " " ++ w) = " " ++ w).
  { unfold remove_all. cbn. now rewrite remove_absent. }
  rewrite E, E2, Hw. reflexivity.
Qed.

Lemma clean_gender_labelled (w : string) :
  nonempty w = true -> strip w = w -> contains "Gender:" w = false ->
  clean_gender (PStr ("Gender: " ++ w)) = Ok (Some w).
Proof.
  intros Hw Hs Hc.
  destruct (@strip_labelled "Gender:" w Hw Hs eq_refl) as [E1 E2].
  unfold clean_gender. cbn [text_of append nonempty]. cbv zeta.
  change (String "G" (String "e" (String "n" (String "d" (String "e" (String "r"
            (String ":" (String " " w))))))))
    with ("Gender:" ++ " " ++ w).
  rewrite E1.
  assert (E : remove_all "Gender:" ("Gender:" ++ " " ++ w) = " " ++ w).
  { unfold remove_all. cbn. now rewrite remove_absent. }
  rewrite E, E2, Hw. reflexivity.
Qed.



Lemma clean_size_trimmed (v : pyval) (s : string) :
  clean_size v = Ok (Some s) -> nonempty s = true /\ strip s = s.
Proof.
  unfold clean_size. destruct (text_of v) as [t|]; [|discriminate]. cbv zeta.
  destruct (nonempty (strip (remove_all "Size:" (strip t)))) eqn:E; cbn [try_except];
    [|discriminate].
  intros [= <-]. split; [assumption | apply strip_idempotent].
Qed.

Lemma clean_gender_trimmed (v : pyval) (s : string) :
  clean_gender v = Ok (Some s) -> nonempty s = true /\ strip s = s.
Proof.
  unfold clean_gender. destruct (text_of v) as [t|]; [|discriminate]. cbv zeta.
  destruct (nonempty (strip (remove_all "Gender:" (strip t)))) eqn:E; cbn [try_except];
    [|discriminate].
  intros [= <-]. split; [assumption | apply strip_idempotent].
Qed.

(** X4: a size and a gender that the cleaners return are not empty and have
    no white space around them, and so are the size and the gender of every
    row of a frame that [transform_data] returns. *)
Theorem size_and_gender_trimmed :
  (forall v s, clean_size v = Ok (Some s) -> nonempty s = true /\ strip s = s) /\
  (forall v s, clean_gender v = Ok (Some s) -> nonempty s = true /\ strip s = s) /\
  (forall data df r,
      transform_data data = Ok df -> In r (rows df) ->
      exists s g, c_Size r = Some s /\ c_Gender r = Some g /\
                  nonempty s = true /\ strip s = s /\ nonempty g = true /\ strip g = g).
Proof.
  split; [exact clean_size_trimmed|]. split; [exact clean_gender_trimmed|].
  intros data df r H Hr. apply transform_data_inv in H.
  destruct H as (_ & _ & cleaned & Hc & ->). cbn [rows] in Hr.
  destruct (kept_origin _ _ Hc Hr) as (Hcomp & _ & p & _ & E).
  apply clean_cells_inv in E. destruct E as (_ & _ & _ & _ & _ & E1 & E2).
  destruct (complete_cells _ Hcomp) as (t & pr & ra & c & s & g & ts & ->).
  cbn [c_Size c_Gender] in *. exists s, g.
  destruct (clean_size_trimmed _ E1) as [A1 A2].
  destruct (clean_gender_trimmed _ E2) as [B1 B2].
  repeat split; assumption.
Qed.

Lemma size_and_gender_trimmed_witness :
  exists s, clean_size (PStr "  Size:  XL ") = Ok (Some s) /\ nonempty s = true /\ strip s = s.
Proof.
  exists "XL". split; [reflexivity|].
  apply (proj1 size_and_gender_trimmed (PStr "  Size:  XL ")). reflexivity.
Defined.

(* ================================================================== *)
(** * The count of colours *)

(** the first run of digits of a text: what stands before it has no digit,
    and no digit follows it *)
Lemma first_digits_split (t g : string) :
  first_digits t = Some g ->
  exists pre rest,
    t = pre ++ g ++ rest /\
    forall_str not_digit pre = true /\
    forall_str is_digit g = true /\ nonempty g = true /\
    match rest with
    | String c _ => is_digit c = false
    | "" => True
    end.
Proof.
  intros H. pose proof (first_digits_shape _ H) as S.
  apply andb_prop in S. destruct S as [S1 S2].
  unfold first_digits in H.
  destruct (drop_while not_digit t) as [|c r] eqn:E; [discriminate|].
  assert (G : g = take_while is_digit (String c r)) by (injection H as H; now rewrite <- H).
  clear H. subst g.
  exists (take_while not_digit t), (drop_while is_digit (String c r)).
  split.
  { rewrite (take_drop_while is_digit (String c r)), <- E.
    symmetry. apply take_drop_while. }
  split; [apply forall_take_while|]. split; [assumption|]. split; [assumption|].
  destruct (drop_while is_digit (String c r)) as [|d r'] eqn:E'; [trivial|].
  exact (drop_while_head _ _ E').
Qed.



(* ================================================================== *)
(** * A rating out of five *)

Lemma space_not_digit (c : ascii) : is_space c = true -> is_digit c = false.
Proof.
  destruct c as [[] [] [] [] [] [] [] []]; intros H; try reflexivity; discriminate H.
Qed.

Lemma re_match_rating_nondigit (c : ascii) (s : string) :
  is_digit c = false -> re_match rating_pattern (String c s) = None.
Proof.
  intros H. unfold re_match. cbn [rating_pattern before group number exec]. now rewrite H.
Qed.

Lemma re_search_rating_skip (pre s : string) :
  forall_str not_digit pre = true ->
  re_search rating_pattern (pre ++ s) = re_search rating_pattern s.
Proof.
  induction pre as [|c pre IH]; [reflexivity|]. cbn [forall_str].
  intros H. apply andb_prop in H. destruct H as [Hc Hp].
  unfold not_digit in Hc. apply negb_true_iff in Hc.
  cbn [append re_search]. rewrite (@re_match_rating_nondigit c (pre ++ s) Hc). cbn [or_else].
  now apply IH.
Qed.

(** what follows the numeral: the slash and the five *)
Lemma exec_rating_after (A : Type) (sp1 sp2 rest : string) (x : A) :
  forall_str is_space sp1 = true -> forall_str is_space sp2 = true ->
  exec (after rating_pattern) (sp1 ++ "/" ++ sp2 ++ "5" ++ rest) (fun _ => Some x) = Some x.
Proof.
  intros H1 H2. cbn [rating_pattern after exec].
  apply star_greedy. rewrite (@drop_while_append is_space sp1 _ H1). cbn.
  apply star_greedy. rewrite (@drop_while_append is_space sp2 _ H2). reflexivity.
Qed.

Lemma drop_digits_after (sp1 s : string) :
  forall_str is_space sp1 = true ->
  drop_while is_digit (sp1 ++ "/" ++ s) = sp1 ++ "/" ++ s.
Proof.
  destruct sp1 as [|c sp1]; [reflexivity|]. cbn [forall_str append drop_while].
  intros H. apply andb_prop in H. destruct H as [Hc _].
  now rewrite (@space_not_digit c Hc).
Qed.

Lemma re_match_rating_fraction (ip fp sp1 sp2 rest : string) :
  forall_str is_digit ip = true -> nonempty ip = true -> forall_str is_digit fp = true ->
  forall_str is_space sp1 = true -> forall_str is_space sp2 = true ->
  re_match rating_pattern ((ip ++ "." ++ fp) ++ sp1 ++ "/" ++ sp2 ++ "5" ++ rest)
  = Some (ip ++ "." ++ fp).
Proof.
  intros Hi Hn Hf H1 H2. unfold re_match.
  change (before rating_pattern) with Eps. change (group rating_pattern) with number.
  cbn [exec number].
  set (t := (ip ++ "." ++ fp) ++ sp1 ++ "/" ++ sp2 ++ "5" ++ rest).
  assert (E : exec (after rating_pattern) (sp1 ++ "/" ++ sp2 ++ "5" ++ rest)
                   (fun _ => Some (consumed t (sp1 ++ "/" ++ sp2 ++ "5" ++ rest)))
              = Some (ip ++ "." ++ fp)).
  { rewrite (@exec_rating_after _ sp1 sp2 rest _ H1 H2). unfold t. now rewrite consumed_append. }
  destruct ip as [|c ip]; [discriminate|]. cbn [forall_str] in Hi.
  apply andb_prop in Hi. destruct Hi as [Hc Hi].
  unfold t at 1. cbn [append]. rewrite Hc.
  apply star_greedy. rewrite !append_assoc. rewrite (@drop_while_append is_digit ip _ Hi).
  cbn [append drop_while]. change (is_digit ".") with false. cbv iota.
  change (is_char "." ".") with true. cbv iota.
  assert (S : star is_digit (fp ++ sp1 ++ "/" ++ sp2 ++ "5" ++ rest)
                   (fun s' => exec (after rating_pattern) s'
                                   (fun _ => Some (consumed t s')))
              = Some (String c ip ++ "." ++ fp)).
  { apply star_greedy. rewrite (@drop_while_append is_digit fp _ Hf).
    rewrite (@drop_digits_after sp1 _ H1). exact E. }
  fold t. cbn [append] in S |- *. rewrite S. reflexivity.
Qed.

Lemma re_match_rating_whole (ip sp1 sp2 rest : string) :
  forall_str is_digit ip = true -> nonempty ip = true ->
  forall_str is_space sp1 = true -> forall_str is_space sp2 = true ->
  re_match rating_pattern (ip ++ sp1 ++ "/" ++ sp2 ++ "5" ++ rest) = Some ip.
Proof.
  intros Hi Hn H1 H2. unfold re_match.
  change (before rating_pattern) with Eps. change (group rating_pattern) with number.
  cbn [exec number].
  set (t := ip ++ sp1 ++ "/" ++ sp2 ++ "5" ++ rest).
  assert (E : exec (after rating_pattern) (sp1 ++ "/" ++ sp2 ++ "5" ++ rest)
                   (fun _ => Some (consumed t (sp1 ++ "/" ++ sp2 ++ "5" ++ rest)))
              = Some ip).
  { rewrite (@exec_rating_after _ sp1 sp2 rest _ H1 H2). unfold t. now rewrite consumed_append. }
  destruct ip as [|c ip]; [discriminate|]. cbn [forall_str] in Hi.
  apply andb_prop in Hi. destruct Hi as [Hc Hi].
  unfold t at 1. cbn [append]. rewrite Hc.
  apply star_greedy. rewrite (@drop_while_append is_digit ip _ Hi).
  change (String "/" (sp2 ++ String "5" rest)) with ("/" ++ sp2 ++ "5" ++ rest).
  rewrite (@drop_digits_after sp1 _ H1). fold t.
  (* no point follows: the optional point matches nothing *)
  assert (O : forall k : string -> option string,
             k (sp1 ++ "/" ++ sp2 ++ "5" ++ rest) = Some (String c ip) ->
             exec (Opt (is_char ".")) (sp1 ++ "/" ++ sp2 ++ "5" ++ rest) k
             = Some (String c ip)).
  { intros k Hk. cbn [exec].
    destruct sp1 as [|d sp1]; cbn [append] in Hk |- *.
    - change (is_char "." "/") with false. exact Hk.
    - cbn [forall_str] in H1. apply andb_prop in H1. destruct H1 as [Hd _].
      assert (Hp : is_char "." d = false).
      { destruct (is_char "." d) eqn:Q; [|reflexivity]. unfold is_char in Q.
        apply Ascii.eqb_eq in Q. subst d. discriminate Hd. }
      rewrite Hp. exact Hk. }
  change (exec (Opt (is_char ".")) (sp1 ++ "/" ++ sp2 ++ "5" ++ rest)
               (fun s' => star is_digit s'
                            (fun s2 => exec (after rating_pattern) s2
                                            (fun _ => Some (consumed t s2))))
          = Some (String c ip)).
  apply O. apply star_greedy. rewrite (@drop_digits_after sp1 _ H1). exact E.
Qed.

Lemma re_search_head (pt : pattern) (s g : string) :
  re_match pt s = Some g -> re_search pt s = Some g.
Proof. intros H. destruct s; cbn [re_search]; now rewrite H. Qed.

Lemma nonempty_middle (a b c : string) : nonempty b = true -> nonempty (a ++ b ++ c) = true.
Proof.
  intros H. destruct a; cbn [append nonempty]; [|reflexivity]. now apply nonempty_append.
Qed.



(* ================================================================== *)
(** * [validate_transformed_data] *)

Lemma has_column_In (df : clean_frame) (k : string) :
  has_column df k = true <-> In k (columns df).
Proof.
  unfold has_column. rewrite existsb_exists. split.
  - intros (x & Hx & E). apply String.eqb_eq in E. now subst x.
  - intros H. exists k. split; [assumption | apply String.eqb_refl].
Qed.

Lemma missing_none (df : clean_frame) (labels : list string) :
  filter (fun k => negb (has_column df k)) labels = [] <->
  forall k, In k labels -> In k (columns df).
Proof.
  split.
  - intros H k Hk. apply has_column_In.
    apply (filter_nil_false _ _ k H) in Hk. now apply negb_false_iff in Hk.
  - intros H. apply filter_none. intros k Hk. apply negb_false_iff.
    apply has_column_In. now apply H.
Qed.

Lemma isnull_at_complete (r : clean_row) (k : string) :
  complete r = true -> isnull_at r k = false.
Proof.
  intros H. destruct (complete_cells _ H) as (t & p & ra & c & s & g & ts & ->).
  unfold isnull_at. cbn [c_Title c_Price c_Rating c_Colors c_Size c_Gender c_timestamp is_some negb].
  repeat match goal with |- context [if ?b then _ else _] => destruct b end; reflexivity.
Qed.

Lemma total_nonneg (counts : list (string * Z)) :
  (forall kv, In kv counts -> (0 <= snd kv)%Z) -> (0 <= total counts)%Z.
Proof.
  unfold total. induction counts as [|kv counts IH]; intros H; cbn [map fold_right]; [lia|].
  assert (0 <= snd kv)%Z by (apply H; now left).
  assert (0 <= fold_right Z.add 0 (map snd counts))%Z by (apply IH; intros x Hx; apply H; now right).
  lia.
Qed.

Lemma total_zero (counts : list (string * Z)) :
  (forall kv, In kv counts -> (0 <= snd kv)%Z) ->
  ((0 <? total counts)%Z = false <-> forall kv, In kv counts -> snd kv = 0%Z).
Proof.
  unfold total. induction counts as [|kv counts IH]; intros H; cbn [map fold_right].
  - split; [intros _ kv [] | reflexivity].
  - assert (H0 : (0 <= snd kv)%Z) by (apply H; now left).
    assert (H1 : forall x, In x counts -> (0 <= snd x)%Z) by (intros x Hx; apply H; now right).
    pose proof (total_nonneg _ H1) as H2. unfold total in H2.
    specialize (IH H1). rewrite Z.ltb_ge in IH |- *. split.
    + intros E kv' [<-|Hk]; [lia|]. apply IH; [lia | assumption].
    + intros E. assert (snd kv = 0%Z) by (apply E; now left).
      assert (fold_right Z.add 0 (map snd counts) <= 0)%Z
        by (apply IH; intros x Hx; apply E; now right).
      lia.
Qed.

Lemma length_filter_zero (A : Type) (p : A -> bool) (l : list A) :
  Z.of_nat (List.length (filter p l)) = 0%Z <-> forall a, In a l -> p a = false.
Proof.
  split.
  - intros H a Ha. apply (filter_nil_false p l); [|assumption].
    destruct (filter p l); [reflexivity | simpl in H; lia].
  - intros H. now rewrite (filter_none p l H).
Qed.

(** no cell is counted as null exactly when no cell of a column is null *)
Lemma null_counts_zero (df : clean_frame) :
  (0 <? total (null_counts df))%Z = false <->
  forall k r, In k (columns df) -> In r (rows df) -> isnull_at r k = false.
Proof.
  rewrite total_zero.
  - unfold null_counts. split.
    + intros H k r Hk Hr.
      assert (Hin : In (k, Z.of_nat (List.length (filter (fun r => isnull_at r k) (rows df))))
                       (map (fun k => (k, Z.of_nat (List.length
                                            (filter (fun r => isnull_at r k) (rows df)))))
                            (columns df)))
        by (apply in_map_iff; now exists k).
      specialize (H _ Hin). cbn [snd] in H.
      exact (proj1 (length_filter_zero _ _) H r Hr).
    + intros H kv Hkv. apply in_map_iff in Hkv. destruct Hkv as (k & <- & Hk).
      cbn [snd]. apply length_filter_zero. intros r Hr. now apply H.
  - intros kv Hkv. unfold null_counts in Hkv. apply in_map_iff in Hkv.
    destruct Hkv as (k & <- & _). cbn [snd]. lia.
Qed.

(** no row is marked as a duplicate exactly when no two rows are equal *)
Lemma duplicated_after_none (rest seen : list clean_row) :
  existsb (fun b => b) (duplicated_after seen rest) = false <->
  NoDup rest /\ forall r, In r rest -> ~ In r seen.
Proof.
  revert seen. induction rest as [|r rest IH]; intros seen; cbn [duplicated_after existsb].
  - split; [intros _; split; [constructor | intros r []] | reflexivity].
  - rewrite orb_false_iff, IH. split.
    + intros (H1 & H2 & H3). split.
      * constructor; [|assumption]. intros Hr. apply (H3 r Hr). now left.
      * intros x [<-|Hx].
        -- intros Hs. assert (E : existsb (row_eqb r) seen = true).
           { apply existsb_exists. exists r. split; [assumption | now apply row_eqb_eq]. }
           rewrite E in H1. discriminate.
        -- intros Hs. apply (H3 x Hx). now right.
    + intros (H1 & H2). inversion H1 as [|? ? Hn Hd]; subst. split; [|split].
      * destruct (existsb (row_eqb r) seen) eqn:E; [|reflexivity].
        apply existsb_exists in E. destruct E as (x & Hx & E). apply row_eqb_eq in E.
        subst x. exfalso. apply (H2 r); [now left | assumption].
      * assumption.
      * intros x Hx [<-|Hs]; [contradiction|]. apply (H2 x); [now right | assumption].
Qed.

Lemma title_among_known (df : clean_frame) :
  In "Title" (columns df) ->
  title_among "Unknown Product" df
  = Ok (negb (forallb known_title (rows df))).
Proof.
  intros H. unfold title_among, getitem. rewrite (proj2 (has_column_In df "Title") H).
  cbn [bind]. f_equal. induction (rows df) as [|r l IH]; [reflexivity|].
  cbn [existsb forallb]. rewrite IH, negb_andb. f_equal.
  unfold known_title. destruct (c_Title r); [now rewrite negb_involutive | reflexivity].
Qed.

Lemma empty_rows (df : clean_frame) :
  empty df = false <-> rows df <> [] /\ columns df <> [].
Proof.
  unfold empty. destruct (rows df), (columns df); split;
    try discriminate; try (intros [H1 H2]; congruence); intros _; split; discriminate.
Qed.

Section ValidateFacts.
Variable set_order : list string -> list string.

(** what the validator accepts *)
Lemma validate_ok (df : clean_frame) :
  validate_transformed_data set_order (Some df) = Ok true <->
  rows df <> [] /\
  (forall k, In k required_columns -> In k (columns df)) /\
  (forall r, In r (rows df) -> complete r = true /\ known_title r = true) /\
  NoDup (rows df).
Proof.
  unfold validate_transformed_data, try_except.
  destruct (empty df) eqn:E0.
  { split; [discriminate|]. intros (H1 & H2 & _). exfalso.
    assert (E : empty df = false).
    { apply empty_rows. split; [assumption|]. intros Hc.
      specialize (H2 "Title" (or_introl eq_refl)). rewrite Hc in H2. destruct H2. }
    congruence. }
  apply empty_rows in E0. destruct E0 as [Hrows Hcols].
  destruct (filter (fun k => negb (has_column df k)) required_columns) as [|m ms] eqn:E1.
  2:{ split; [discriminate|]. intros (_ & H2 & _). exfalso.
      apply missing_none in H2. rewrite H2 in E1. discriminate. }
  pose proof (proj1 (missing_none df required_columns) E1) as Hreq.
  cbv zeta.
  destruct (0 <? total (null_counts df))%Z eqn:E2.
  { split; [discriminate|]. intros (_ & _ & H3 & _). exfalso.
    assert (E : (0 <? total (null_counts df))%Z = false).
    { apply null_counts_zero. intros k r _ Hr. apply isnull_at_complete. now apply H3. }
    congruence. }
  pose proof (proj1 (null_counts_zero df) E2) as Hnull.
  assert (Hcomplete : forall r, In r (rows df) -> complete r = true).
  { intros r Hr. unfold complete. apply forallb_forall. intros k Hk.
    apply negb_true_iff. apply Hnull; [|assumption]. apply Hreq. exact Hk. }
  destruct (existsb (fun b => b) (duplicated df)) eqn:E3.
  { split; [discriminate|]. intros (_ & _ & _ & H4). exfalso.
    assert (E : existsb (fun b => b) (duplicated df) = false).
    { apply duplicated_after_none. split; [assumption | intros r _ []]. }
    congruence. }
  apply duplicated_after_none in E3. destruct E3 as [Hnodup _].
  rewrite title_among_known by (apply Hreq; simpl; tauto). cbn [bind].
  destruct (forallb known_title (rows df)) eqn:E4; cbn [negb].
  - unfold dtype_of, getitem.
    rewrite (proj2 (has_column_In df "Price")) by (apply Hreq; simpl; tauto).
    rewrite (proj2 (has_column_In df "Rating")) by (apply Hreq; simpl; tauto).
    rewrite (proj2 (has_column_In df "Colors")) by (apply Hreq; simpl; tauto).
    cbn. split; [|reflexivity]. intros _.
    split; [assumption|]. split; [assumption|]. split; [|assumption].
    intros r Hr. split; [now apply Hcomplete|].
    rewrite forallb_forall in E4. now apply E4.
  - split; [discriminate|]. intros (_ & _ & H3 & _). exfalso.
    assert (E : forallb known_title (rows df) = true).
    { apply forallb_forall. intros r Hr. now apply H3. }
    congruence.
Qed.

(** the validator returns [True] or raises [ValueError], with a message
    that starts in one way *)
Lemma validate_cases (df : option clean_frame) :
  validate_transformed_data set_order df = Ok true \/
  exists m, validate_transformed_data set_order df
            = Raise (ValueError ("Data validation failed: " ++ m)).
Proof.
  unfold validate_transformed_data, try_except.
  match goal with
  | |- match ?body with _ => _ end = _ \/ _ => assert (B : body = Ok true \/ exists e, body = Raise e)
  end.
  { destruct df as [df|]; [|eauto].
    destruct (empty df); [eauto|].
    destruct (filter (fun k => negb (has_column df k)) required_columns); [|eauto].
    cbv zeta. destruct (0 <? total (null_counts df))%Z; [eauto|].
    destruct (existsb (fun b => b) (duplicated df)); [eauto|].
    destruct (title_among "Unknown Product" df) as [[|]|e]; cbn [bind]; [eauto| |eauto].
    destruct (dtype_of df "Price") as [d|e]; cbn [bind]; [|eauto].
    destruct (not_float d); [eauto|].
    destruct (dtype_of df "Rating") as [d'|e]; cbn [bind]; [|eauto].
    destruct (not_float d'); [eauto|].
    destruct (dtype_of df "Colors") as [d''|e]; cbn [bind]; [|eauto].
    destruct (not_int d''); eauto. }
  destruct B as [->|(e & ->)]; [now left | right; eauto].
Qed.
End ValidateFacts.



(** the frame of the rows that are kept is valid unless it has no row *)
Lemma validate_kept (set_order : list string -> list string) (cleaned : list clean_row) :
  validate_transformed_data set_order (Some (mkFrame columns_order (kept cleaned)))
  = match kept cleaned with
    | [] => Raise (ValueError "Data validation failed: DataFrame is empty or None")
    | _ :: _ => Ok true
    end.
Proof.
  destruct (kept cleaned) as [|r0 l] eqn:E; [reflexivity|].
  apply validate_ok. cbn [rows columns].
  split; [discriminate|]. split; [intros k Hk; exact Hk|]. rewrite <- E. split.
  - intros r Hr. apply kept_complete in Hr. tauto.
  - apply first_occurrences_NoDup.
Qed.



(* ================================================================== *)
(** * Prices and counts are not negative *)

Lemma token_price_nonneg (tok : string) : (0 <= token_price tok)%Qc.
Proof.
  unfold token_price, token_value.
  rewrite <- (Qcmult_0_l (Q2Qc (inject_Z 16000))).
  apply Qcmult_le_compat_r; [apply decimal_nonneg|].
  apply Q2Qc_nonneg. lia.
Qed.

Lemma clean_price_nonneg (v : pyval) (q : Qc) :
  clean_price v = Ok (Some q) -> (0 <= q)%Qc.
Proof.
  destruct (text_of v) as [s|] eqn:Hv.
  - destruct (text_of_some _ Hv) as [-> Hs]. rewrite (clean_price_text _ Hs).
    destruct (contains "Unavailable" (strip s) || contains "unavailable" (strip s));
      [discriminate|].
    destruct (first_price_token (strip s)) as [tok|]; [|discriminate].
    destruct (exists_str is_digit tok); [|discriminate].
    intros [= <-]. apply token_price_nonneg.
  - rewrite (clean_price_not_text _ Hv). discriminate.
Qed.

Lemma clean_colors_nonneg (v : pyval) (n : Z) :
  clean_colors v = Ok (Some n) -> (0 <= n)%Z.
Proof.
  destruct (text_of v) as [s|] eqn:Hv.
  - destruct (text_of_some _ Hv) as [-> Hs]. rewrite (clean_colors_text _ Hs).
    destruct (first_digits (strip s)) as [g|]; [|discriminate].
    destruct (int_max_str_digits <? String.length g)%nat; [discriminate|].
    intros [= <-]. apply digits_value_nonneg. lia.
  - unfold clean_colors. rewrite Hv. discriminate.
Qed.



(* ================================================================== *)
(** * The order and the number of the rows *)

Lemma subseq_refl (A : Type) (l : list A) : subseq l l.
Proof. induction l; constructor; assumption. Qed.

Lemma subseq_trans (A : Type) (l1 l2 l3 : list A) :
  subseq l1 l2 -> subseq l2 l3 -> subseq l1 l3.
Proof.
  intros H12 H23. revert l1 H12.
  induction H23 as [|x l2 l3 H IH|x l2 l3 H IH]; intros l1 H12.
  - assumption.
  - apply subseq_skip. now apply IH.
  - inversion H12; subst.
    + apply subseq_skip. now apply IH.
    + apply subseq_keep. now apply IH.
Qed.

Lemma subseq_filter (A : Type) (p : A -> bool) (l : list A) : subseq (filter p l) l.
Proof.
  induction l as [|a l IH]; cbn [filter]; [constructor|].
  destruct (p a); constructor; assumption.
Qed.

Lemma subseq_length (A : Type) (l1 l2 : list A) :
  subseq l1 l2 -> (List.length l1 <= List.length l2)%nat.
Proof. induction 1; cbn [List.length]; lia. Qed.

Lemma subseq_first_occurrences (l : list clean_row) : subseq (first_occurrences l) l.
Proof.
  induction l as [|r l IH]; cbn [first_occurrences]; [constructor|].
  apply subseq_keep. exact (subseq_trans (subseq_filter _ _) IH).
Qed.

Lemma mapM_Forall2 (A B : Type) (f : A -> result B) (l : list A) (out : list B) :
  mapM f l = Ok out -> Forall2 (fun a b => f a = Ok b) l out.
Proof.
  revert out. induction l as [|a l IH]; intros out H; cbn [mapM] in H.
  - injection H as <-. constructor.
  - apply bind_ok_inv in H. destruct H as (b & Hb & H).
    apply bind_ok_inv in H. destruct H as (bs & Hbs & H).
    injection H as <-. constructor; [assumption | now apply IH].
Qed.

Lemma Forall2_map_l (A B C : Type) (h : A -> B) (P : B -> C -> Prop) (l : list A) (l' : list C) :
  Forall2 P (map h l) l' -> Forall2 (fun a c => P (h a) c) l l'.
Proof.
  revert l'. induction l as [|a l IH]; intros l' H; inversion H; subst; constructor;
    [assumption | now apply IH].
Qed.

Lemma Forall2_length_eq (A B : Type) (P : A -> B -> Prop) (l : list A) (l' : list B) :
  Forall2 P l l' -> List.length l = List.length l'.
Proof. induction 1; cbn [List.length]; congruence. Qed.



(* ================================================================== *)
(** * How [transform_data] fails *)

Lemma mapM_raise (A B : Type) (f : A -> result B) (l : list A) (e : exn) :
  mapM f l = Raise e -> exists a, In a l /\ f a = Raise e.
Proof.
  induction l as [|a l IH]; cbn [mapM]; [discriminate|].
  destruct (f a) as [b|e'] eqn:E; cbn [bind].
  - destruct (mapM f l) as [bs|e'']; cbn [bind]; [discriminate|].
    intros [= ->]. destruct (IH eq_refl) as (a' & Ha & Hf). exists a'. split; [now right | assumption].
  - intros [= ->]. exists a. split; [now left | assumption].
Qed.

Lemma has_column_keys (data : list product) (k : string) :
  In k all_keys -> has_column (pd_DataFrame data) k = existsb (has_key k) data.
Proof.
  intros Hk. unfold has_column, pd_DataFrame. cbn [columns].
  destruct (existsb (has_key k) data) eqn:E.
  - apply existsb_exists. exists k. split; [|apply String.eqb_refl].
    apply filter_In. now split.
  - destruct (existsb (String.eqb k) _) eqn:E'; [|reflexivity].
    apply existsb_exists in E'. destruct E' as (x & Hx & Ex). apply String.eqb_eq in Ex.
    subst x. apply filter_In in Hx. destruct Hx as [_ Hx]. congruence.
Qed.

Lemma no_key (data : list product) (k : string) :
  existsb (has_key k) data = false -> forall p, In p data -> has_key k p = false.
Proof.
  intros H p Hp. destruct (has_key k p) eqn:E; [|reflexivity].
  assert (X : existsb (has_key k) data = true) by (apply existsb_exists; eauto).
  congruence.
Qed.

Section ColumnCases.
Context {P R C S G P' R' C' S' G' : Type}.

Lemma apply_column_cases (k : string)
      (upd : row P R C S G -> result (row P' R' C' S' G')) (df : DataFrame P R C S G) :
  (has_column df k = false /\ apply_column k upd df = Raise (KeyError (repr_word k))) \/
  (has_column df k = true /\
   ((exists rs, mapM upd (rows df) = Ok rs /\
                apply_column k upd df = Ok (mkFrame (columns df) rs)) \/
    (exists e, mapM upd (rows df) = Raise e /\ apply_column k upd df = Raise e))).
Proof.
  unfold apply_column, getitem. destruct (has_column df k); cbn [bind]; [right | now left].
  split; [reflexivity|]. destruct (mapM upd (rows df)) as [rs|e]; cbn [bind]; eauto.
Qed.
End ColumnCases.

Lemma clean_price_raises (v : pyval) (e : exn) :
  clean_price v = Raise e -> exists m, e = ValueError m.
Proof.
  unfold clean_price. destruct (text_of v) as [s|]; [|discriminate]. cbv zeta.
  unfold try_except.
  match goal with |- match ?b with _ => _ end = _ -> _ => destruct b end; [discriminate|].
  intros [= <-]. eauto.
Qed.

Lemma clean_colors_raises (v : pyval) (e : exn) :
  clean_colors v = Raise e -> exists m, e = ValueError m.
Proof.
  unfold clean_colors. destruct (text_of v) as [s|]; [|discriminate]. cbv zeta.
  unfold try_except.
  match goal with |- match ?b with _ => _ end = _ -> _ => destruct b end; [discriminate|].
  intros [= <-]. eauto.
Qed.

(** a row without a null cell in the six columns that are cleaned or
    tested *)
Lemma six_cells (cols : list string) (r : clean_row) :
  (forall k, In k ["Title"; "Price"; "Rating"; "Colors"; "Size"; "Gender"] -> In k cols) ->
  forallb (fun k => negb (isnull_at r k)) cols = true ->
  exists t p ra c s g, r = mkRow (Some t) (Some p) (Some ra) (Some c) (Some s) (Some g)
                                 (c_timestamp r).
Proof.
  intros Hk H. rewrite forallb_forall in H.
  assert (N : forall k, In k ["Title"; "Price"; "Rating"; "Colors"; "Size"; "Gender"] ->
                        isnull_at r k = false).
  { intros k Hin. apply negb_true_iff. apply H. now apply Hk. }
  pose proof (N "Title") as N1. pose proof (N "Price") as N2. pose proof (N "Rating") as N3.
  pose proof (N "Colors") as N4. pose proof (N "Size") as N5. pose proof (N "Gender") as N6.
  destruct r as [[t|] [p|] [ra|] [c|] [s|] [g|] ts]; cbn in N1, N2, N3, N4, N5, N6;
    try (discriminate N1; tauto); try (discriminate N2; tauto);
    try (discriminate N3; tauto); try (discriminate N4; tauto);
    try (discriminate N5; tauto); try (discriminate N6; tauto).
  now exists t, p, ra, c, s, g.
Qed.

Lemma upd_Price_raises (r : row pyval pyval pyval pyval pyval) (e : exn) :
  upd_Price clean_price r = Raise e -> clean_price (c_Price r) = Raise e.
Proof.
  unfold upd_Price. destruct (clean_price (c_Price r)); cbn [bind]; intros H;
    [discriminate H | now injection H as ->].
Qed.

Lemma upd_Colors_raises (R' P' : Type) (r : row P' R' pyval pyval pyval) (e : exn) :
  upd_Colors clean_colors r = Raise e -> clean_colors (c_Colors r) = Raise e.
Proof.
  unfold upd_Colors. destruct (clean_colors (c_Colors r)); cbn [bind]; intros H;
    [discriminate H | now injection H as ->].
Qed.

Lemma mapM_upd_Price_colors (P P' R C S G : Type) (f : P -> result P')
      (l : list (row P R C S G)) (out : list (row P' R C S G)) (b : row P' R C S G) :
  mapM (upd_Price f) l = Ok out -> In b out ->
  exists a, In a l /\ c_Colors b = c_Colors a.
Proof.
  intros H Hb. destruct (mapM_In _ _ H _ Hb) as (a & Ha & E). exists a. split; [assumption|].
  unfold upd_Price in E. destruct (f (c_Price a)); [|discriminate]. now injection E as <-.
Qed.

Lemma mapM_upd_Rating_colors (P R R' C S G : Type) (f : R -> result R')
      (l : list (row P R C S G)) (out : list (row P R' C S G)) (b : row P R' C S G) :
  mapM (upd_Rating f) l = Ok out -> In b out ->
  exists a, In a l /\ c_Colors b = c_Colors a.
Proof.
  intros H Hb. destruct (mapM_In _ _ H _ Hb) as (a & Ha & E). exists a. split; [assumption|].
  unfold upd_Rating in E. destruct (f (c_Rating a)); [|discriminate]. now injection E as <-.
Qed.

Lemma mapM_never_raises (A B : Type) (f : A -> result B) (l : list A) (e : exn) :
  (forall a, exists b, f a = Ok b) -> mapM f l = Raise e -> False.
Proof.
  intros Hf H. destruct (mapM_total f l (fun a _ => Hf a)) as (out & E). congruence.
Qed.

Lemma upd_Rating_total (P C S G : Type) (r : row P pyval C S G) :
  exists b, upd_Rating clean_rating r = Ok b.
Proof.
  unfold upd_Rating. destruct (clean_rating_ok (c_Rating r)) as (v & -> & _). cbn. eauto.
Qed.

Lemma upd_Size_total (P R C G : Type) (r : row P R C pyval G) :
  exists b, upd_Size clean_size r = Ok b.
Proof. unfold upd_Size. destruct (clean_size_ok (c_Size r)) as (v & ->). cbn. eauto. Qed.

Lemma upd_Gender_total (P R C S : Type) (r : row P R C S pyval) :
  exists b, upd_Gender clean_gender r = Ok b.
Proof. unfold upd_Gender. destruct (clean_gender_ok (c_Gender r)) as (v & ->). cbn. eauto. Qed.



(* ================================================================== *)
(** * utils/extract.py: the fields of a product *)

Lemma last_where_cons (p : string -> bool) (t : string) (l : list string) (old : option pyval) :
  or_else (as_text (last_where p (t :: l))) old
  = or_else (as_text (last_where p l)) (if p t then Some (PStr t) else old).
Proof.
  cbn [last_where]. destruct (last_where p l) as [u|]; [reflexivity|].
  destruct (p t); reflexivity.
Qed.

Lemma classify_fields (item : product) (t : string) :
  Title (classify item t) = Title item /\
  Price (classify item t) = Price item /\
  timestamp (classify item t) = timestamp item /\
  Rating (classify item t) = (if rating_line t then Some (PStr t) else Rating item) /\
  Colors (classify item t) = (if colors_line t then Some (PStr t) else Colors item) /\
  Size (classify item t) = (if size_line t then Some (PStr t) else Size item) /\
  Gender (classify item t) = (if gender_line t then Some (PStr t) else Gender item).
Proof.
  unfold classify, rating_line, colors_line, size_line, gender_line.
  destruct (contains "Rating:" t); [repeat split|].
  destruct (contains "Colors" t); [repeat split|].
  destruct (contains "Size:" t); [repeat split|].
  destruct (contains "Gender:" t); repeat split.
Qed.

(** the first pass: every field holds the last line that is told by its
    label *)
Lemma fold_classify (l : list string) :
  forall item,
    Title (fold_left classify l item) = Title item /\
    Price (fold_left classify l item) = Price item /\
    timestamp (fold_left classify l item) = timestamp item /\
    Rating (fold_left classify l item)
    = or_else (as_text (last_where rating_line l)) (Rating item) /\
    Colors (fold_left classify l item)
    = or_else (as_text (last_where colors_line l)) (Colors item) /\
    Size (fold_left classify l item)
    = or_else (as_text (last_where size_line l)) (Size item) /\
    Gender (fold_left classify l item)
    = or_else (as_text (last_where gender_line l)) (Gender item).
Proof.
  induction l as [|t l IH]; intros item; [repeat split|].
  cbn [fold_left]. rewrite !last_where_cons.
  destruct (IH (classify item t)) as (H1 & H2 & H3 & H4 & H5 & H6 & H7).
  destruct (classify_fields item t) as (C1 & C2 & C3 & C4 & C5 & C6 & C7).
  rewrite H1, H2, H3, H4, H5, H6, H7, C1, C2, C3, C4, C5, C6, C7. repeat split.
Qed.

Lemma rated_fields (item : product) (t : string) :
  rated item t
  = mkProduct (Title item) (Price item)
              (if rated_line t then Some (PStr t) else Rating item)
              (Colors item) (Size item) (Gender item) (timestamp item).
Proof. unfold rated, rated_line. destruct item. destruct (_ || _); reflexivity. Qed.

(** the second pass: only the rating changes *)
Lemma fold_rated (l : list string) :
  forall item,
    fold_left rated l item
    = mkProduct (Title item) (Price item)
                (or_else (as_text (last_where rated_line l)) (Rating item))
                (Colors item) (Size item) (Gender item) (timestamp item).
Proof.
  induction l as [|t l IH]; intros item; [now destruct item|].
  cbn [fold_left]. rewrite last_where_cons, IH, rated_fields. reflexivity.
Qed.

Lemma product_eta (item : product) :
  item = mkProduct (Title item) (Price item) (Rating item) (Colors item) (Size item)
                   (Gender item) (timestamp item).
Proof. now destruct item. Qed.

Lemma parse_product_keys (card : node) (item : product) :
  parse_product card = Ok item ->
  is_some (Title item) = true /\ is_some (Price item) = true /\ timestamp item = None.
Proof.
  unfold parse_product. destruct (find "h3" "product-title" card) as [title_elem|];
    [|discriminate].
  cbv zeta. cbn [try_except]. intros [= <-].
  match goal with
  | |- context [fold_left classify ?l ?i] =>
      destruct (fold_classify l i) as (H1 & H2 & H3 & _)
  end.
  cbn [Title Price timestamp] in H1, H2, H3.
  destruct (is_some (Rating _)).
  - rewrite H1, H2, H3. repeat split.
  - rewrite fold_rated. cbn [Title Price timestamp]. rewrite H1, H2, H3. repeat split.
Qed.

(** X12: [parse_product] fails exactly on a card without a title element;
    otherwise the product has the title and the price of the card (the
    price is [None] when the card has no price element) and no timestamp,
    and each of the four other fields holds the last detail line that is
    told by its label, a line being given to the first of the labels
    "Rating:", "Colors", "Size:", "Gender:" that it contains; when no line
    holds "Rating:", the rating is the last line that speaks of a rating in
    another way.  A field without a line is not a key of the product. *)
Theorem parse_product_fields (card : node) :
  parse_product card
  = match find "h3" "product-title" card with
    | Some title_elem =>
        Ok (mkProduct (Some (get_text title_elem)) (Some (price_of card))
              (or_else (as_text (last_where rating_line (details_of card)))
                       (as_text (last_where rated_line (details_of card))))
              (as_text (last_where colors_line (details_of card)))
              (as_text (last_where size_line (details_of card)))
              (as_text (last_where gender_line (details_of card)))
              None)
    | None => Raise (ValueError "Error parsing product card: Could not find product title")
    end.
Proof.
  unfold parse_product. destruct (find "h3" "product-title" card) as [title_elem|];
    [|reflexivity].
  cbv zeta. cbn [try_except]. f_equal.
  fold (price_of card). fold (details_of card).
  set (item0 := mkProduct (Some (get_text title_elem)) (Some (price_of card))
                          None None None None None).
  destruct (fold_classify (details_of card) item0) as (H1 & H2 & H3 & H4 & H5 & H6 & H7).
  cbn [item0 Title Price Rating Colors Size Gender timestamp] in *.
  destruct (last_where rating_line (details_of card)) as [u|] eqn:E.
  - cbn [as_text or_else] in H4. rewrite H4. cbn [is_some as_text or_else].
    rewrite (product_eta (fold_left classify (details_of card) item0)).
    rewrite H1, H2, H3, H4, H5, H6, H7. destruct (last_where colors_line _),
      (last_where size_line _), (last_where gender_line _); reflexivity.
  - cbn [as_text or_else] in H4. rewrite H4. cbn [is_some as_text or_else].
    rewrite fold_rated, H1, H2, H3, H4, H5, H6, H7.
    destruct (last_where rated_line _), (last_where colors_line _),
      (last_where size_line _), (last_where gender_line _); reflexivity.
Qed.

(* ================================================================== *)
(** * utils/extract.py: the products of a page *)

Lemma parse_cards_titled (cards : list node) : parse_cards cards = Ok (titled_products cards).
Proof.
  unfold titled_products.
  induction cards as [|card cards IH]; [reflexivity|].
  cbn [parse_cards flat_map].
  destruct (parse_product_cases card) as [(item & -> & _) | (-> & _)].
  - rewrite IH. reflexivity.
  - exact IH.
Qed.

Lemma titled_products_length (cards : list node) :
  List.length (titled_products cards)
  = List.length (filter (fun card => is_some (find "h3" "product-title" card)) cards).
Proof.
  unfold titled_products.
  induction cards as [|card cards IH]; [reflexivity|].
  cbn [flat_map filter].
  destruct (parse_product_cases card) as [(item & -> & N) | (-> & N)].
  - destruct (find "h3" "product-title" card); [|contradiction].
    cbn [is_some app List.length]. now rewrite IH.
  - rewrite N. cbn [is_some app]. exact IH.
Qed.

Lemma titled_products_keys (cards : list node) (item : product) :
  In item (titled_products cards) ->
  is_some (Title item) = true /\ is_some (Price item) = true /\ timestamp item = None.
Proof.
  unfold titled_products. intros H. apply in_flat_map in H. destruct H as (card & _ & H).
  destruct (parse_product card) as [item'|e] eqn:E; [|destruct H].
  destruct H as [<-|[]]. exact (parse_product_keys _ E).
Qed.

Section PageFacts.
Variable html_parser : string -> node.

(** X13: [parse_page] fails on a content that is absent or empty and on a
    page without a card; on a page with cards it returns one product for
    every card that has a title, in the order of the cards: a card without a
    title is passed over and never makes the page fail. *)
Theorem parse_page_titled_cards (html_content : pyval) :
  parse_page html_parser html_content
  = match text_of html_content with
    | None => Raise (ValueError "Error parsing page: Invalid HTML content provided")
    | Some html =>
        match find_all "div" "collection-card" (html_parser html) with
        | [] => Raise (ValueError "Error parsing page: No product cards found on the page")
        | cards => Ok (titled_products cards)
        end
    end /\
  (forall cards,
      List.length (titled_products cards)
      = List.length (filter (fun card => is_some (find "h3" "product-title" card)) cards)) /\
  (forall cards,
      subseq (map Ok (titled_products cards)) (map parse_product cards)).
Proof.
  split.
  { unfold parse_page. destruct (text_of html_content) as [html|]; [|reflexivity].
    cbv zeta. destruct (find_all "div" "collection-card" (html_parser html)) as [|c cs];
      [reflexivity|].
    now rewrite parse_cards_titled. }
  split; [exact titled_products_length|].
  intros cards. unfold titled_products.
  induction cards as [|card cards IH]; [constructor|].
  cbn [flat_map map]. destruct (parse_product card) as [item|e]; cbn [app map].
  - now apply subseq_keep.
  - now apply subseq_skip.
Qed.

Lemma parse_page_keys (html_content : pyval) (products : list product) (item : product) :
  parse_page html_parser html_content = Ok products -> In item products ->
  is_some (Title item) = true /\ is_some (Price item) = true /\ timestamp item = None.
Proof.
  unfold parse_page. destruct (text_of html_content) as [html|]; [|discriminate].
  cbv zeta. destruct (find_all "div" "collection-card" (html_parser html)) as [|c cs];
    [discriminate|].
  rewrite parse_cards_titled. intros [= <-] H. exact (titled_products_keys (c :: cs) _ H).
Qed.
End PageFacts.

(* ================================================================== *)
(** * utils/extract.py: a run over the pages *)

Lemma range_In (start stop n : Z) : In n (range start stop) -> (start <= n < stop)%Z.
Proof.
  unfold range. intros H. apply in_map_iff in H. destruct H as (i & <- & Hi).
  apply in_seq in Hi. lia.
Qed.

Lemma range_snoc (start stop : Z) :
  (start <= stop)%Z -> range start (stop + 1) = (range start stop ++ [stop])%list.
Proof.
  intros H. unfold range.
  replace (Z.to_nat (stop + 1 - start)) with (S (Z.to_nat (stop - start))) by lia.
  rewrite seq_S, map_app. cbn [map]. do 2 f_equal. lia.
Qed.

Lemma page_events_requests (end_page : Z) (pages : list Z) (events : list event) :
  page_events end_page pages events -> requests events = map page_url pages.
Proof.
  unfold requests. induction 1; cbn [flat_map map app]; [reflexivity | |]; now f_equal.
Qed.

Lemma page_events_sleeps (end_page : Z) (pages : list Z) (events : list event) :
  page_events end_page pages events ->
  (List.length (filter is_sleep events)
   <= List.length (filter (fun n => (n <? end_page)%Z) pages))%nat.
Proof.
  induction 1 as [|n pages events H IH|n pages events Hn H IH]; cbn [filter is_sleep].
  - apply Nat.le_refl.
  - destruct (n <? end_page)%Z; cbn [List.length]; lia.
  - apply Z.ltb_lt in Hn. rewrite Hn. cbn [List.length]. lia.
Qed.

Lemma page_events_last (end_page : Z) (pages : list Z) :
  forall events,
    page_events end_page (pages ++ [end_page]) events ->
    last events EvSleep = EvGet (page_url end_page).
Proof.
  induction pages as [|n pages IH]; intros events H; cbn [app] in H.
  - inversion H as [|? ? ? H'|? ? ? Hn H']; subst.
    + inversion H'; subst. reflexivity.
    + lia.
  - assert (L : forall x events', page_events end_page (pages ++ [end_page]) events' ->
                                  last (x :: events') EvSleep = EvGet (page_url end_page)).
    { intros x events' H'. specialize (IH _ H').
      destruct events' as [|y l]; [discriminate IH | exact IH]. }
    inversion H as [|? ? ? H'|? ? ? Hn H']; subst.
    + now apply L.
    + change (last (EvGet (page_url n) :: EvSleep :: events0) EvSleep)
        with (last (EvSleep :: events0) EvSleep).
      now apply L.
Qed.

Lemma page_events_append (end_page : Z) (ps1 ps2 : list Z) (ev1 ev2 : list event) :
  page_events end_page ps1 ev1 -> page_events end_page ps2 ev2 ->
  page_events end_page (ps1 ++ ps2) (ev1 ++ ev2).
Proof.
  induction 1; intros H2; cbn [app];
    [assumption | apply pe_request; auto | apply pe_delay; auto].
Qed.

Section ScrapeFacts.
Variable html_parser : string -> node.
Variable clock : world -> string.
Variable network : world -> string -> reply.

Lemma fetch_page_request (page_number : Z) (w : world) :
  (1 <= page_number <= 50)%Z ->
  fetch_page network page_number w
  = (match network w (page_url page_number) with
     | Body text => Ok text
     | Failed msg =>
         Raise (RequestException ("Failed to fetch page " ++ str_int page_number
                                  ++ ": " ++ msg))
     end, (w ++ [EvGet (page_url page_number)])%list).
Proof.
  intros [H1 H2]. unfold fetch_page, io_try, session_get, page_url.
  apply Z.ltb_ge in H1. apply Z.ltb_ge in H2. rewrite H1, H2. cbn [orb].
  destruct (network w _); reflexivity.
Qed.

Lemma scrape_page_run (page_num end_page : Z) (ts : string)
      (acc : list product) (w : world) :
  (1 <= page_num <= 50)%Z ->
  exists acc' events,
    scrape_page html_parser network page_num end_page ts acc w
    = (Ok acc', (w ++ events)%list) /\
    page_events end_page [page_num] events /\
    forall p, In p acc' -> In p acc \/ extracted ts p.
Proof.
  intros Hn. unfold scrape_page, io_try, io_bind. rewrite (@fetch_page_request page_num w Hn).
  assert (Q : page_events end_page [page_num] [EvGet (page_url page_num)])
    by (do 2 constructor).
  destruct (network w (page_url page_num)) as [html|msg].
  - unfold io_lift. destruct (parse_page html_parser (PStr html)) as [products|e] eqn:E.
    + assert (A : forall p, In p (acc ++ map (stamp ts) products)%list ->
                            In p acc \/ extracted ts p).
      { intros p Hp. apply in_app_or in Hp. destruct Hp as [Hp|Hp]; [now left|].
        right. apply in_map_iff in Hp. destruct Hp as (p0 & <- & Hp0).
        destruct (@parse_page_keys _ _ _ _ E Hp0) as (K1 & K2 & _).
        repeat split; assumption. }
      destruct (page_num <? end_page)%Z eqn:El.
      * unfold sleep, io_ret. eexists. exists [EvGet (page_url page_num); EvSleep].
        rewrite <- app_assoc. split; [reflexivity|]. split; [|exact A].
        apply pe_delay; [now apply Z.ltb_lt | constructor].
      * unfold io_ret. eexists. exists [EvGet (page_url page_num)].
        split; [reflexivity|]. split; [exact Q | exact A].
    + unfold io_ret. exists acc. eexists. split; [reflexivity|]. split; [exact Q | auto].
  - unfold io_ret. exists acc. eexists. split; [reflexivity|]. split; [exact Q | auto].
Qed.

Lemma scrape_pages_run (pages : list Z) (end_page : Z) (ts : string) :
  forall (acc : list product) (w : world),
    (forall n, In n pages -> (1 <= n <= 50)%Z) ->
    exists products events,
      scrape_pages html_parser network pages end_page ts acc w
      = (Ok products, (w ++ events)%list) /\
      page_events end_page pages events /\
      forall p, In p products -> In p acc \/ extracted ts p.
Proof.
  induction pages as [|page pages IH]; intros acc w Hp; cbn [scrape_pages].
  - exists acc, []. rewrite app_nil_r. split; [reflexivity|]. split; [constructor | auto].
  - unfold io_bind.
    destruct (@scrape_page_run page end_page ts acc w) as (acc1 & ev1 & -> & Q1 & A1);
      [apply Hp; now left|].
    destruct (IH acc1 (w ++ ev1)%list) as (products & ev2 & -> & Q2 & A2);
      [intros n Hn; apply Hp; now right|].
    exists products, (ev1 ++ ev2)%list. rewrite app_assoc.
    split; [reflexivity|]. split.
    + exact (@page_events_append _ _ _ _ _ Q1 Q2).
    + intros p Hin. destruct (A2 p Hin) as [Hin'|Hin']; [apply A1, Hin' | now right].
Qed.

(** a run with a valid range returns, whatever the network answers *)
Lemma scrape_all_pages_run (start_page end_page : Z) (w : world) :
  (1 <= start_page <= end_page)%Z -> (end_page <= 50)%Z ->
  exists products events,
    scrape_all_pages html_parser clock network start_page end_page w
    = (Ok products, (w ++ EvNow (clock w) :: events)%list) /\
    page_events end_page (range start_page (end_page + 1)) events /\
    forall p, In p products -> extracted (clock w) p.
Proof.
  intros [H1 H2] H3. unfold scrape_all_pages, io_try.
  assert (E : (start_page <? 1)%Z || (50 <? end_page)%Z || (end_page <? start_page)%Z = false).
  { rewrite !orb_false_iff, !Z.ltb_ge. lia. }
  rewrite E. unfold io_bind, now.
  destruct (@scrape_pages_run (range start_page (end_page + 1)) end_page (clock w) []
                             (w ++ [EvNow (clock w)])%list)
    as (products & events & -> & Q & A).
  { intros n Hn. apply range_In in Hn. lia. }
  exists products, events. rewrite <- app_assoc. split; [reflexivity|].
  split; [exact Q|]. intros p Hp. destruct (A p Hp) as [[]|Hx]. exact Hx.
Qed.

(** X14: with a valid range [scrape_all_pages] returns, whatever the
    network answers: a page that fails is passed over.  After it has read
    the clock it sends one request for every page of the range, in
    ascending order, each followed by at most one delay; the last event of
    the run is the request for the last page, so that no delay follows it,
    and there are fewer delays than pages. *)
Theorem scrape_all_pages_requests (start_page end_page : Z) (w : world) :
  (1 <= start_page <= end_page)%Z -> (end_page <= 50)%Z ->
  exists products events,
    scrape_all_pages html_parser clock network start_page end_page w
    = (Ok products, (w ++ EvNow (clock w) :: events)%list) /\
    page_events end_page (range start_page (end_page + 1)) events /\
    requests events = map page_url (range start_page (end_page + 1)) /\
    last events EvSleep = EvGet (page_url end_page) /\
    (List.length (filter is_sleep events)
     < List.length (range start_page (end_page + 1)))%nat.
Proof.
  intros H1 H2.
  destruct (@scrape_all_pages_run start_page end_page w H1 H2) as (products & events & E & Q & _).
  exists products, events. split; [exact E|]. split; [exact Q|].
  split; [exact (@page_events_requests _ _ _ Q)|].
  assert (R : range start_page (end_page + 1) = (range start_page end_page ++ [end_page])%list)
    by (apply range_snoc; lia).
  split.
  - rewrite R in Q. exact (@page_events_last _ _ _ Q).
  - pose proof (@page_events_sleeps _ _ _ Q) as S. rewrite R in S |- *.
    rewrite filter_app in S. cbn [filter] in S. rewrite Z.ltb_irrefl in S.
    rewrite length_app in S |- *. cbn [List.length] in S |- *.
    pose proof (filter_length_le (fun n => (n <? end_page)%Z) (range start_page end_page)).
    lia.
Qed.

(** with a range that is not valid [extract_data] fails before anything
    happens *)
Lemma extract_data_invalid (start_page end_page : Z) (w : world) :
  (start_page <? 1)%Z || (50 <? end_page)%Z || (end_page <? start_page)%Z = true ->
  extract_data html_parser clock network start_page end_page w
  = (Raise (Exception ("Extraction failed: Error during scraping: Invalid page range: "
                       ++ str_int start_page ++ " to " ++ str_int end_page)), w).
Proof.
  intros E. unfold extract_data, io_try, io_bind, scrape_all_pages, io_try. now rewrite E.
Qed.

(** with a valid range it returns what [scrape_all_pages] returns *)
Lemma extract_data_valid (start_page end_page : Z) (w : world) :
  (start_page <? 1)%Z || (50 <? end_page)%Z || (end_page <? start_page)%Z = false ->
  exists products w',
    extract_data html_parser clock network start_page end_page w = (Ok products, w') /\
    scrape_all_pages html_parser clock network start_page end_page w = (Ok products, w') /\
    forall p, In p products -> extracted (clock w) p.
Proof.
  intros E. rewrite !orb_false_iff, !Z.ltb_ge in E.
  destruct (@scrape_all_pages_run start_page end_page w) as (products & events & R & _ & A);
    [lia | lia |].
  exists products. eexists. unfold extract_data, io_try, io_bind. rewrite R.
  cbn [close io_try io_ret]. split; [reflexivity|]. split; [reflexivity | exact A].
Qed.

(** X15: [extract_data] fails exactly when the range is not valid, before
    anything happens and with a plain [Exception] whose message quotes the
    range; with a valid range it returns what [scrape_all_pages] returns,
    whatever the network answers, and every product has a title, the key of
    the price and the timestamp that the clock showed at the start. *)
Theorem extract_data_outcome (start_page end_page : Z) (w : world) :
  match extract_data html_parser clock network start_page end_page w with
  | (Ok products, w') =>
      (1 <= start_page <= end_page)%Z /\ (end_page <= 50)%Z /\
      scrape_all_pages html_parser clock network start_page end_page w = (Ok products, w') /\
      forall p, In p products ->
                is_some (Title p) = true /\ is_some (Price p) = true /\
                timestamp p = Some (clock w)
  | (Raise e, w') =>
      w' = w /\
      ((start_page < 1)%Z \/ (50 < end_page)%Z \/ (end_page < start_page)%Z) /\
      e = Exception ("Extraction failed: Error during scraping: Invalid page range: "
                     ++ str_int start_page ++ " to " ++ str_int end_page)
  end.
Proof.
  destruct ((start_page <? 1)%Z || (50 <? end_page)%Z || (end_page <? start_page)%Z) eqn:E.
  - rewrite (extract_data_invalid _ _ w E). split; [reflexivity|]. split; [|reflexivity].
    rewrite !orb_true_iff, !Z.ltb_lt in E. tauto.
  - destruct (extract_data_valid _ _ w E) as (products & w' & -> & R & A).
    rewrite !orb_false_iff, !Z.ltb_ge in E.
    split; [lia|]. split; [lia|]. split; [exact R | exact A].
Qed.

(** ** A site that answers a request in the same way whenever it is sent *)

Section StableSite.
Variable site : string -> reply.
Hypothesis network_stable : forall w url, network w url = site url.

Lemma scrape_page_stable (page_num end_page : Z) (ts : string)
      (acc : list product) (w : world) :
  (1 <= page_num <= 50)%Z ->
  scrape_page html_parser network page_num end_page ts acc w
  = (Ok (acc ++ page_products html_parser site ts page_num)%list,
     (w ++ page_trace html_parser site end_page page_num)%list).
Proof.
  intros Hn. unfold scrape_page, io_try, io_bind, page_products, page_trace, page_read.
  rewrite (@fetch_page_request page_num w Hn), network_stable.
  destruct (site (page_url page_num)) as [html|msg].
  - unfold io_lift. destruct (parse_page html_parser (PStr html)) as [products|e].
    + cbn [andb]. destruct (page_num <? end_page)%Z.
      * unfold sleep, io_ret. now rewrite <- app_assoc.
      * reflexivity.
    + cbn. now rewrite app_nil_r.
  - cbn. now rewrite app_nil_r.
Qed.

Lemma scrape_pages_stable (pages : list Z) (end_page : Z) (ts : string) :
  forall (acc : list product) (w : world),
    (forall n, In n pages -> (1 <= n <= 50)%Z) ->
    scrape_pages html_parser network pages end_page ts acc w
    = (Ok (acc ++ flat_map (page_products html_parser site ts) pages)%list,
       (w ++ flat_map (page_trace html_parser site end_page) pages)%list).
Proof.
  induction pages as [|page pages IH]; intros acc w Hp; cbn [scrape_pages flat_map].
  - unfold io_ret. now rewrite !app_nil_r.
  - unfold io_bind. rewrite (@scrape_page_stable page end_page ts acc w)
      by (apply Hp; now left).
    rewrite IH by (intros n Hn; apply Hp; now right).
    now rewrite !app_assoc.
Qed.
End StableSite.

(** X16: on a site that answers a request in the same way whenever it is
    sent, a run with a valid range returns the products of the pages of the
    range in ascending order of the pages, each with the timestamp of the
    start; a page whose request or whose parsing fails gives no product and
    takes none away from the others.  The events of the run are the reading
    of the clock and then, for every page, its request, followed by a delay
    exactly when the page was read and is not the last one. *)
Theorem scrape_all_pages_stable_site (site : string -> reply)
        (start_page end_page : Z) (w : world) :
  (forall w' url, network w' url = site url) ->
  (1 <= start_page <= end_page)%Z -> (end_page <= 50)%Z ->
  scrape_all_pages html_parser clock network start_page end_page w
  = (Ok (flat_map (page_products html_parser site (clock w))
                  (range start_page (end_page + 1))),
     (w ++ EvNow (clock w)
        :: flat_map (page_trace html_parser site end_page)
                    (range start_page (end_page + 1)))%list).
Proof.
  intros Hs [H1 H2] H3. unfold scrape_all_pages, io_try.
  assert (E : (start_page <? 1)%Z || (50 <? end_page)%Z || (end_page <? start_page)%Z = false).
  { rewrite !orb_false_iff, !Z.ltb_ge. lia. }
  rewrite E. unfold io_bind, now.
  rewrite (@scrape_pages_stable site Hs (range start_page (end_page + 1)) end_page
             (clock w) [] (w ++ [EvNow (clock w)])%list)
    by (intros n Hn; apply range_In in Hn; lia).
  now rewrite <- app_assoc.
Qed.
End ScrapeFacts.

Lemma scrape_all_pages_requests_witness :
  exists products events,
    scrape_all_pages sample_parser ticking_clock flaky_network 1 3 []
    = (Ok products, EvNow "0" :: events) /\
    requests events
    = ["https://fashion-studio.dicoding.dev/";
       "https://fashion-studio.dicoding.dev/page2";
       "https://fashion-studio.dicoding.dev/page3"] /\
    last events EvSleep = EvGet "https://fashion-studio.dicoding.dev/page3".
Proof.
  destruct (@scrape_all_pages_requests sample_parser ticking_clock flaky_network 1 3 [])
    as (products & events & E & _ & R & L & _); [lia | lia |].
  exists products, events. split; [exact E|]. split; [exact R | exact L].
Defined.

Lemma scrape_all_pages_stable_site_witness :
  scrape_all_pages sample_parser ticking_clock (fun _ => sample_site) 2 3 []
  = (Ok (flat_map (page_products sample_parser sample_site "0") [2%Z; 3%Z]),
     [EvNow "0"; EvGet "https://fashion-studio.dicoding.dev/page2"; EvSleep;
      EvGet "https://fashion-studio.dicoding.dev/page3"]).
Proof.
  apply (@scrape_all_pages_stable_site sample_parser ticking_clock (fun _ => sample_site)
           sample_site 2 3 []); [reflexivity | lia | lia].
Defined.

(* ================================================================== *)
(** * utils/load.py *)

Section LoadFacts.
Variable path_of : string -> string.
Variable to_csv : clean_frame -> string -> outcome unit.
Variable path_exists : string -> bool.
Variable sheets_api : string -> string -> string -> list (list pyval) -> outcome unit.
Variable to_sql : string -> string -> clean_frame -> outcome unit.

Lemma load_to_csv_success (df : clean_frame) (filename path : string) :
  empty df = false ->
  (load_to_csv path_of to_csv (Some df) filename = Returns path <->
   path = path_of filename /\ endswith ".csv" filename = true /\
   to_csv df (path_of filename) = Returns tt).
Proof.
  intros He. unfold load_to_csv, load_try. rewrite He.
  destruct (endswith ".csv" filename); cbn [negb].
  - destruct (to_csv df (path_of filename)) as [[]|e].
    + split; [intros [= <-]; repeat split | intros (-> & _); reflexivity].
    + split; [discriminate | intros (_ & _ & H); discriminate].
  - split; [discriminate | intros (_ & H & _); discriminate].
Qed.

Lemma load_to_google_sheets_success (df : clean_frame) (spreadsheet_id : option string)
      (sheet_name credentials_file : string) :
  empty df = false ->
  (load_to_google_sheets path_of path_exists sheets_api (Some df) spreadsheet_id sheet_name
                         credentials_file = Returns true <->
   exists id,
     spreadsheet_id = Some id /\ nonempty id = true /\
     path_exists (path_of credentials_file) = true /\
     sheets_api (path_of credentials_file) id sheet_name (values df) = Returns tt).
Proof.
  intros He. unfold load_to_google_sheets, load_try. rewrite He.
  destruct spreadsheet_id as [id|].
  2:{ split; [discriminate | intros (id & H & _); discriminate]. }
  destruct (nonempty id) eqn:Hid; cbn [negb].
  2:{ split; [discriminate | intros (id' & [= <-] & H & _); congruence]. }
  destruct (path_exists (path_of credentials_file)) eqn:Hp; cbn [negb].
  2:{ split; [discriminate | intros (id' & _ & _ & H & _); discriminate]. }
  destruct (sheets_api (path_of credentials_file) id sheet_name (values df)) as [[]|e] eqn:Hs.
  - split; [intros _; exists id; repeat split; assumption | reflexivity].
  - split; [destruct e; discriminate|].
    intros (id' & [= <-] & _ & _ & H). rewrite Hs in H. discriminate.
Qed.

Lemma load_to_postgresql_success (df : clean_frame) (table_name url : string)
      (host : string) (port : Z) (database username password : string) :
  empty df = false -> nonempty url = true ->
  (load_to_postgresql to_sql (Some df) table_name (Some url) host port database username
                      password = Returns true <->
   nonempty table_name = true /\ to_sql url table_name df = Returns tt).
Proof.
  intros He Hu. unfold load_to_postgresql, load_try. rewrite He, Hu.
  destruct (nonempty table_name); cbn [negb].
  - destruct (to_sql url table_name df) as [[]|e].
    + split; [intros _; split; reflexivity | reflexivity].
    + split; [destruct e; discriminate | intros (_ & H); discriminate].
  - split; [discriminate | intros (H & _); discriminate].
Qed.

Lemma reported_success (A B : Type) (call : outcome A) (entry b : B) :
  reported call entry = Success b <-> b = entry /\ exists a, call = Returns a.
Proof.
  unfold reported. destruct call as [a|e].
  - split; [intros [= <-]; eauto | intros (-> & _); reflexivity].
  - split; [discriminate | intros (_ & a & H); discriminate].
Qed.

(** [load_data] returns on every frame that is not empty *)
Lemma load_data_returns (df : clean_frame) (csv_filename : string)
      (google_sheets_id : option string) (google_sheets_name google_credentials : string)
      (postgresql_url : option string) (postgresql_table : string) :
  empty df = false ->
  exists d,
    load_data path_of to_csv path_exists sheets_api to_sql (Some df) csv_filename
              google_sheets_id google_sheets_name google_credentials postgresql_url
              postgresql_table = Returns d.
Proof. intros He. unfold load_data, load_try. rewrite He. eauto. Qed.

(** X17: on a frame that is not empty [load_data] returns, whatever the
    destinations answer: a destination that fails is reported and the others
    are still tried.  The report always has the entry of the file; it has
    the entry of the spreadsheet exactly when an identifier is given, and
    the entry of the database exactly when an address is given.  The file
    is reported saved exactly when its name ends in ".csv" and the file
    system takes it, the spreadsheet when the credentials file exists and
    the service takes the values, the table when its name is not empty and
    the database, reached at the given address, takes the frame.  On an
    absent or empty frame [load_data] raises [ValueError]. *)
Theorem load_data_reports (csv_filename : string)
        (google_sheets_id : option string) (google_sheets_name google_credentials : string)
        (postgresql_url : option string) (postgresql_table : string) :
  (forall df,
      empty df = false ->
      exists d,
        load_data path_of to_csv path_exists sheets_api to_sql (Some df) csv_filename
                  google_sheets_id google_sheets_name google_credentials postgresql_url
                  postgresql_table = Returns d /\
        (forall path,
            csv d = Success path <->
            path = path_of csv_filename /\ endswith ".csv" csv_filename = true /\
            to_csv df (path_of csv_filename) = Returns tt) /\
        is_some (google_sheets d) = given google_sheets_id /\
        (forall id,
            google_sheets d = Some (Success id) <->
            google_sheets_id = Some id /\ nonempty id = true /\
            path_exists (path_of google_credentials) = true /\
            sheets_api (path_of google_credentials) id google_sheets_name (values df)
            = Returns tt) /\
        is_some (postgresql d) = given postgresql_url /\
        (forall table,
            postgresql d = Some (Success table) <->
            table = postgresql_table /\ nonempty table = true /\
            exists url, postgresql_url = Some url /\ nonempty url = true /\
                        to_sql url table df = Returns tt)) /\
  (forall df,
      empty df = true ->
      load_data path_of to_csv path_exists sheets_api to_sql (Some df) csv_filename
                google_sheets_id google_sheets_name google_credentials postgresql_url
                postgresql_table
      = Raises (LValueError "Load failed: DataFrame is empty or None")) /\
  load_data path_of to_csv path_exists sheets_api to_sql None csv_filename
            google_sheets_id google_sheets_name google_credentials postgresql_url
            postgresql_table
  = Raises (LValueError "Load failed: DataFrame is empty or None").
Proof.
  split; [|split; [intros df He; unfold load_data, load_try; now rewrite He | reflexivity]].
  intros df He. unfold load_data, load_try. rewrite He. eexists. split; [reflexivity|].
  cbn [csv google_sheets postgresql]. split; [|split; [|split; [|split]]].
  - intros path.
    rewrite <- (@load_to_csv_success df csv_filename path He).
    destruct (load_to_csv path_of to_csv (Some df) csv_filename) as [p|e].
    + split; intros [= <-]; reflexivity.
    + split; discriminate.
  - destruct google_sheets_id as [id|]; [|reflexivity].
    cbn [given]. destruct (nonempty id); reflexivity.
  - intros id. destruct google_sheets_id as [id0|].
    2:{ split; [discriminate | intros ([=] & _)]. }
    destruct (nonempty id0) eqn:Hid.
    2:{ split; [discriminate | intros ([= <-] & H & _); congruence]. }
    split.
    + intros [= H]. apply reported_success in H. destruct H as (-> & b & H).
      assert (Hb : b = true).
      { unfold load_to_google_sheets, load_try in H. rewrite He, Hid in H. cbn [negb] in H.
        destruct (path_exists _); cbn [negb] in H; [|discriminate].
        destruct (sheets_api _ _ _ _); [injection H as <-; reflexivity | discriminate]. }
      subst b. apply (@load_to_google_sheets_success df _ _ _ He) in H.
      destruct H as (id' & [= <-] & H). split; [reflexivity | exact H].
    + intros ([= <-] & H1 & H2 & H3). do 2 f_equal.
      apply reported_success. split; [reflexivity|]. exists true.
      apply (@load_to_google_sheets_success df _ _ _ He). exists id0. repeat split; assumption.
  - destruct (given postgresql_url); reflexivity.
  - intros table. destruct postgresql_url as [url|]; cbn [given].
    2:{ split; [discriminate | intros (_ & _ & url & [=] & _)]. }
    destruct (nonempty url) eqn:Hu.
    2:{ split; [discriminate | intros (_ & _ & url' & [= <-] & H & _); congruence]. }
    split.
    + intros [= H]. apply reported_success in H. destruct H as (-> & b & H).
      assert (Hb : b = true).
      { unfold load_to_postgresql, load_try in H. rewrite He in H.
        destruct (nonempty postgresql_table); cbn [negb] in H; [|discriminate].
        destruct (to_sql _ _ _); [injection H as <-; reflexivity | destruct e; discriminate]. }
      subst b. apply (@load_to_postgresql_success df _ url _ _ _ _ _ He Hu) in H.
      destruct H as [H1 H2]. split; [reflexivity|]. split; [assumption|].
      exists url. repeat split; assumption.
    + intros (-> & H1 & url' & [= <-] & _ & H2). do 2 f_equal.
      apply reported_success. split; [reflexivity|]. exists true.
      apply (@load_to_postgresql_success df _ url _ _ _ _ _ He Hu). split; assumption.
Qed.
End LoadFacts.

Lemma load_data_reports_witness :
  load_data sample_path_of disk_ok no_file sheets_down db_ok
            (Some sample_frame)
            "products.csv" (Some "sheet-1") "Sheet1" "google-sheets-api.json"
            (Some "postgresql://db/shop") "products"
  = Returns (mkDestinations
               (Success "/srv/etl/products.csv")
               (Some (Failure "Credentials file not found: /srv/etl/google-sheets-api.json"))
               (Some (Success "products"))).
Proof.
  destruct (proj1 (@load_data_reports sample_path_of disk_ok no_file sheets_down db_ok
                     "products.csv" (Some "sheet-1") "Sheet1" "google-sheets-api.json"
                     (Some "postgresql://db/shop") "products")
                  sample_frame
                  eq_refl) as (d & E & _).
  transitivity (Returns d); [exact E|]. vm_compute in E. injection E as <-. reflexivity.
Defined.

(* ================================================================== *)
(** * main.py *)

Lemma transform_data_frame (data : list product) (df : clean_frame) :
  transform_data data = Ok df ->
  columns df = columns_order /\ (List.length (rows df) <= List.length data)%nat /\
  (rows df <> [] -> empty df = false).
Proof.
  intros H. apply transform_data_inv in H. destruct H as (_ & _ & cleaned & Hc & ->).
  cbn [rows columns]. split; [reflexivity|]. split.
  - apply mapM_Forall2, Forall2_length_eq in Hc. unfold pd_DataFrame in Hc.
    cbn [rows] in Hc. rewrite length_map in Hc. rewrite Hc. apply subseq_length.
    unfold kept. apply (subseq_trans (subseq_first_occurrences _)).
    apply (subseq_trans (subseq_filter _ _)). apply subseq_filter.
  - intros Hr. unfold empty. cbn [rows columns]. destruct (kept cleaned); [contradiction|].
    reflexivity.
Qed.

Section MainFacts.
Variable html_parser : string -> node.
Variable clock : world -> string.
Variable network : world -> string -> reply.
Variable set_order : list string -> list string.
Variable path_of : string -> string.
Variable to_csv : clean_frame -> string -> outcome unit.
Variable path_exists : string -> bool.
Variable sheets_api : string -> string -> string -> list (list pyval) -> outcome unit.
Variable to_sql : string -> string -> clean_frame -> outcome unit.

Variables start_page end_page : Z.
Variable csv_filename : string.
Variable google_sheets_id : option string.
Variables google_sheets_name google_credentials : string.
Variable postgresql_url : option string.
Variable postgresql_table : string.

Local Abbreviation run :=
  (run_etl_pipeline html_parser clock network set_order path_of to_csv path_exists
                    sheets_api to_sql start_page end_page csv_filename google_sheets_id
                    google_sheets_name google_credentials postgresql_url postgresql_table).

Local Abbreviation extract := (extract_data html_parser clock network start_page end_page).

Local Abbreviation load :=
  (load_data path_of to_csv path_exists sheets_api to_sql).

Lemma run_extract_fails (w w' : world) (e : exn) :
  extract w = (Raise e, w') ->
  run w = (mkResults None None None (Some (str_exn e)), w').
Proof. unfold run_etl_pipeline. now intros ->. Qed.

Lemma run_transform_fails (w w' : world) (raw_data : list product) (e : exn) :
  extract w = (Ok raw_data, w') -> transform_data raw_data = Raise e ->
  run w = (mkResults (Some (List.length raw_data)) None None (Some (str_exn e)), w').
Proof. unfold run_etl_pipeline. now intros -> ->. Qed.

Lemma run_validation_fails (w w' : world) (raw_data : list product) (df : clean_frame) :
  extract w = (Ok raw_data, w') -> transform_data raw_data = Ok df -> rows df = [] ->
  run w = (mkResults (Some (List.length raw_data)) None None
                     (Some "Data validation failed: DataFrame is empty or None"), w').
Proof.
  unfold run_etl_pipeline. intros -> T R. rewrite T. cbn [bind].
  apply transform_data_inv in T. destruct T as (_ & _ & cleaned & _ & ->).
  rewrite validate_kept. cbn [rows] in R. now rewrite R.
Qed.

Lemma run_loads (w w' : world) (raw_data : list product) (df : clean_frame) :
  extract w = (Ok raw_data, w') -> transform_data raw_data = Ok df -> rows df <> [] ->
  exists d,
    load (Some df) csv_filename google_sheets_id google_sheets_name google_credentials
         postgresql_url postgresql_table = Returns d /\
    run w = (mkResults (Some (List.length raw_data))
                       (Some (List.length (rows df), columns_order)) (Some d) None, w').
Proof.
  unfold run_etl_pipeline. intros -> T R. rewrite T. cbn [bind].
  destruct (@transform_data_frame _ _ T) as (Hc & _ & He).
  apply transform_data_inv in T. destruct T as (_ & _ & cleaned & _ & ->).
  rewrite validate_kept. cbn [rows columns] in *.
  destruct (kept cleaned) as [|r l] eqn:K; [contradiction|]. cbn [bind].
  destruct (@load_data_returns path_of to_csv path_exists sheets_api to_sql
              (mkFrame columns_order (r :: l)) csv_filename
              google_sheets_id google_sheets_name google_credentials postgresql_url
              postgresql_table) as (d & L); [apply He; discriminate|].
  exists d. split; [exact L|]. rewrite L. reflexivity.
Qed.


End MainFacts.


